(** * GithubAppHandlerBase: event classification, lazy objects, configuration

    A shallow embedding of the Python sources

      - [githubapp/events/event.py]              (class [Event])
      - [githubapp/LazyCompletableGithubObject.py]
      - [githubapp/config.py]                    (class [ConfigValue])

    Python dictionaries are insertion-ordered association lists with unique
    keys, JSON payloads are values of the inductive type [value], exceptions
    are the constructors of [exn] carried by the error type [result], and the
    mutable state the code touches (class attributes of [Event], instance
    dictionaries of lazy objects, the outside world reached through the
    network) is passed explicitly. *)

From Stdlib Require Import List String Ascii ZArith Bool Arith Lia.
Import ListNotations.
Local Open Scope string_scope.
Local Open Scope list_scope.

Set Warnings "-register-all".

(** ** Python strings *)

Module PyStr.

(** [str.lower] on the ASCII range: the header and payload keys the
    handlers receive are ASCII. *)
Definition lower_ascii (c : ascii) : ascii :=
  let n := nat_of_ascii c in
  if andb (Nat.leb 65 n) (Nat.leb n 90) then ascii_of_nat (n + 32) else c.

Fixpoint lower (s : string) : string :=
  match s with
  | EmptyString => EmptyString
  | String c s' => String (lower_ascii c) (lower s')
  end.

Definition startswith (s pre : string) : bool := String.prefix pre s.

(** [s.replace(old, new)] for a non-empty [old]: one pass from the left,
    occurrences do not overlap. [skip] counts the characters of a matched
    occurrence that are still to be dropped. *)
Fixpoint replace_from (skip : nat) (old new s : string) : string :=
  match s with
  | EmptyString => EmptyString
  | String c s' =>
      match skip with
      | S k => replace_from k old new s'
      | O =>
          if String.prefix old s
          then String.append new (replace_from (String.length old - 1) old new s')
          else String c (replace_from 0 old new s')
      end
  end.

Definition replace (s old new : string) : string := replace_from 0 old new s.

(** [re.sub(r"[- ]", "_", s)] *)
Fixpoint sub_dash_space (s : string) : string :=
  match s with
  | EmptyString => EmptyString
  | String c s' =>
      String (if orb (Ascii.eqb c "-") (Ascii.eqb c " ") then "_"%char else c)
             (sub_dash_space s')
  end.

(** [s.split(sep)] for a one-character separator: never the empty list. *)
Fixpoint split_on (sep : ascii) (s : string) : list string :=
  match s with
  | EmptyString => [EmptyString]
  | String c s' =>
      if Ascii.eqb c sep then EmptyString :: split_on sep s'
      else match split_on sep s' with
           | [] => [String c EmptyString]
           | w :: ws => String c w :: ws
           end
  end.

End PyStr.

(** ** Python dictionaries *)

Module PyDict.

Section Dict.
Variable A : Type.

Definition t := list (string * A).

Fixpoint get (k : string) (d : t) : option A :=
  match d with
  | [] => None
  | (k', v) :: d' => if String.eqb k k' then Some v else get k d'
  end.

Definition mem (k : string) (d : t) : bool :=
  match get k d with Some _ => true | None => false end.

(** [d[k] = v]: an existing key keeps its position and takes the new
    value, a new key goes to the end. *)
Fixpoint set (k : string) (v : A) (d : t) : t :=
  match d with
  | [] => [(k, v)]
  | (k', v') :: d' =>
      if String.eqb k k' then (k', v) :: d' else (k', v') :: set k v d'
  end.

(** [d.update(other)] *)
Definition update (d other : t) : t :=
  fold_left (fun acc kv => set (fst kv) (snd kv) acc) other d.

Definition keys (d : t) : list string := map fst d.

(** What a Python dictionary is: no key twice. *)
Definition wf (d : t) : Prop := NoDup (keys d).

End Dict.

Arguments get {A} k d.
Arguments mem {A} k d.
Arguments set {A} k v d.
Arguments update {A} d other.
Arguments keys {A} d.
Arguments wf {A} d.

End PyDict.

(** ** JSON values, Python equality and truth *)

Inductive value : Type :=
| VNone
| VBool (b : bool)
| VInt (z : Z)
| VStr (s : string)
| VList (l : list value)
| VDict (d : list (string * value)).

Module PyVal.

Definition as_int (v : value) : option Z :=
  match v with
  | VBool true => Some 1%Z
  | VBool false => Some 0%Z
  | VInt z => Some z
  | _ => None
  end.

(** Python's [==] on JSON values: [bool] is a subtype of [int]
    ([True == 1]), lists compare element by element, dictionaries
    compare as mappings, whatever the order of their keys. *)
Fixpoint eqb (a b : value) {struct a} : bool :=
  match a, b with
  | VNone, VNone => true
  | VStr s, VStr s' => String.eqb s s'
  | VList l, VList l' =>
      (fix go (l l' : list value) {struct l} : bool :=
         match l, l' with
         | [], [] => true
         | x :: r, y :: r' => andb (eqb x y) (go r r')
         | _, _ => false
         end) l l'
  | VDict d, VDict d' =>
      andb (Nat.eqb (List.length d) (List.length d'))
           ((fix go (d : list (string * value)) {struct d} : bool :=
               match d with
               | [] => true
               | (k, v) :: r =>
                   andb (match PyDict.get k d' with
                         | Some v' => eqb v v'
                         | None => false
                         end) (go r)
               end) d)
  | (VBool _ | VInt _), (VBool _ | VInt _) =>
      match as_int a, as_int b with
      | Some x, Some y => Z.eqb x y
      | _, _ => false
      end
  | _, _ => false
  end.

(** Truth value of an object in an [if]. *)
Definition truthy (v : value) : bool :=
  match v with
  | VNone => false
  | VBool b => b
  | VInt z => negb (Z.eqb z 0)
  | VStr s => negb (String.eqb s "")
  | VList l => match l with [] => false | _ => true end
  | VDict d => match d with [] => false | _ => true end
  end.

Definition is_none (v : value) : bool :=
  match v with VNone => true | _ => false end.

End PyVal.

(** ** Exceptions *)

Inductive exn : Type :=
| KeyError (key : string)
| AttributeError (msg : string)
| ConfigError (msg : string)
| TypeError (msg : string)
| ValueError (msg : string)
| FileNotFoundError (path : string)
| RecursionError
| GithubException (status : Z)
| BadAttributeException (actual : value).

Inductive result (A : Type) : Type :=
| Ok (a : A)
| Err (e : exn).
Arguments Ok {A} a.
Arguments Err {A} e.

Definition rbind {A B} (r : result A) (k : A -> result B) : result B :=
  match r with Ok a => k a | Err e => Err e end.

Declare Scope result_scope.
Delimit Scope result_scope with result.
Notation "x <- c ;; k" := (rbind c (fun x => k))
  (at level 61, c at next level, right associativity) : result_scope.

(** State threaded through a computation that may raise: the state reached
    so far survives the exception, as an assignment made before a [raise]
    does. *)
Definition M (S A : Type) : Type := S -> S * result A.

Definition ret {S A} (a : A) : M S A := fun s => (s, Ok a).
Definition raise {S A} (e : exn) : M S A := fun s => (s, Err e).
Definition lift {S A} (r : result A) : M S A := fun s => (s, r).
Definition bind {S A B} (m : M S A) (k : A -> M S B) : M S B :=
  fun s => match m s with
           | (s', Ok a) => k a s'
           | (s', Err e) => (s', Err e)
           end.
Definition get_state {S} : M S S := fun s => (s, Ok s).
Definition modify {S} (f : S -> S) : M S unit := fun s => (f s, Ok tt).

Declare Scope monad_scope.
Delimit Scope monad_scope with monad.
Notation "x <- c ;; k" := (bind c (fun x => k))
  (at level 61, c at next level, right associativity) : monad_scope.
Notation "c ;;; k" := (bind c (fun _ => k))
  (at level 61, right associativity) : monad_scope.

(** ** Built-ins: [d[k]] and [int(x)] *)

Module Builtins.

Definition getitem (d : PyDict.t value) (k : string) : result value :=
  match PyDict.get k d with
  | Some v => Ok v
  | None => Err (KeyError k)
  end.

Definition is_space (c : ascii) : bool :=
  let n := nat_of_ascii c in
  orb (Nat.eqb n 32) (andb (Nat.leb 9 n) (Nat.leb n 13)).

Definition digit_of (c : ascii) : option Z :=
  let n := nat_of_ascii c in
  if andb (Nat.leb 48 n) (Nat.leb n 57) then Some (Z.of_nat (n - 48)) else None.

Fixpoint lstrip (s : string) : string :=
  match s with
  | String c s' => if is_space c then lstrip s' else s
  | EmptyString => EmptyString
  end.

Fixpoint rstrip (s : string) : string :=
  match s with
  | EmptyString => EmptyString
  | String c s' =>
      match rstrip s' with
      | EmptyString => if is_space c then EmptyString else String c EmptyString
      | r => String c r
      end
  end.

(** Decimal digits, a single underscore allowed between two digits. *)
Fixpoint digits (acc : Z) (after_digit : bool) (s : string) : option Z :=
  match s with
  | EmptyString => if after_digit then Some acc else None
  | String c s' =>
      match digit_of c with
      | Some d => digits (acc * 10 + d) true s'
      | None =>
          if andb (Ascii.eqb c "_") after_digit then digits acc false s'
          else None
      end
  end.

Definition int_of_string (s : string) : option Z :=
  match rstrip (lstrip s) with
  | String "-" r => option_map Z.opp (digits 0 false r)
  | String "+" r => digits 0 false r
  | r => digits 0 false r
  end.

(** [int(x)] on a JSON value (base 10, ASCII digits). *)
Definition int (x : value) : result Z :=
  match x with
  | VInt z => Ok z
  | VBool b => Ok (if b then 1 else 0)%Z
  | VStr s =>
      match int_of_string s with
      | Some z => Ok z
      | None => Err (ValueError "invalid literal for int() with base 10")
      end
  | _ => Err (TypeError "int() argument must be a string or a real number")
  end.

End Builtins.

(** ** [githubapp/events/event.py] *)

Module Event.

(** *** [normalize_dicts] *)

(** The three rewrites of a key, line by line. *)
Definition normalize_key (attr : string) : string :=
  let attr := PyStr.lower attr in
  let attr := PyStr.replace attr "x-github-" "" in
  PyStr.sub_dash_space attr.

(** The inner loop, over [d.items()]. *)
Definition normalize_into (union_dict : PyDict.t value) (d : PyDict.t value)
  : PyDict.t value :=
  fold_left (fun u kv => PyDict.set (normalize_key (fst kv)) (snd kv) u)
            d union_dict.

Definition normalize_dicts (dicts : list (PyDict.t value)) : PyDict.t value :=
  fold_left normalize_into dicts [].

(** *** The class tree, [match] and [get_event] *)

(** A subclass of [Event]: its name, the value that [cls.event_identifier]
    evaluates to on it (its own or an inherited one; [None] on [Event]
    itself) and [cls.__subclasses__()], in definition order. *)
Inductive EventClass : Type :=
| Class (name : string)
        (event_identifier : option (PyDict.t value))
        (subclasses : list EventClass).

Definition name (c : EventClass) : string :=
  match c with Class n _ _ => n end.
Definition event_identifier (c : EventClass) : option (PyDict.t value) :=
  match c with Class _ i _ => i end.
Definition subclasses (c : EventClass) : list EventClass :=
  match c with Class _ _ l => l end.

(** [attr in data and value == data[attr]] *)
Definition field_matches (data : PyDict.t value) (kv : string * value) : bool :=
  andb (PyDict.mem (fst kv) data)
       (match PyDict.get (fst kv) data with
        | Some x => PyVal.eqb (snd kv) x
        | None => false
        end).

(** [match]; on a class whose [event_identifier] is [None] the call of
    [.items()] raises. *)
Definition match_ (cls : EventClass) (data : PyDict.t value) : result bool :=
  match event_identifier cls with
  | Some ident => Ok (forallb (field_matches data) ident)
  | None => Err (AttributeError "'NoneType' object has no attribute 'items'")
  end.

Fixpoint get_event (cls : EventClass) (headers body : PyDict.t value)
  : result EventClass :=
  let event_class := cls in
  let union_dict := normalize_dicts [headers; body] in
  match cls with
  | Class _ _ subs =>
      (fix scan (l : list EventClass) : result EventClass :=
         match l with
         | [] => Ok event_class
         | event :: rest =>
             match match_ event union_dict with
             | Err e => Err e
             | Ok true => get_event event headers body
             | Ok false => scan rest
             end
         end) subs
  end.

(** *** [fix_attributes], [_parse_object] and [__init__] *)

(** [fix_attributes] writes into the dictionary it is given; the updated
    dictionary is returned here. *)
Definition fix_attributes (attributes : PyDict.t value) : result (PyDict.t value) :=
  match (match PyDict.get "url" attributes with Some v => v | None => VStr "" end) with
  | VStr url =>
      if PyStr.startswith url "https://github"
      then
        match PyDict.get "url" attributes with
        | Some (VStr u) =>
            Ok (PyDict.set "url"
                  (VStr (PyStr.replace
                           (PyStr.replace u "https://github.com"
                                          "https://api.github.com/repos")
                           "/commit/" "/commits/"))
                  attributes)
        | _ => Err (KeyError "url")
        end
      else Ok attributes
  | _ => Err (AttributeError "object has no attribute 'startswith'")
  end.

(** Objects the handler is given and does not look into ([gh], [requester]). *)
Definition handle := string.

(** What [clazz(requester=..., headers={}, attributes=value, completed=False)]
    is built from. *)
Record GithubObject : Type := {
  go_class : string;
  go_requester : handle;
  go_headers : PyDict.t value;
  go_attributes : PyDict.t value;
  go_completed : bool
}.

Definition _parse_object (requester : handle) (clazz : string) (v : value)
  : result (option GithubObject) :=
  match v with
  | VNone => Ok None
  | VDict d =>
      match fix_attributes d with
      | Ok d' => Ok (Some {| go_class := clazz; go_requester := requester;
                             go_headers := []; go_attributes := d';
                             go_completed := false |})
      | Err e => Err e
      end
  | _ => Err (AttributeError "object has no attribute 'get'")
  end.

(** The attributes assigned on the class [Event] itself. *)
Record ClassAttrs : Type := {
  delivery : value;
  github_event : value;
  hook_id : value;
  hook_installation_target_id : value;
  hook_installation_target_type : value;
  installation_id : value;
  _raw_body : value;
  _raw_headers : value
}.

(** The class body: every attribute starts as [None]. *)
Definition class_body : ClassAttrs :=
  {| delivery := VNone; github_event := VNone; hook_id := VNone;
     hook_installation_target_id := VNone;
     hook_installation_target_type := VNone; installation_id := VNone;
     _raw_body := VNone; _raw_headers := VNone |}.

(** The attributes assigned on [self]. *)
Record Instance : Type := {
  gh : handle;
  requester : handle;
  repository : option GithubObject;
  sender : option GithubObject;
  check_run : option GithubObject
}.

(** The class attributes and the instances alive, addressed by position. *)
Record State : Type := {
  cls : ClassAttrs;
  heap : list Instance
}.

Definition initial : State := {| cls := class_body; heap := [] |}.

Definition on_class (f : ClassAttrs -> ClassAttrs) : M State unit :=
  modify (fun st => {| cls := f (cls st); heap := heap st |}).

Definition alloc (i : Instance) : M State nat :=
  fun st => ({| cls := cls st; heap := heap st ++ [i] |}, Ok (List.length (heap st))).

Definition set_delivery (v : value) (c : ClassAttrs) : ClassAttrs :=
  {| delivery := v; github_event := github_event c; hook_id := hook_id c;
     hook_installation_target_id := hook_installation_target_id c;
     hook_installation_target_type := hook_installation_target_type c;
     installation_id := installation_id c;
     _raw_body := _raw_body c; _raw_headers := _raw_headers c |}.
Definition set_github_event (v : value) (c : ClassAttrs) : ClassAttrs :=
  {| delivery := delivery c; github_event := v; hook_id := hook_id c;
     hook_installation_target_id := hook_installation_target_id c;
     hook_installation_target_type := hook_installation_target_type c;
     installation_id := installation_id c;
     _raw_body := _raw_body c; _raw_headers := _raw_headers c |}.
Definition set_hook_id (v : value) (c : ClassAttrs) : ClassAttrs :=
  {| delivery := delivery c; github_event := github_event c; hook_id := v;
     hook_installation_target_id := hook_installation_target_id c;
     hook_installation_target_type := hook_installation_target_type c;
     installation_id := installation_id c;
     _raw_body := _raw_body c; _raw_headers := _raw_headers c |}.
Definition set_hook_installation_target_id (v : value) (c : ClassAttrs) : ClassAttrs :=
  {| delivery := delivery c; github_event := github_event c; hook_id := hook_id c;
     hook_installation_target_id := v;
     hook_installation_target_type := hook_installation_target_type c;
     installation_id := installation_id c;
     _raw_body := _raw_body c; _raw_headers := _raw_headers c |}.
Definition set_hook_installation_target_type (v : value) (c : ClassAttrs) : ClassAttrs :=
  {| delivery := delivery c; github_event := github_event c; hook_id := hook_id c;
     hook_installation_target_id := hook_installation_target_id c;
     hook_installation_target_type := v;
     installation_id := installation_id c;
     _raw_body := _raw_body c; _raw_headers := _raw_headers c |}.
Definition set_installation_id (v : value) (c : ClassAttrs) : ClassAttrs :=
  {| delivery := delivery c; github_event := github_event c; hook_id := hook_id c;
     hook_installation_target_id := hook_installation_target_id c;
     hook_installation_target_type := hook_installation_target_type c;
     installation_id := v;
     _raw_body := _raw_body c; _raw_headers := _raw_headers c |}.
Definition set_raw_headers (v : value) (c : ClassAttrs) : ClassAttrs :=
  {| delivery := delivery c; github_event := github_event c; hook_id := hook_id c;
     hook_installation_target_id := hook_installation_target_id c;
     hook_installation_target_type := hook_installation_target_type c;
     installation_id := installation_id c;
     _raw_body := _raw_body c; _raw_headers := v |}.
Definition set_raw_body (v : value) (c : ClassAttrs) : ClassAttrs :=
  {| delivery := delivery c; github_event := github_event c; hook_id := hook_id c;
     hook_installation_target_id := hook_installation_target_id c;
     hook_installation_target_type := hook_installation_target_type c;
     installation_id := installation_id c;
     _raw_body := v; _raw_headers := _raw_headers c |}.

(** [kwargs.get("installation", {}).get("id")] *)
Definition installation_id_of (kwargs : PyDict.t value) : result value :=
  match (match PyDict.get "installation" kwargs with
         | Some v => v
         | None => VDict []
         end) with
  | VDict inst =>
      Ok (match PyDict.get "id" inst with Some v => v | None => VNone end)
  | _ => Err (AttributeError "object has no attribute 'get'")
  end.

Local Open Scope monad_scope.

(** [Event.__init__(self, *, gh, requester, headers, sender,
    repository=None, **kwargs)]. Statement by statement; the result is the
    position of the new instance. *)
Definition __init__ (gh_ requester_ : handle) (headers : PyDict.t value)
           (sender_ repository_ : value) (kwargs : PyDict.t value)
  : M State nat :=
  v <- lift (Builtins.getitem headers "X-Github-Delivery") ;;
  on_class (set_delivery v) ;;;
  v <- lift (Builtins.getitem headers "X-Github-Event") ;;
  on_class (set_github_event v) ;;;
  v <- lift (Builtins.getitem headers "X-Github-Hook-Id") ;;
  z <- lift (Builtins.int v) ;;
  on_class (set_hook_id (VInt z)) ;;;
  v <- lift (Builtins.getitem headers "X-Github-Hook-Installation-Target-Id") ;;
  z <- lift (Builtins.int v) ;;
  on_class (set_hook_installation_target_id (VInt z)) ;;;
  v <- lift (Builtins.getitem headers "X-Github-Hook-Installation-Target-Type") ;;
  on_class (set_hook_installation_target_type v) ;;;
  i <- lift (installation_id_of kwargs) ;;
  i <- (if PyVal.truthy i
        then z <- lift (Builtins.int i) ;; ret (VInt z)
        else ret i) ;;
  on_class (set_installation_id i) ;;;
  on_class (set_raw_headers (VDict headers)) ;;;
  on_class (set_raw_body (VDict kwargs)) ;;;
  repo <- lift (_parse_object requester_ "Repository" repository_) ;;
  sndr <- lift (_parse_object requester_ "NamedUser" sender_) ;;
  alloc {| gh := gh_; requester := requester_; repository := repo;
           sender := sndr; check_run := None |}.

(** What an attribute read on an instance yields. *)
Inductive attr : Type :=
| AValue (v : value)
| AHandle (h : handle)
| AObject (o : option GithubObject).

(** [self.<name>]: the instance dictionary first, then the class. *)
Definition getattr (st : State) (self : nat) (item : string) : result attr :=
  match nth_error (heap st) self with
  | None => Err (AttributeError "no such instance")
  | Some i =>
      if String.eqb item "gh" then Ok (AHandle (gh i))
      else if String.eqb item "requester" then Ok (AHandle (requester i))
      else if String.eqb item "repository" then Ok (AObject (repository i))
      else if String.eqb item "sender" then Ok (AObject (sender i))
      else if String.eqb item "check_run" then Ok (AObject (check_run i))
      else if String.eqb item "delivery" then Ok (AValue (delivery (cls st)))
      else if String.eqb item "github_event" then Ok (AValue (github_event (cls st)))
      else if String.eqb item "hook_id" then Ok (AValue (hook_id (cls st)))
      else if String.eqb item "hook_installation_target_id"
      then Ok (AValue (hook_installation_target_id (cls st)))
      else if String.eqb item "hook_installation_target_type"
      then Ok (AValue (hook_installation_target_type (cls st)))
      else if String.eqb item "installation_id"
      then Ok (AValue (installation_id (cls st)))
      else if String.eqb item "_raw_body" then Ok (AValue (_raw_body (cls st)))
      else if String.eqb item "_raw_headers" then Ok (AValue (_raw_headers (cls st)))
      else Err (AttributeError item)
  end.

Local Close Scope monad_scope.

(** *** [start_check_run] and [update_check_run] *)

(** [title] and [summary] of [self.check_run.output]. *)
Record CheckRunOutput : Type := {
  output_title : value;
  output_summary : value
}.

(** [x or y] *)
Definition or_else (x y : value) : value := if PyVal.truthy x then x else y.

(** [start_check_run]: the arguments of [create_check_run], the call being
    made on [self.repository]; [has_repository] tells whether that is an
    object. The result of the call becomes [self.check_run]. *)
Definition start_check_run (has_repository : bool)
           (name sha title summary text status : value)
  : result (value * value * value * PyDict.t value) :=
  let output := [("title", or_else title name); ("summary", or_else summary (VStr ""))] in
  let output := if PyVal.truthy text then PyDict.set "text" text output else output in
  if has_repository then Ok (name, sha, status, output)
  else Err (AttributeError "'NoneType' object has no attribute 'create_check_run'").

(** [update_check_run]: the keyword arguments [edit] is called with, or
    [None] when it is not called. [check_run] is the output of
    [self.check_run], if there is a check run. *)
Definition update_check_run (check_run : option CheckRunOutput)
           (status conclusion : value) (output : PyDict.t value)
  : result (option (PyDict.t value)) :=
  let args : PyDict.t value := [] in
  let args := if negb (PyVal.is_none status) then PyDict.set "status" status args else args in
  let args := if negb (PyVal.is_none conclusion)
              then PyDict.set "status" (VStr "completed")
                              (PyDict.set "conclusion" conclusion args)
              else args in
  match (if PyVal.truthy (VDict output)
         then match check_run with
              | None => Err (AttributeError "'NoneType' object has no attribute 'output'")
              | Some current =>
                  let output :=
                    PyDict.set "title"
                      (match PyDict.get "title" output with
                       | Some t => t
                       | None => output_title current
                       end) output in
                  let output :=
                    PyDict.set "summary"
                      (match PyDict.get "summary" output with
                       | Some s => s
                       | None => output_summary current
                       end) output in
                  Ok (PyDict.set "output" (VDict output) args)
              end
         else Ok args) with
  | Err e => Err e
  | Ok args =>
      if PyVal.truthy (VDict args)
      then match check_run with
           | None => Err (AttributeError "'NoneType' object has no attribute 'edit'")
           | Some _ => Ok (Some args)
           end
      else Ok None
  end.

End Event.

(** ** [githubapp/LazyCompletableGithubObject.py] *)

Module Lazy.

(** [Requester(auth=Token(token), ...)]: the other arguments are the
    library's constants. *)
Record Requester : Type := { auth_token : string }.

(** PyGithub's [Attribute]: [NotSet], an attribute holding a value, or a
    [_BadAttribute] holding a value of another type than the field has. *)
Inductive Attribute : Type :=
| NotSet
| Valued (v : value)
| Bad (v : value).

(** [a.value]: [None] on [NotSet]; on a [_BadAttribute] it raises. *)
Definition attribute_value (a : Attribute) : result value :=
  match a with
  | NotSet => Ok VNone
  | Valued v => Ok v
  | Bad v => Err (BadAttributeException v)
  end.

(** [_makeStringAttribute(value)]: [None] and strings are values of the
    field. *)
Definition _makeStringAttribute (v : value) : Attribute :=
  match v with
  | VNone | VStr _ => Valued v
  | _ => Bad v
  end.

(** What an attribute read can yield. *)
Inductive pyobj : Type :=
| PValue (v : value)
| PAttribute (a : Attribute)
| PRequester (r : Requester)
| PMethod (name : string).

Definition None_ : pyobj := PValue VNone.

(** [x is None] *)
Definition is_None (x : pyobj) : bool :=
  match x with PValue VNone => true | _ => false end.

Definition truthy (x : pyobj) : bool :=
  match x with PValue v => PyVal.truthy v | _ => true end.

(** A resource class as PyGithub writes them, in the way of the class of
    the tests: for each name [f] of [fields] a property [f] over the slot
    [_f], a string attribute, filled by [_initAttributes] and, through
    [_makeStringAttribute], by [_useAttributes]; [methods] are its other
    attributes, those that are no properties. *)
Record Clazz : Type := {
  clazz_name : string;
  __bases__ : list string;
  fields : list string;
  methods : list string
}.

Record Obj : Type := {
  __class__ : Clazz;
  __dict__ : PyDict.t pyobj
}.

(** What the code reaches outside the process, and a record of what it
    did there. [get_access_token n ...] is the outcome of the exchange made
    after [n] earlier ones, [requestJsonAndCheck n ...] that of the request
    made after [n] earlier ones. [app_id] and [installation_id] are the
    attributes of the class [Event] of the module [githubapp.Event]. *)
Record World : Type := {
  PRIVATE_KEY : option string;
  private_key_pem : option string;
  app_id : value;
  installation_id : value;
  get_access_token : nat -> value -> string -> value -> result string;
  requestJsonAndCheck :
    nat -> Requester -> pyobj -> result (PyDict.t value * PyDict.t value);
  exchanges : list (value * string * value);
  requests : list (Requester * pyobj)
}.

Definition log_exchange (x : value * string * value) (w : World) : World :=
  {| PRIVATE_KEY := PRIVATE_KEY w; private_key_pem := private_key_pem w;
     app_id := app_id w; installation_id := installation_id w;
     get_access_token := get_access_token w;
     requestJsonAndCheck := requestJsonAndCheck w;
     exchanges := exchanges w ++ [x]; requests := requests w |}.

Definition log_request (x : Requester * pyobj) (w : World) : World :=
  {| PRIVATE_KEY := PRIVATE_KEY w; private_key_pem := private_key_pem w;
     app_id := app_id w; installation_id := installation_id w;
     get_access_token := get_access_token w;
     requestJsonAndCheck := requestJsonAndCheck w;
     exchanges := exchanges w; requests := requests w ++ [x] |}.

Definition St : Type := (World * Obj)%type.

Definition setattr (k : string) (v : pyobj) : M St unit :=
  modify (fun st : St =>
            (fst st, {| __class__ := __class__ (snd st);
                        __dict__ := PyDict.set k v (__dict__ (snd st)) |})).

Definition slot (f : string) : string := String "_" f.

(** *** [__init__]

    The dictionary of a new instance, assignment by assignment:
    [LazyCompletableGithubObject.__init__] around
    [CompletableGithubObject.__init__]. [completed] is [True] at both
    places of this file that build an instance ([get_lazy_instance] by
    default, the refetch explicitly), and the model is of such instances:
    PyGithub's own completion, which runs on an instance that is not
    completed, stays out of it. While [__init__] runs, [_lazy_initialized]
    is [False] and no read of [self] fetches. *)
Definition _initAttributes (c : Clazz) (d : PyDict.t pyobj) : PyDict.t pyobj :=
  fold_left (fun d f => PyDict.set (slot f) (PAttribute NotSet) d) (fields c) d.

Definition _useAttributes (c : Clazz) (attributes : PyDict.t value)
           (d : PyDict.t pyobj) : PyDict.t pyobj :=
  fold_left (fun d f => match PyDict.get f attributes with
                        | Some v =>
                            PyDict.set (slot f) (PAttribute (_makeStringAttribute v)) d
                        | None => d
                        end) (fields c) d.

Definition __init__ (c : Clazz) (requester : pyobj)
           (headers attributes : PyDict.t value) : Obj :=
  let d := PyDict.set "_lazy_initialized" (PValue (VBool false)) [] in
  let d := PyDict.set "_requester" requester d in
  let d := _initAttributes c d in
  let d := _useAttributes c attributes d in
  let d := PyDict.set "_headers" (PValue (VDict headers)) d in
  let d := PyDict.set "_rawData" (PValue (VDict attributes)) d in
  let d := PyDict.set "_CompletableGithubObject__completed" (PValue (VBool true)) d in
  let d := PyDict.set "_lazy_initialized" (PValue (VBool true)) d in
  let d := PyDict.set "_lazy_requester" None_ d in
  {| __class__ := c; __dict__ := d |}.

(** *** [get_lazy_instance] *)

Definition LazyCompletableGithubObject : string := "LazyCompletableGithubObject".

Definition in_list (x : string) (l : list string) : bool :=
  existsb (String.eqb x) l.

Definition has_base (b : string) (c : Clazz) : bool :=
  existsb (String.eqb b) (__bases__ c).

Section Classes.
(** The classes of the process: for the name of a class, its method
    resolution order, the class itself first. *)
Variable mro : string -> list string.

(** Python's merge of linearizations, which gives a class its method
    resolution order from those of its bases and the list of the bases: the
    next class is the first head of a list that is in the tail of no list;
    there is no order when no head is free. *)
Definition in_tail (x : string) (l : list string) : bool := in_list x (tl l).

Fixpoint next_head (candidates seqs : list (list string)) : option string :=
  match candidates with
  | [] => None
  | [] :: rest => next_head rest seqs
  | (h :: _) :: rest =>
      if existsb (in_tail h) seqs then next_head rest seqs else Some h
  end.

Definition drop_head (h : string) (l : list string) : list string :=
  match l with
  | x :: t => if String.eqb x h then t else l
  | [] => []
  end.

Definition exhausted (seqs : list (list string)) : bool :=
  forallb (fun l => match l with [] => true | _ => false end) seqs.

Fixpoint merge (fuel : nat) (seqs : list (list string)) : option (list string) :=
  if exhausted seqs then Some []
  else match fuel with
       | O => None
       | S fuel' =>
           match next_head seqs seqs with
           | None => None
           | Some h =>
               match merge fuel' (map (drop_head h) seqs) with
               | Some order => Some (h :: order)
               | None => None
               end
           end
       end.

(** The order of a class with these bases; every step of the merge takes
    one class off the lists. *)
Definition linearize (name : string) (bases : list string) : option (list string) :=
  let seqs := map mro bases ++ [bases] in
  match merge (List.length (List.concat seqs)) seqs with
  | Some order => Some (name :: order)
  | None => None
  end.

(** [clazz.__bases__ = bases], for classes defined in Python, without
    [__slots__], [clazz] having no subclass of its own. The interpreter
    refuses the assignment with [TypeError], and leaves the class as it is,
    when a new base is the class or derives from it, when the class derives
    from [object] directly (a class defined in Python is not laid out and
    freed as [object] is), and when the new bases admit no method resolution
    order. *)
Definition set_bases (clazz : Clazz) (bases : list string) : result Clazz :=
  if existsb (fun b => in_list (clazz_name clazz) (mro b)) bases
  then Err (TypeError "a __bases__ item causes an inheritance cycle")
  else if match __bases__ clazz with
          | b :: _ => String.eqb b "object"
          | [] => false
          end
  then Err (TypeError
              (String.append "__bases__ assignment: '"
                 (String.append (hd "object" bases)
                                "' deallocator differs from 'object'")))
  else match linearize (clazz_name clazz) bases with
       | None =>
           Err (TypeError "Cannot create a consistent method resolution order (MRO)")
       | Some _ =>
           Ok {| clazz_name := clazz_name clazz; __bases__ := bases;
                 fields := fields clazz; methods := methods clazz |}
       end.

(** The class as the call leaves it, and the instance returned or the
    exception raised. *)
Definition get_lazy_instance (clazz : Clazz) (attributes : PyDict.t value)
  : Clazz * result Obj :=
  if negb (has_base LazyCompletableGithubObject clazz)
  then match set_bases clazz (LazyCompletableGithubObject :: __bases__ clazz) with
       | Err e => (clazz, Err e)
       | Ok clazz' => (clazz', Ok (__init__ clazz' None_ [] attributes))
       end
  else (clazz, Ok (__init__ clazz None_ [] attributes)).

End Classes.

(** *** The property [lazy_requester] and [__getattribute__] *)

Local Open Scope monad_scope.

Section Reads.
(** [self.<name>] inside a method body: a call of [__getattribute__]
    one level deeper. *)
Variable self_ : string -> M St pyobj.

Definition read_private_key : M St string :=
  st <- get_state ;;
  match PRIVATE_KEY (fst st) with
  | Some k =>
      if negb (String.eqb k "") then ret k
      else match private_key_pem (fst st) with
           | Some k' => ret k'
           | None => raise (FileNotFoundError "private-key.pem")
           end
  | None =>
      match private_key_pem (fst st) with
      | Some k' => ret k'
      | None => raise (FileNotFoundError "private-key.pem")
      end
  end.

(** [GithubIntegration(auth=AppAuth(Event.app_id, private_key))
    .get_access_token(Event.installation_id).token] *)
Definition exchange (private_key : string) : M St string :=
  fun st =>
    let w := fst st in
    let x := (app_id w, private_key, installation_id w) in
    ((log_exchange x w, snd st),
     get_access_token w (List.length (exchanges w))
                      (app_id w) private_key (installation_id w)).

Definition lazy_requester : M St pyobj :=
  r <- self_ "_lazy_requester" ;;
  (if is_None r
   then
     private_key <- read_private_key ;;
     token <- exchange private_key ;;
     setattr "_lazy_requester" (PRequester {| auth_token := token |})
   else ret tt) ;;;
  self_ "_lazy_requester".

(** A property of the class: [self._completeIfNotSet(self._f)], which
    returns at once on a completed instance, then
    [return self._f.value]. *)
Definition field_property (f : string) : M St pyobj :=
  _ <- self_ (slot f) ;;
  a <- self_ (slot f) ;;
  match a with
  | PAttribute a => v <- lift (attribute_value a) ;; ret (PValue v)
  | _ => raise (AttributeError "object has no attribute 'value'")
  end.

(** [super().__getattribute__(item)]: properties of the class, then the
    instance dictionary, then the other attributes of the class. *)
Definition super_getattribute (item : string) : M St pyobj :=
  st <- get_state ;;
  let o := snd st in
  if in_list item (fields (__class__ o)) then field_property item
  else if String.eqb item "lazy_requester" then lazy_requester
  else match PyDict.get item (__dict__ o) with
       | Some v => ret v
       | None =>
           if in_list item (methods (__class__ o)) then ret (PMethod item)
           else raise (AttributeError item)
       end.

(** [requester.requestJsonAndCheck("GET", url)] *)
Definition request (requester url : pyobj) : M St (PyDict.t value * PyDict.t value) :=
  match requester with
  | PRequester r =>
      fun st =>
        let w := fst st in
        ((log_request (r, url) w, snd st),
         requestJsonAndCheck w (List.length (requests w)) r url)
  | _ => raise (AttributeError "object has no attribute 'requestJsonAndCheck'")
  end.

(** [self.__dict__.update(new_self.__dict__)] *)
Definition update_dict (new_self : Obj) : M St unit :=
  modify (fun st : St =>
            (fst st, {| __class__ := __class__ (snd st);
                        __dict__ := PyDict.update (__dict__ (snd st))
                                                  (__dict__ new_self) |})).

Definition getattribute_body (item : string) : M St pyobj :=
  value <- super_getattribute item ;;
  guard <- (if negb (PyStr.startswith item "_lazy")
            then li <- self_ "_lazy_initialized" ;;
                 if truthy li
                 then lr <- self_ "_lazy_requester" ;;
                      ret (andb (is_None lr) (is_None value))
                 else ret false
            else ret false) ;;
  if (guard : bool)
  then
    rq <- self_ "lazy_requester" ;;
    url <- self_ "url" ;;
    hd <- request rq url ;;
    rq' <- self_ "lazy_requester" ;;
    st <- get_state ;;
    let new_self := __init__ (__class__ (snd st)) rq' (fst hd) (snd hd) in
    update_dict new_self ;;;
    super_getattribute item
  else ret value.

End Reads.

(** [__getattribute__], [fuel] bounding the depth of nested reads of
    [self] (Python's recursion limit). *)
Fixpoint getattribute (fuel : nat) (item : string) : M St pyobj :=
  match fuel with
  | O => raise RecursionError
  | S fuel' => getattribute_body (getattribute fuel') item
  end.

Local Close Scope monad_scope.

End Lazy.

(** ** [githubapp/config.py] *)

Module Config.

(** The objects a configuration lookup walks through: a plain value, a
    [ConfigValue] with its instance dictionary, or what the type of an
    object provides under a name: a bound method of [ConfigValue], a method
    of [str], ..., and for [ConfigValue] also [__doc__], [__module__],
    [__dict__] and [__weakref__] (which is [None]), values that the model
    does not look into. *)
Inductive obj : Type :=
| OValue (v : value)
| OConfig (attrs : list (string * obj))
| OBound (self : obj) (name : string).

Inductive pytype : Type :=
| TObject | TNoneType | TBool | TInt | TStr | TList | TDict | TMethod.

Definition type_of (v : value) : pytype :=
  match v with
  | VNone => TNoneType
  | VBool _ => TBool
  | VInt _ => TInt
  | VStr _ => TStr
  | VList _ => TList
  | VDict _ => TDict
  end.

(** What the statement [class ConfigValue] defines: the names of its
    body, and [__dict__] and [__weakref__], which every class statement
    without [__slots__] adds. *)
Definition ConfigValue_attrs : list string :=
  ["__init__"; "set_values"; "create_config"; "load_config_from_file";
   "__getattr__"; "get"; "call_if"; "__doc__"; "__module__";
   "__dict__"; "__weakref__"].

(** [ConfigValue()] *)
Definition ConfigValue (v : value) : obj := OConfig [("_value", OValue v)].

Definition no_such_config_value (item : string) : string :=
  String.append "No such config value: "
    (String.append item ". And there is no default value for it").

(** [ConfigValue.__getattr__] *)
Definition __getattr__ (item : string) : result obj :=
  Err (ConfigError (no_such_config_value item)).

Section Runtime.
(** The attributes the built-in types of Python provide ([object] for
    what [ConfigValue] inherits). *)
Variable builtin_attr : pytype -> string -> bool.

(** [getattr(o, name)]: the instance dictionary, then the class, and on a
    [ConfigValue] [__getattr__] when both fail. *)
Definition getattr (o : obj) (name : string) : result obj :=
  match o with
  | OConfig attrs =>
      match PyDict.get name attrs with
      | Some x => Ok x
      | None =>
          if orb (existsb (String.eqb name) ConfigValue_attrs)
                 (builtin_attr TObject name)
          then Ok (OBound o name)
          else __getattr__ name
      end
  | OValue v =>
      if builtin_attr (type_of v) name then Ok (OBound o name)
      else Err (AttributeError name)
  | OBound _ _ =>
      if builtin_attr TMethod name then Ok (OBound o name)
      else Err (AttributeError name)
  end.

(** [getattr(o, name, default)]: [AttributeError], of which
    [ConfigError] is a subclass, gives the default. *)
Definition getattr_default (o : obj) (name : string) (default : obj) : result obj :=
  match getattr o name with
  | Ok x => Ok x
  | Err (AttributeError _) | Err (ConfigError _) => Ok default
  | Err e => Err e
  end.

Definition NO_DEFAULT : obj := OValue (VStr "__NO_DEFAULT__").

(** [default == "__NO_DEFAULT__"] *)
Definition is_no_default (default : obj) : bool :=
  match default with
  | OValue v => PyVal.eqb v (VStr "__NO_DEFAULT__")
  | _ => false
  end.

(** The loop of [get] over the names left. *)
Fixpoint get_loop (value : obj) (names : list string) (default : obj) : result obj :=
  match names with
  | [] => Ok value
  | name :: rest =>
      match (if is_no_default default
             then getattr value name
             else getattr_default value name default) with
      | Ok value' => get_loop value' rest default
      | Err e => Err e
      end
  end.

(** Whether an attribute stored on the instance hides the method [name] of
    the class: the instance dictionary comes before the functions of the
    class in the lookup. *)
Definition hidden (name : string) (self : obj) : bool :=
  match self with
  | OConfig attrs => PyDict.mem name attrs
  | _ => false
  end.

(** [self.get(config_name, default)]: when an attribute [get] was stored
    on [self], the call is a call of what is stored, which the code never
    makes callable; otherwise the body of [get]. *)
Definition get (self : obj) (config_name : string) (default : obj) : result obj :=
  if hidden "get" self
  then Err (TypeError "object is not callable")
  else get_loop self (PyStr.split_on "." config_name) default.

End Runtime.

Section Writes.
Variable builtin_attr : pytype -> string -> bool.

(** The instance dictionary that [o.set_values(...)] works on, when the
    lookup of [set_values] on [o] finds the method of [ConfigValue]: an
    instance attribute of that name hides the method (what the code stores
    there cannot be called), and an object that is not a [ConfigValue] has
    no such method. *)
Definition set_values_of (o : obj) : result (list (string * obj)) :=
  match o with
  | OConfig attrs =>
      match PyDict.get "set_values" attrs with
      | None => Ok attrs
      | Some _ => Err (TypeError "object is not callable")
      end
  | _ =>
      match getattr builtin_attr o "set_values" with
      | Err e => Err e
      | Ok _ => Err (TypeError "object is not callable")
      end
  end.

(** The branch of [set_values] for a value that is a dictionary:
    [config_value = getattr(self, attr, ConfigValue())], then
    [config_value.set_values(value)], here [call], then
    [setattr(self, attr, config_value)]. An attribute found is changed in
    place, so what [call] did to it before raising stays; a new
    [ConfigValue] is only attached when [call] returns. *)
Definition set_nested
           (call : list (string * obj) -> list (string * obj) * result unit)
           (attr : string) (attrs : list (string * obj))
  : list (string * obj) * result unit :=
  let found := getattr builtin_attr (OConfig attrs) attr in
  let config_value := match found with Ok x => x | Err _ => ConfigValue VNone end in
  match set_values_of config_value with
  | Err e => (attrs, Err e)
  | Ok child =>
      match call child with
      | (child', Ok _) => (PyDict.set attr (OConfig child') attrs, Ok tt)
      | (child', Err e) =>
          (match found with
           | Ok _ => PyDict.set attr (OConfig child') attrs
           | Err _ => attrs
           end, Err e)
      end
  end.

(** [ConfigValue.set_values(self, data)] on the instance dictionary of
    [self]; [data.items()] raises when [data] is not a dictionary. *)
Fixpoint set_values (data : value) (attrs : list (string * obj)) {struct data}
  : list (string * obj) * result unit :=
  match data with
  | VDict items =>
      (fix loop (items : list (string * value)) (attrs : list (string * obj))
           {struct items} : list (string * obj) * result unit :=
         match items with
         | [] => (attrs, Ok tt)
         | (attr, value) :: rest =>
             match (match value with
                    | VDict _ => set_nested (set_values value) attr attrs
                    | _ => (PyDict.set attr (OValue value) attrs, Ok tt)
                    end) with
             | (attrs', Ok _) => loop rest attrs'
             | (attrs', Err e) => (attrs', Err e)
             end
         end) items attrs
  | _ => (attrs, Err (AttributeError "object has no attribute 'items'"))
  end.

(** One step of the loop of [set_values], for [create_config], which passes
    a dictionary whose value may be a [ConfigValue]. *)
Definition set_item (attr : string) (x : obj) (attrs : list (string * obj))
  : list (string * obj) * result unit :=
  match x with
  | OValue (VDict items) => set_nested (set_values (VDict items)) attr attrs
  | _ => (PyDict.set attr x attrs, Ok tt)
  end.

(** [create_config(self, name, *, default=None, **values)]; the instance
    dictionary of [self] as the call leaves it. *)
Definition create_config (name : string) (default : value) (values : PyDict.t value)
           (attrs : list (string * obj)) : list (string * obj) * result unit :=
  if andb (negb (PyVal.is_none default)) (PyVal.truthy (VDict values))
  then (attrs,
        Err (ConfigError
               "You cannot set the default value AND default values for sub values"))
  else
    let default := if PyVal.truthy default then OValue default else ConfigValue VNone in
    match (if PyVal.truthy (VDict values)
           then match set_values_of default with
                | Err e => Err e
                | Ok d =>
                    match set_values (VDict values) d with
                    | (d', Ok _) => Ok (OConfig d')
                    | (_, Err e) => Err e
                    end
                end
           else Ok default) with
    | Err e => (attrs, Err e)
    | Ok default =>
        match set_values_of (OConfig attrs) with
        | Err e => (attrs, Err e)
        | Ok _ => set_item name default attrs
        end
    end.

(** What reading the file gives: [UnknownObjectException] when the
    repository has no such file, another exception, or the document that
    [yaml.safe_load] returns. *)
Inductive contents : Type :=
| UnknownObject
| Failed (e : exn)
| Loaded (document : value).

(** [load_config_from_file]: the file as read is the argument. *)
Definition load_config_from_file (file : contents) (attrs : list (string * obj))
  : list (string * obj) * result unit :=
  match file with
  | UnknownObject => (attrs, Ok tt)
  | Failed e => (attrs, Err e)
  | Loaded document =>
      let raw_data := if PyVal.truthy document then document else VDict [] in
      match set_values_of (OConfig attrs) with
      | Err e => (attrs, Err e)
      | Ok _ => set_values raw_data attrs
      end
  end.




End Writes.

End Config.

(** * Properties *)

(** ** The embedding on the inputs of the specification *)

Example normalize_key_header :
  Event.normalize_key "X-Github-Hook-Installation-Target-Id"
  = "hook_installation_target_id".
Proof. reflexivity. Qed.

Example normalize_key_body : Event.normalize_key "Some Key-name" = "some_key_name".
Proof. reflexivity. Qed.

Example fix_attributes_commit_url :
  Event.fix_attributes [("url", VStr "https://github.com/org/repo/commit/abc")]
  = Ok [("url", VStr "https://api.github.com/repos/org/repo/commits/abc")].
Proof. reflexivity. Qed.

Example int_of_header : Builtins.int (VStr "55") = Ok 55%Z.
Proof. reflexivity. Qed.

Example int_of_word :
  Builtins.int (VStr "abc") = Err (ValueError "invalid literal for int() with base 10").
Proof. reflexivity. Qed.

Example split_dotted_name : PyStr.split_on "." "a.b.c" = ["a"; "b"; "c"].
Proof. reflexivity. Qed.

(** ** Dictionaries *)

Section DictFacts.
Context {A : Type}.
Implicit Types (d : PyDict.t A) (k : string) (v : A).

Lemma get_set d k k' v :
  PyDict.get k (PyDict.set k' v d) =
  if String.eqb k k' then Some v else PyDict.get k d.
Proof.
  induction d as [|[k0 v0] d IH]; simpl.
  - destruct (String.eqb k k'); reflexivity.
  - destruct (String.eqb k' k0) eqn:E0; simpl.
    + apply String.eqb_eq in E0; subst k0.
      destruct (String.eqb k k'); reflexivity.
    + destruct (String.eqb k k0) eqn:E1.
      * apply String.eqb_eq in E1; subst k0.
        destruct (String.eqb k k') eqn:E2; [|reflexivity].
        apply String.eqb_eq in E2; subst k'.
        rewrite String.eqb_refl in E0; discriminate.
      * apply IH.
Qed.

Lemma get_set_same d k v : PyDict.get k (PyDict.set k v d) = Some v.
Proof. rewrite get_set, String.eqb_refl; reflexivity. Qed.

Lemma get_set_other d k k' v :
  String.eqb k k' = false -> PyDict.get k (PyDict.set k' v d) = PyDict.get k d.
Proof. intros E; rewrite get_set, E; reflexivity. Qed.

Lemma get_None_not_key d k : PyDict.get k d = None <-> ~ In k (PyDict.keys d).
Proof.
  induction d as [|[k0 v0] d IH]; simpl.
  - tauto.
  - destruct (String.eqb k k0) eqn:E.
    + apply String.eqb_eq in E; subst; split; [discriminate | tauto].
    + apply String.eqb_neq in E. rewrite IH. split.
      * intros H [H'|H']; [congruence | tauto].
      * tauto.
Qed.

Lemma keys_set d k v :
  PyDict.keys (PyDict.set k v d) =
  if PyDict.mem k d then PyDict.keys d else PyDict.keys d ++ [k].
Proof.
  unfold PyDict.mem.
  induction d as [|[k0 v0] d IH]; simpl; [reflexivity|].
  destruct (String.eqb k k0) eqn:E; simpl; [reflexivity|].
  rewrite IH. destruct (PyDict.get k d); reflexivity.
Qed.

Lemma wf_set d k v : PyDict.wf d -> PyDict.wf (PyDict.set k v d).
Proof.
  unfold PyDict.wf. intros H. rewrite keys_set. unfold PyDict.mem.
  destruct (PyDict.get k d) eqn:E; [assumption|].
  apply get_None_not_key in E.
  apply NoDup_rev in H. rewrite <- (rev_involutive (_ ++ _)).
  apply NoDup_rev. rewrite rev_app_distr; simpl.
  constructor; [rewrite <- in_rev; assumption | assumption].
Qed.

Lemma get_update_absent (other d : PyDict.t A) k :
  PyDict.get k other = None ->
  PyDict.get k (PyDict.update d other) = PyDict.get k d.
Proof.
  unfold PyDict.update. revert d.
  induction other as [|[k0 v0] other IH]; intros d H; simpl in *; [reflexivity|].
  destruct (String.eqb k k0) eqn:E; [discriminate|].
  rewrite IH by assumption. apply get_set_other; assumption.
Qed.

(** [d.update(other)]: the keys of [other] take its values, the rest of
    [d] stays. *)
Lemma get_update (other d : PyDict.t A) k :
  PyDict.wf other ->
  PyDict.get k (PyDict.update d other) =
  match PyDict.get k other with
  | Some v => Some v
  | None => PyDict.get k d
  end.
Proof.
  revert d.
  induction other as [|[k0 v0] other IH]; intros d W; [reflexivity|].
  inversion W as [|? ? Hnotin W']; subst.
  change (PyDict.update d ((k0, v0) :: other))
    with (PyDict.update (PyDict.set k0 v0 d) other).
  simpl PyDict.get at 2.
  destruct (String.eqb k k0) eqn:E.
  - apply String.eqb_eq in E; subst k0.
    rewrite get_update_absent by (apply get_None_not_key; assumption).
    apply get_set_same.
  - rewrite IH by assumption.
    destruct (PyDict.get k other); [reflexivity|].
    apply get_set_other; assumption.
Qed.

End DictFacts.

(** ** C1: [normalize_dicts] keeps the last value of a key *)

Lemma fold_normalize_get (l : PyDict.t value) (u : PyDict.t value) (k : string) :
  PyDict.get k (Event.normalize_into u l) =
  match find (fun kv => String.eqb k (Event.normalize_key (fst kv))) (rev l) with
  | Some kv => Some (snd kv)
  | None => PyDict.get k u
  end.
Proof.
  unfold Event.normalize_into.
  induction l as [|x l IH] using rev_ind; [reflexivity|].
  rewrite fold_left_app, rev_app_distr; simpl.
  rewrite get_set.
  destruct (String.eqb k (Event.normalize_key (fst x))); [reflexivity | apply IH].
Qed.

Lemma normalize_dicts_concat (dicts : list (PyDict.t value)) (u : PyDict.t value) :
  fold_left Event.normalize_into dicts u = Event.normalize_into u (List.concat dicts).
Proof.
  revert u. induction dicts as [|d dicts IH]; intros u; simpl; [reflexivity|].
  rewrite IH. unfold Event.normalize_into. rewrite fold_left_app. reflexivity.
Qed.

(** The reading of the specification: of two entries with the same
    normalized key, one in [headers] and one in [body], the one of
    [headers], merged first, gives the value. *)
Definition earlier_entry_kept (headers body : PyDict.t value) : Prop :=
  forall kh vh kb vb,
    In (kh, vh) headers -> In (kb, vb) body ->
    Event.normalize_key kh = Event.normalize_key kb ->
    PyDict.get (Event.normalize_key kh) (Event.normalize_dicts [headers; body])
    = Some vh.

(** C1, as stated, fails: with the header [X-Github-Event: push] and a body
    field [event: ping] the normalized mapping holds the value of the body. *)
Lemma normalize_dicts_later_overwrites :
  PyDict.wf [("X-Github-Event", VStr "push")] /\
  PyDict.wf [("event", VStr "ping")] /\
  Event.normalize_dicts [[("X-Github-Event", VStr "push")]; [("event", VStr "ping")]]
  = [("event", VStr "ping")] /\
  ~ earlier_entry_kept [("X-Github-Event", VStr "push")] [("event", VStr "ping")].
Proof.
  repeat split.
  - repeat constructor; simpl; tauto.
  - repeat constructor; simpl; tauto.
  - intros H.
    specialize (H "X-Github-Event" (VStr "push") "event" (VStr "ping")).
    simpl in H. specialize (H (or_introl eq_refl) (or_introl eq_refl) eq_refl).
    vm_compute in H. discriminate.
Qed.

(** C1 (amended): the value [normalize_dicts] returns for a key is the value
    of the last entry, in merge order (the dictionaries in argument order,
    each in its iteration order), whose normalized key it is; a key no
    entry normalizes to is absent. *)
Theorem normalize_dicts_last_wins (dicts : list (PyDict.t value)) (k : string) :
  PyDict.get k (Event.normalize_dicts dicts) =
  option_map snd
    (find (fun kv => String.eqb k (Event.normalize_key (fst kv)))
          (rev (List.concat dicts))).
Proof.
  unfold Event.normalize_dicts.
  rewrite normalize_dicts_concat, fold_normalize_get.
  destruct (find _ _); reflexivity.
Qed.

(** ** C6: classification follows first matches down the class tree *)

(** Induction on the class tree, the subclasses included. *)
Lemma EventClass_rect' (P : Event.EventClass -> Prop) :
  (forall name ident subs, Forall P subs -> P (Event.Class name ident subs)) ->
  forall c, P c.
Proof.
  intros step.
  fix IH 1. intros [name ident subs]. apply step.
  induction subs as [|s subs IHs]; constructor; [apply IH | apply IHs].
Qed.

(** Every class below [c] has an [event_identifier]: it is a descriptor. *)
Fixpoint declared_below (c : Event.EventClass) : bool :=
  match c with
  | Event.Class _ _ subs =>
      forallb (fun s => match Event.event_identifier s with
                        | Some _ => declared_below s
                        | None => false
                        end) subs
  end.

(** All the required fields of [c] are in the request, with an equal value. *)
Definition required_fields_match (data : PyDict.t value) (c : Event.EventClass) : Prop :=
  exists ident,
    Event.event_identifier c = Some ident /\
    forall k v, In (k, v) ident ->
                exists x, PyDict.get k data = Some x /\ PyVal.eqb v x = true.

(** [child] is the first subclass of [parent], in registration order, all of
    whose required fields match. *)
Definition first_match (data : PyDict.t value) (parent child : Event.EventClass) : Prop :=
  exists before after,
    Event.subclasses parent = before ++ child :: after /\
    (forall b, In b before -> ~ required_fields_match data b) /\
    required_fields_match data child.

(** A descent from [c]: each step goes to the first matching subclass. *)
Inductive descends (data : PyDict.t value) : Event.EventClass -> Event.EventClass -> Prop :=
| descends_here c : descends data c c
| descends_step c child r :
    first_match data c child -> descends data child r -> descends data c r.

Lemma match_spec (data : PyDict.t value) (c : Event.EventClass) (ident : PyDict.t value) :
  Event.event_identifier c = Some ident ->
  (Event.match_ c data = Ok true /\ required_fields_match data c) \/
  (Event.match_ c data = Ok false /\ ~ required_fields_match data c).
Proof.
  intros Hid. unfold Event.match_, required_fields_match. rewrite Hid.
  destruct (forallb (Event.field_matches data) ident) eqn:E.
  - left. split; [reflexivity|]. exists ident. split; [reflexivity|].
    intros k v Hin. rewrite forallb_forall in E. specialize (E _ Hin).
    unfold Event.field_matches in E; simpl in E.
    apply andb_true_iff in E. destruct E as [_ E].
    destruct (PyDict.get k data) as [x|]; [|discriminate].
    exists x. split; [reflexivity | assumption].
  - right. split; [reflexivity|]. intros (ident' & Heq & Hall).
    injection Heq as <-.
    assert (forallb (Event.field_matches data) ident = true) as E'.
    { apply forallb_forall. intros [k v] Hin.
      destruct (Hall k v Hin) as (x & Hx & Hv).
      unfold Event.field_matches, PyDict.mem; simpl. rewrite Hx, Hv. reflexivity. }
    congruence.
Qed.

(** C6: on a tree of descriptors, [get_event] returns a class; that
    class is reached from the root by going, at each level, to the first
    subclass in registration order all of whose required fields match the
    normalized request; below it no subclass matches (it is the deepest);
    and a class none of whose subclasses matches is returned itself, the
    root included. *)
Theorem get_event_first_match_descent
        (cls : Event.EventClass) (headers body : PyDict.t value) :
  declared_below cls = true ->
  let data := Event.normalize_dicts [headers; body] in
  (exists r,
      Event.get_event cls headers body = Ok r /\
      descends data cls r /\
      (forall c, In c (Event.subclasses r) -> ~ required_fields_match data c)) /\
  ((forall c, In c (Event.subclasses cls) -> ~ required_fields_match data c) ->
   Event.get_event cls headers body = Ok cls).
Proof.
  intros Hdecl data.
  induction cls as [name ident subs IH] using EventClass_rect'.
  simpl in Hdecl.
  assert (forall before,
             (forall b, In b before -> ~ required_fields_match data b) ->
             forall l, Event.subclasses (Event.Class name ident subs) = before ++ l ->
             Forall (fun c => declared_below c = true ->
                       (exists r, Event.get_event c headers body = Ok r /\
                                  descends data c r /\
                                  (forall c', In c' (Event.subclasses r) ->
                                              ~ required_fields_match data c')) /\
                       ((forall c', In c' (Event.subclasses c) ->
                                    ~ required_fields_match data c') ->
                        Event.get_event c headers body = Ok c)) l ->
             forallb (fun s => match Event.event_identifier s with
                               | Some _ => declared_below s
                               | None => false
                               end) l = true ->
             (exists r,
                 (fix scan (l : list Event.EventClass) : result Event.EventClass :=
                    match l with
                    | [] => Ok (Event.Class name ident subs)
                    | event :: rest =>
                        match Event.match_ event data with
                        | Err e => Err e
                        | Ok true => Event.get_event event headers body
                        | Ok false => scan rest
                        end
                    end) l = Ok r /\
                 descends data (Event.Class name ident subs) r /\
                 (forall c, In c (Event.subclasses r) -> ~ required_fields_match data c)) /\
             ((forall c, In c l -> ~ required_fields_match data c) ->
              (fix scan (l : list Event.EventClass) : result Event.EventClass :=
                 match l with
                 | [] => Ok (Event.Class name ident subs)
                 | event :: rest =>
                     match Event.match_ event data with
                     | Err e => Err e
                     | Ok true => Event.get_event event headers body
                     | Ok false => scan rest
                     end
                 end) l = Ok (Event.Class name ident subs))) as Hscan.
  { intros before Hbefore l. revert before Hbefore.
    induction l as [|event rest IHl]; intros before Hbefore Hsplit Hall Hd.
    - split.
      + exists (Event.Class name ident subs). split; [reflexivity|].
        split; [constructor|].
        intros c Hc. rewrite Hsplit, app_nil_r in Hc. apply Hbefore; assumption.
      + reflexivity.
    - inversion Hall as [|? ? Hev Hrest]; subst.
      simpl in Hd. apply andb_true_iff in Hd. destruct Hd as [Hd1 Hd2].
      destruct (Event.event_identifier event) as [eid|] eqn:Heid; [|discriminate].
      destruct (match_spec data event eid Heid) as [[Hm Hreq]|[Hm Hnreq]]; rewrite Hm.
      + destruct (Hev Hd1) as [(r & Hr & Hdesc & Hdeep) _].
        split.
        * exists r. split; [assumption|]. split; [|assumption].
          apply descends_step with (child := event); [|assumption].
          exists before, rest. auto.
        * intros Hnone. exfalso. apply (Hnone event); [left; reflexivity | assumption].
      + assert (forall b, In b (before ++ [event]) -> ~ required_fields_match data b) as Hb'.
        { intros b Hb. apply in_app_or in Hb. destruct Hb as [Hb|[<-|[]]]; auto. }
        assert (Event.subclasses (Event.Class name ident subs)
                = (before ++ [event]) ++ rest) as Hs'.
        { rewrite <- app_assoc. exact Hsplit. }
        destruct (IHl _ Hb' Hs' Hrest Hd2) as [Hex Hno].
        split; [exact Hex|].
        intros Hnone. apply Hno. intros c Hc. apply Hnone. right; assumption. }
  specialize (Hscan [] (fun _ F => match F with end) subs eq_refl IH Hdecl).
  exact Hscan.
Qed.

(** A tree with one descriptor under the root. *)
Definition scenario_tree : Event.EventClass :=
  Event.Class "Event" None
    [Event.Class "PullRequestOpened"
       (Some [("event", VStr "pull_request"); ("action", VStr "opened")]) []].

Lemma get_event_first_match_descent_witness :
  declared_below scenario_tree = true /\
  exists r,
    Event.get_event scenario_tree
      [("X-Github-Event", VStr "pull_request")] [("action", VStr "opened")] = Ok r.
Proof.
  split; [reflexivity|].
  destruct (get_event_first_match_descent scenario_tree
              [("X-Github-Event", VStr "pull_request")] [("action", VStr "opened")]
              eq_refl) as [(r & Hr & _) _].
  exists r. exact Hr.
Defined.

(** ** C10: an empty [event_identifier] matches everything *)

(** [r] is the class [c] or a class below it in the tree. *)
Inductive below (c : Event.EventClass) : Event.EventClass -> Prop :=
| below_here : below c c
| below_subclass child r :
    In child (Event.subclasses c) -> below child r -> below c r.

(** Classification from [c] stays in the tree of [c]. *)
Lemma get_event_below (c r : Event.EventClass) (headers body : PyDict.t value) :
  Event.get_event c headers body = Ok r -> below c r.
Proof.
  revert r. induction c as [name ident subs IH] using EventClass_rect'.
  intros r. cbn [Event.get_event].
  set (data := Event.normalize_dicts [headers; body]).
  assert (forall x, In x subs -> In x (Event.subclasses (Event.Class name ident subs)))
    as Hsubs by (intros x Hx; exact Hx).
  set (root := Event.Class name ident subs) in *. clearbody root.
  induction subs as [|event rest IHrest].
  - intros H. injection H as <-. constructor.
  - inversion IH as [|? ? Hev Hrest]; subst.
    destruct (Event.match_ event data) as [[|]|e].
    + intros H. apply below_subclass with (child := event).
      * apply Hsubs. left. reflexivity.
      * apply Hev. exact H.
    + intros H. apply (IHrest Hrest).
      * intros x Hx. apply Hsubs. right. exact Hx.
      * exact H.
    + discriminate.
Qed.

(** On a tree of descriptors classification returns a class. *)
Lemma get_event_returns (c : Event.EventClass) (headers body : PyDict.t value) :
  declared_below c = true -> exists r, Event.get_event c headers body = Ok r.
Proof.
  induction c as [name ident subs IH] using EventClass_rect'.
  cbn [Event.get_event declared_below].
  set (data := Event.normalize_dicts [headers; body]).
  set (root := Event.Class name ident subs). clearbody root.
  induction subs as [|event rest IHrest]; intros Hd.
  - eexists. reflexivity.
  - inversion IH as [|? ? Hev Hrest]; subst.
    cbn [forallb] in Hd. apply andb_true_iff in Hd. destruct Hd as [Hd1 Hd2].
    destruct (Event.event_identifier event) as [eid|] eqn:Heid; [|discriminate].
    unfold Event.match_ at 1. rewrite Heid.
    destruct (forallb (Event.field_matches data) eid).
    + apply Hev. exact Hd1.
    + apply IHrest; assumption.
Qed.

(** The scan of the subclasses passes those that do not match. *)
Lemma get_event_skips (pname : string) (pident : option (PyDict.t value))
      (before after : list Event.EventClass) (c : Event.EventClass)
      (headers body : PyDict.t value) :
  (forall b, In b before ->
             Event.match_ b (Event.normalize_dicts [headers; body]) = Ok false) ->
  Event.match_ c (Event.normalize_dicts [headers; body]) = Ok true ->
  Event.get_event (Event.Class pname pident (before ++ c :: after)) headers body
  = Event.get_event c headers body.
Proof.
  intros Hbefore Hc. cbn [Event.get_event].
  set (root := Event.Class pname pident (before ++ c :: after)). clearbody root.
  induction before as [|b before IH]; cbn [app].
  - rewrite Hc. destruct c; reflexivity.
  - rewrite (Hbefore b (or_introl eq_refl)). apply IH.
    intros x Hx. apply Hbefore. right. assumption.
Qed.

(** C10: [match] on a class whose [event_identifier] is the empty mapping is
    true on every normalized request. When such a class is registered before
    its siblings (after, at most, siblings that do not match the request),
    classification from the parent is classification from that class: what
    it returns is that class or a class below it, so that no later sibling,
    and nothing below a later sibling, is ever returned, whatever these
    siblings require; and on descriptors below that class it does return. *)
Theorem empty_identifier_matches_and_shadows
        (pname name : string) (pident : option (PyDict.t value))
        (subs before after : list Event.EventClass)
        (headers body : PyDict.t value) :
  let first := Event.Class name (Some []) subs in
  let parent := Event.Class pname pident (before ++ first :: after) in
  (forall b, In b before ->
             Event.match_ b (Event.normalize_dicts [headers; body]) = Ok false) ->
  (forall request, Event.match_ first request = Ok true) /\
  Event.get_event parent headers body = Event.get_event first headers body /\
  (forall r, Event.get_event parent headers body = Ok r -> below first r) /\
  (forall s r, In s after -> below s r -> ~ below first r ->
               Event.get_event parent headers body <> Ok r) /\
  (declared_below first = true ->
   exists r, Event.get_event parent headers body = Ok r /\ below first r).
Proof.
  intros first parent Hbefore.
  assert (forall request, Event.match_ first request = Ok true) as Hmatch
      by (intros request; reflexivity).
  assert (Event.get_event parent headers body = Event.get_event first headers body)
    as Hsame by (apply get_event_skips; [exact Hbefore | apply Hmatch]).
  assert (forall r, Event.get_event parent headers body = Ok r -> below first r)
    as Hbelow.
  { intros r Hr. rewrite Hsame in Hr. apply (get_event_below _ _ _ _ Hr). }
  split; [exact Hmatch|]. split; [exact Hsame|]. split; [exact Hbelow|]. split.
  - intros s r _ _ Hout Hr. apply Hout, Hbelow, Hr.
  - intros Hd. destruct (get_event_returns first headers body Hd) as [r Hr].
    exists r. rewrite Hsame. split; [exact Hr|]. apply (get_event_below _ _ _ _ Hr).
Qed.

(** A catch-all class registered before the class of pushes. *)
Definition shadowing_tree : Event.EventClass :=
  Event.Class "Event" None
    [Event.Class "Any" (Some []) [];
     Event.Class "Push" (Some [("event", VStr "push")]) []].

Lemma empty_identifier_matches_and_shadows_witness :
  Event.get_event shadowing_tree [("X-Github-Event", VStr "push")] []
  = Ok (Event.Class "Any" (Some []) []) /\
  Event.get_event shadowing_tree [("X-Github-Event", VStr "push")] []
  <> Ok (Event.Class "Push" (Some [("event", VStr "push")]) []).
Proof.
  destruct (empty_identifier_matches_and_shadows
              "Event" "Any" None [] []
              [Event.Class "Push" (Some [("event", VStr "push")]) []]
              [("X-Github-Event", VStr "push")] []
              (fun b (F : In b []) => match F with end))
    as (_ & Hsame & _ & Hnever & _).
  split.
  - exact (eq_trans Hsame eq_refl).
  - intros Hr.
    refine (Hnever (Event.Class "Push" (Some [("event", VStr "push")]) [])
                   (Event.Class "Push" (Some [("event", VStr "push")]) [])
                   (or_introl eq_refl) (below_here _) _ Hr).
    intros H. inversion H as [|child r Hin _]; subst. destruct Hin.
Defined.

(** ** C7: grafting the lazy base class once *)



(** The class of the repository's test. *)
Definition LazyClass : Lazy.Clazz :=
  {| Lazy.clazz_name := "LazyClass";
     Lazy.__bases__ := ["CompletableGithubObject"];
     Lazy.fields := ["attr1"];
     Lazy.methods := ["url"] |}.

(** The classes of the examples by their method resolution order: those of
    PyGithub, [LazyClass], and [Issue], a class that [get_lazy_instance] was
    called on earlier. *)
Definition class_table (name : string) : list string :=
  if String.eqb name "object" then ["object"]
  else if String.eqb name "GithubObject" then ["GithubObject"; "object"]
  else if String.eqb name "CompletableGithubObject"
  then ["CompletableGithubObject"; "GithubObject"; "object"]
  else if String.eqb name "LazyCompletableGithubObject"
  then ["LazyCompletableGithubObject"; "CompletableGithubObject"; "GithubObject";
        "object"]
  else if String.eqb name "LazyClass"
  then ["LazyClass"; "CompletableGithubObject"; "GithubObject"; "object"]
  else if String.eqb name "Issue"
  then ["Issue"; "LazyCompletableGithubObject"; "CompletableGithubObject";
        "GithubObject"; "object"]
  else [name; "object"].

Example linearize_LazyClass :
  Lazy.linearize class_table "LazyClass"
                 ["LazyCompletableGithubObject"; "CompletableGithubObject"]
  = Some ["LazyClass"; "LazyCompletableGithubObject"; "CompletableGithubObject";
          "GithubObject"; "object"].
Proof. reflexivity. Qed.

(** The merge on the textbook cases: [C(A, B)] over [A(O)] and [B(O)] has
    the order [C, A, B, O]; [Z(X, Y)] over [X(A, B)] and [Y(B, A)] has
    none. *)
Example linearize_diamond :
  Lazy.linearize (fun n => [n; "O"]) "C" ["A"; "B"] = Some ["C"; "A"; "B"; "O"].
Proof. reflexivity. Qed.

Example linearize_conflict :
  Lazy.linearize (fun n => if String.eqb n "X" then ["X"; "A"; "B"; "O"]
                           else if String.eqb n "Y" then ["Y"; "B"; "A"; "O"]
                           else [n; "O"])
                 "Z" ["X"; "Y"]
  = None.
Proof. reflexivity. Qed.










(** ** C9: what a missing configuration value raises *)

Fixpoint no_dot (s : string) : bool :=
  match s with
  | EmptyString => true
  | String c s' => andb (negb (Ascii.eqb c ".")) (no_dot s')
  end.

(** [".".join(names)] *)
Fixpoint join_dots (names : list string) : string :=
  match names with
  | [] => EmptyString
  | [x] => x
  | x :: rest => String.append x (String "." (join_dots rest))
  end.

Lemma split_on_dot_prefix (a rest : string) :
  no_dot a = true ->
  PyStr.split_on "." (String.append a (String "." rest))
  = a :: PyStr.split_on "." rest.
Proof.
  induction a as [|c a IH]; intros H; simpl in *.
  - reflexivity.
  - apply andb_true_iff in H. destruct H as [Hc Ha].
    destruct (Ascii.eqb c ".") eqn:E; [discriminate|].
    rewrite (IH Ha). reflexivity.
Qed.

Lemma split_on_dot_single (a : string) :
  no_dot a = true -> PyStr.split_on "." a = [a].
Proof.
  induction a as [|c a IH]; intros H; simpl in *.
  - reflexivity.
  - apply andb_true_iff in H. destruct H as [Hc Ha].
    destruct (Ascii.eqb c ".") eqn:E; [discriminate|].
    rewrite (IH Ha). reflexivity.
Qed.

Lemma split_join_dots (names : list string) :
  names <> [] -> forallb no_dot names = true ->
  PyStr.split_on "." (join_dots names) = names.
Proof.
  induction names as [|x rest IH]; intros Hne Hall; [congruence|].
  simpl in Hall. apply andb_true_iff in Hall. destruct Hall as [Hx Hrest].
  destruct rest as [|y rest].
  - simpl. apply split_on_dot_single; assumption.
  - change (join_dots (x :: y :: rest))
      with (String.append x (String "." (join_dots (y :: rest)))).
    rewrite split_on_dot_prefix by assumption.
    rewrite IH; [reflexivity | discriminate | assumption].
Qed.

Lemma get_loop_app (builtin_attr : Config.pytype -> string -> bool)
      (o : Config.obj) (a b : list string) (default : Config.obj) :
  Config.get_loop builtin_attr o (a ++ b) default =
  match Config.get_loop builtin_attr o a default with
  | Ok o' => Config.get_loop builtin_attr o' b default
  | Err e => Err e
  end.
Proof.
  revert o. induction a as [|x a IH]; intros o; simpl; [reflexivity|].
  destruct (if Config.is_no_default default
            then Config.getattr builtin_attr o x
            else Config.getattr_default builtin_attr o x default); [apply IH | reflexivity].
Qed.

(** A configuration with [a.b = 3]. *)
Definition sample_config : Config.obj :=
  Config.OConfig
    [("_value", Config.OValue VNone);
     ("a", Config.OConfig [("_value", Config.OValue VNone);
                           ("b", Config.OValue (VInt 3))])].

(** C9 (the claim as worded fails): below the plain value [a.b = 3] the
    name [c] does not exist and no default is given, and [get] raises
    Python's own [AttributeError], which is not the [ConfigError] of
    [__getattr__]: that method is only reached on a [ConfigValue]. *)
Lemma missing_below_a_value_is_attribute_error :
  Config.get (fun _ _ => false) sample_config "a.b.c" Config.NO_DEFAULT
  = Err (AttributeError "c") /\
  forall msg,
    Config.get (fun _ _ => false) sample_config "a.b.c" Config.NO_DEFAULT
    <> Err (ConfigError msg).
Proof.
  split; [reflexivity|]. intros msg. discriminate.
Qed.

(** Whether the lookup of [item] on [x] finds something: in the instance
    dictionary or the class of a [ConfigValue], or in the type of another
    object. *)
Definition provides (builtin_attr : Config.pytype -> string -> bool)
           (x : Config.obj) (item : string) : bool :=
  match x with
  | Config.OConfig attrs =>
      orb (PyDict.mem item attrs)
          (orb (existsb (String.eqb item) Config.ConfigValue_attrs)
               (builtin_attr Config.TObject item))
  | Config.OValue v => builtin_attr (Config.type_of v) item
  | Config.OBound _ _ => builtin_attr Config.TMethod item
  end.

Lemma get_not_hidden (builtin_attr : Config.pytype -> string -> bool)
      (self default : Config.obj) (config_name : string) :
  Config.hidden "get" self = false ->
  Config.get builtin_attr self config_name default
  = Config.get_loop builtin_attr self (PyStr.split_on "." config_name) default.
Proof. unfold Config.get. intros ->. reflexivity. Qed.

Lemma get_hidden (builtin_attr : Config.pytype -> string -> bool)
      (self default : Config.obj) (config_name : string) :
  Config.hidden "get" self = true ->
  Config.get builtin_attr self config_name default
  = Err (TypeError "object is not callable").
Proof. unfold Config.get. intros ->. reflexivity. Qed.

(** C9 (amended): a name that the object reached by the path before it
    does not have, with no default given, always raises and never gives a
    value, [None] or other. On a [ConfigValue] the error is [ConfigError]
    with the message "No such config value: <item>. And there is no default
    value for it"; on a plain value of the configuration, or on a method, it
    is [AttributeError]. [get] raises that error at the first such name of
    the dotted path, unless a value was stored on the configuration under
    the name [get]: then the call of [get] itself raises [TypeError]. *)
Theorem missing_name_raises_at_its_receiver
        (builtin_attr : Config.pytype -> string -> bool)
        (self x : Config.obj) (before after : list string) (item : string) :
  forallb no_dot (before ++ item :: after) = true ->
  Config.get_loop builtin_attr self before Config.NO_DEFAULT = Ok x ->
  provides builtin_attr x item = false ->
  exists e,
    e = match x with
        | Config.OConfig _ => ConfigError (Config.no_such_config_value item)
        | _ => AttributeError item
        end /\
    Config.getattr builtin_attr x item = Err e /\
    Config.get builtin_attr self (join_dots (before ++ item :: after)) Config.NO_DEFAULT
    = Err (if Config.hidden "get" self
           then TypeError "object is not callable"
           else e).
Proof.
  intros Hdots Hwalk Hmissing.
  eexists. split; [reflexivity|].
  assert (Config.getattr builtin_attr x item
          = Err (match x with
                 | Config.OConfig _ => ConfigError (Config.no_such_config_value item)
                 | _ => AttributeError item
                 end)) as Hget.
  { destruct x as [v|attrs|o m]; cbn [provides] in Hmissing; cbn [Config.getattr].
    - rewrite Hmissing. reflexivity.
    - apply orb_false_iff in Hmissing. destruct Hmissing as [Hmem Hclass].
      unfold PyDict.mem in Hmem.
      destruct (PyDict.get item attrs); [discriminate|].
      rewrite Hclass. reflexivity.
    - rewrite Hmissing. reflexivity. }
  split; [exact Hget|].
  destruct (Config.hidden "get" self) eqn:Hh.
  - apply get_hidden. exact Hh.
  - rewrite get_not_hidden by exact Hh.
    rewrite split_join_dots; [|destruct before; discriminate | assumption].
    rewrite get_loop_app, Hwalk.
    change (Config.get_loop builtin_attr x (item :: after) Config.NO_DEFAULT)
      with (match Config.getattr builtin_attr x item with
            | Ok value' => Config.get_loop builtin_attr value' after Config.NO_DEFAULT
            | Err e => Err e
            end).
    rewrite Hget. reflexivity.
Qed.

Lemma missing_name_raises_at_its_receiver_witness :
  Config.get (fun _ _ => false) sample_config "a.b" Config.NO_DEFAULT
  = Ok (Config.OValue (VInt 3)) /\
  Config.get (fun _ _ => false) sample_config "a.c" Config.NO_DEFAULT
  = Err (ConfigError "No such config value: c. And there is no default value for it") /\
  Config.get (fun _ _ => false) sample_config "a.b.c.d" Config.NO_DEFAULT
  = Err (AttributeError "c").
Proof.
  split; [reflexivity|]. split.
  - destruct (missing_name_raises_at_its_receiver
                (fun _ _ => false) sample_config
                (Config.OConfig [("_value", Config.OValue VNone);
                                 ("b", Config.OValue (VInt 3))])
                ["a"] [] "c" eq_refl eq_refl eq_refl) as (e & He & _ & Hg).
    rewrite He in Hg. exact Hg.
  - destruct (missing_name_raises_at_its_receiver
                (fun _ _ => false) sample_config (Config.OValue (VInt 3))
                ["a"; "b"] ["d"] "c" eq_refl eq_refl eq_refl) as (e & He & _ & Hg).
    rewrite He in Hg. exact Hg.
Defined.

(** ** C8: event metadata live on the class *)

(** The names [__init__] assigns on the class [Event]. *)
Definition metadata : list string :=
  ["delivery"; "github_event"; "hook_id"; "hook_installation_target_id";
   "hook_installation_target_type"; "installation_id"; "_raw_body"; "_raw_headers"].

(** What a construction that returns leaves behind. *)
Lemma init_returns (gh_ rq : Event.handle) (headers : PyDict.t value)
      (sender_ repository_ : value) (kwargs : PyDict.t value)
      (st st' : Event.State) (e : nat) :
  Event.__init__ gh_ rq headers sender_ repository_ kwargs st = (st', Ok e) ->
  exists d ev hid tid tty iid repo sndr,
    Builtins.getitem headers "X-Github-Delivery" = Ok d /\
    Builtins.getitem headers "X-Github-Event" = Ok ev /\
    Event.cls st' =
      {| Event.delivery := d; Event.github_event := ev;
         Event.hook_id := VInt hid;
         Event.hook_installation_target_id := VInt tid;
         Event.hook_installation_target_type := tty;
         Event.installation_id := iid;
         Event._raw_body := VDict kwargs;
         Event._raw_headers := VDict headers |} /\
    Event.heap st' =
      Event.heap st ++ [{| Event.gh := gh_; Event.requester := rq;
                           Event.repository := repo; Event.sender := sndr;
                           Event.check_run := None |}] /\
    e = List.length (Event.heap st).
Proof.
  unfold Event.__init__, bind, lift, Event.on_class, modify, ret, Event.alloc.
  destruct (Builtins.getitem headers "X-Github-Delivery") as [d|]; [|discriminate].
  destruct (Builtins.getitem headers "X-Github-Event") as [ev|]; [|discriminate].
  destruct (Builtins.getitem headers "X-Github-Hook-Id") as [h|]; [|discriminate].
  destruct (Builtins.int h) as [hid|]; [|discriminate].
  destruct (Builtins.getitem headers "X-Github-Hook-Installation-Target-Id") as [t|];
    [|discriminate].
  destruct (Builtins.int t) as [tid|]; [|discriminate].
  destruct (Builtins.getitem headers "X-Github-Hook-Installation-Target-Type") as [tty|];
    [|discriminate].
  destruct (Event.installation_id_of kwargs) as [i|]; [|discriminate].
  destruct (PyVal.truthy i).
  - destruct (Builtins.int i) as [z|]; [|discriminate].
    destruct (Event._parse_object rq "Repository" repository_) as [repo|]; [|discriminate].
    destruct (Event._parse_object rq "NamedUser" sender_) as [sndr|]; [|discriminate].
    simpl. intros H. injection H as <- <-.
    exists d, ev, hid, tid, tty, (VInt z), repo, sndr. repeat split; reflexivity.
  - destruct (Event._parse_object rq "Repository" repository_) as [repo|]; [|discriminate].
    destruct (Event._parse_object rq "NamedUser" sender_) as [sndr|]; [|discriminate].
    simpl. intros H. injection H as <- <-.
    exists d, ev, hid, tid, tty, i, repo, sndr. repeat split; reflexivity.
Qed.

(** The three hook attributes of a construction that returns. *)
Lemma init_returns_hooks
      (gh_ rq : Event.handle) (headers : PyDict.t value)
      (sender_ repository_ : value) (kwargs : PyDict.t value)
      (st st' : Event.State) (e : nat) :
  Event.__init__ gh_ rq headers sender_ repository_ kwargs st = (st', Ok e) ->
  (exists h z, Builtins.getitem headers "X-Github-Hook-Id" = Ok h /\
               Builtins.int h = Ok z /\
               Event.hook_id (Event.cls st') = VInt z) /\
  (exists h z, Builtins.getitem headers "X-Github-Hook-Installation-Target-Id" = Ok h /\
               Builtins.int h = Ok z /\
               Event.hook_installation_target_id (Event.cls st') = VInt z) /\
  Builtins.getitem headers "X-Github-Hook-Installation-Target-Type"
  = Ok (Event.hook_installation_target_type (Event.cls st')).
Proof.
  unfold Event.__init__, bind, lift, Event.on_class, modify, ret, Event.alloc.
  destruct (Builtins.getitem headers "X-Github-Delivery") as [d|]; [|discriminate].
  destruct (Builtins.getitem headers "X-Github-Event") as [ev|]; [|discriminate].
  destruct (Builtins.getitem headers "X-Github-Hook-Id") as [h|]; [|discriminate].
  destruct (Builtins.int h) as [hid|] eqn:Hh; [|discriminate].
  destruct (Builtins.getitem headers "X-Github-Hook-Installation-Target-Id") as [t|];
    [|discriminate].
  destruct (Builtins.int t) as [tid|] eqn:Ht; [|discriminate].
  destruct (Builtins.getitem headers "X-Github-Hook-Installation-Target-Type") as [tty|];
    [|discriminate].
  destruct (Event.installation_id_of kwargs) as [i|]; [|discriminate].
  destruct (PyVal.truthy i).
  - destruct (Builtins.int i) as [z|]; [|discriminate].
    destruct (Event._parse_object rq "Repository" repository_) as [repo|]; [|discriminate].
    destruct (Event._parse_object rq "NamedUser" sender_) as [sndr|]; [|discriminate].
    simpl. intros H. injection H as <- _.
    split; [exists h, hid; auto|]. split; [exists t, tid; auto | reflexivity].
  - destruct (Event._parse_object rq "Repository" repository_) as [repo|]; [|discriminate].
    destruct (Event._parse_object rq "NamedUser" sender_) as [sndr|]; [|discriminate].
    simpl. intros H. injection H as <- _.
    split; [exists h, hid; auto|]. split; [exists t, tid; auto | reflexivity].
Qed.

(** The installation id of a construction that returns. *)
Lemma init_returns_installation
      (gh_ rq : Event.handle) (headers : PyDict.t value)
      (sender_ repository_ : value) (kwargs : PyDict.t value)
      (st st' : Event.State) (e : nat) :
  Event.__init__ gh_ rq headers sender_ repository_ kwargs st = (st', Ok e) ->
  exists i, Event.installation_id_of kwargs = Ok i /\
            ((PyVal.truthy i = true /\
              exists z, Builtins.int i = Ok z /\
                        Event.installation_id (Event.cls st') = VInt z) \/
             (PyVal.truthy i = false /\ Event.installation_id (Event.cls st') = i)).
Proof.
  unfold Event.__init__, bind, lift, Event.on_class, modify, ret, Event.alloc.
  destruct (Builtins.getitem headers "X-Github-Delivery") as [d|]; [|discriminate].
  destruct (Builtins.getitem headers "X-Github-Event") as [ev|]; [|discriminate].
  destruct (Builtins.getitem headers "X-Github-Hook-Id") as [h|]; [|discriminate].
  destruct (Builtins.int h) as [hid|]; [|discriminate].
  destruct (Builtins.getitem headers "X-Github-Hook-Installation-Target-Id") as [t|];
    [|discriminate].
  destruct (Builtins.int t) as [tid|]; [|discriminate].
  destruct (Builtins.getitem headers "X-Github-Hook-Installation-Target-Type") as [tty|];
    [|discriminate].
  destruct (Event.installation_id_of kwargs) as [i|]; [|discriminate].
  destruct (PyVal.truthy i) eqn:Ht.
  - destruct (Builtins.int i) as [z|] eqn:Hz; [|discriminate].
    destruct (Event._parse_object rq "Repository" repository_) as [repo|]; [|discriminate].
    destruct (Event._parse_object rq "NamedUser" sender_) as [sndr|]; [|discriminate].
    simpl. intros H. injection H as <- _.
    exists i. split; [reflexivity|]. left. split; [exact Ht|].
    exists z. split; [exact Hz | reflexivity].
  - destruct (Event._parse_object rq "Repository" repository_) as [repo|]; [|discriminate].
    destruct (Event._parse_object rq "NamedUser" sender_) as [sndr|]; [|discriminate].
    simpl. intros H. injection H as <- _.
    exists i. split; [reflexivity|]. right. split; [exact Ht | reflexivity].
Qed.

(** The reading of the specification: what is read through an event stays
    what it was when a later event is constructed. *)
Definition metadata_unchanged (before after : Event.State) (e : nat) : Prop :=
  forall item, In item metadata ->
               Event.getattr after e item = Event.getattr before e item.

Definition webhook_headers (delivery event : string) : PyDict.t value :=
  [("X-Github-Delivery", VStr delivery); ("X-Github-Event", VStr event);
   ("X-Github-Hook-Id", VStr "1");
   ("X-Github-Hook-Installation-Target-Id", VStr "2");
   ("X-Github-Hook-Installation-Target-Type", VStr "integration")].

Definition after_first : Event.State * result nat :=
  Event.__init__ "gh" "requester" (webhook_headers "d1" "pull_request")
    (VDict [("login", VStr "alice")]) VNone
    [("action", VStr "opened"); ("installation", VDict [("id", VInt 55)])]
    Event.initial.

Definition after_second : Event.State * result nat :=
  Event.__init__ "gh" "requester" (webhook_headers "d2" "issues")
    (VDict [("login", VStr "bob")]) VNone
    [("action", VStr "closed"); ("installation", VDict [("id", VInt 77)])]
    (fst after_first).

(** C8, as stated, fails: after a second event is constructed, the delivery
    id read through the first event is that of the second. *)
Lemma second_event_overwrites_metadata :
  snd after_first = Ok 0 /\ snd after_second = Ok 1 /\
  Event.getattr (fst after_first) 0 "delivery" = Ok (Event.AValue (VStr "d1")) /\
  Event.getattr (fst after_second) 0 "delivery" = Ok (Event.AValue (VStr "d2")) /\
  Event.getattr (fst after_second) 0 "installation_id" = Ok (Event.AValue (VInt 77)) /\
  ~ metadata_unchanged (fst after_first) (fst after_second) 0.
Proof.
  repeat split; try reflexivity.
  intros H. specialize (H "delivery" (or_introl eq_refl)).
  vm_compute in H. discriminate.
Qed.

(** C8 (amended): the delivery id, event name, hook id, installation-target
    id and type, installation id and raw headers and body are attributes of
    the class [Event], shared by all events: once a second event has been
    constructed, each of them read through the first event is what it is read
    through the second, namely the value of the second webhook: its headers
    and body, the delivery, event and target-type headers as they are, the
    two id headers as integers, and the [id] of its ["installation"] (an
    integer when it is given and true, as it is or [None] otherwise). What
    the first event holds itself ([gh], [requester], [repository],
    [sender], [check_run]) is left as it was. *)
Theorem events_share_class_metadata
        (gh1 rq1 gh2 rq2 : Event.handle) (headers1 headers2 : PyDict.t value)
        (sender1 repository1 sender2 repository2 : value)
        (kwargs1 kwargs2 : PyDict.t value)
        (st st1 st2 : Event.State) (e1 e2 : nat) :
  Event.__init__ gh1 rq1 headers1 sender1 repository1 kwargs1 st = (st1, Ok e1) ->
  Event.__init__ gh2 rq2 headers2 sender2 repository2 kwargs2 st1 = (st2, Ok e2) ->
  (exists i, nth_error (Event.heap st1) e1 = Some i /\
             nth_error (Event.heap st2) e1 = Some i /\
             Event.gh i = gh1 /\ Event.requester i = rq1) /\
  e1 <> e2 /\
  (forall item, In item metadata ->
                Event.getattr st2 e1 item = Event.getattr st2 e2 item) /\
  Builtins.getitem headers2 "X-Github-Delivery"
  = Ok (Event.delivery (Event.cls st2)) /\
  Builtins.getitem headers2 "X-Github-Event"
  = Ok (Event.github_event (Event.cls st2)) /\
  Event.getattr st2 e1 "delivery" = Ok (Event.AValue (Event.delivery (Event.cls st2))) /\
  Event.getattr st2 e1 "github_event"
  = Ok (Event.AValue (Event.github_event (Event.cls st2))) /\
  Event.getattr st2 e1 "_raw_headers" = Ok (Event.AValue (VDict headers2)) /\
  Event.getattr st2 e1 "_raw_body" = Ok (Event.AValue (VDict kwargs2)) /\
  (exists h z, Builtins.getitem headers2 "X-Github-Hook-Id" = Ok h /\
               Builtins.int h = Ok z /\
               Event.getattr st2 e1 "hook_id" = Ok (Event.AValue (VInt z))) /\
  (exists h z, Builtins.getitem headers2 "X-Github-Hook-Installation-Target-Id" = Ok h /\
               Builtins.int h = Ok z /\
               Event.getattr st2 e1 "hook_installation_target_id"
               = Ok (Event.AValue (VInt z))) /\
  (exists t, Builtins.getitem headers2 "X-Github-Hook-Installation-Target-Type" = Ok t /\
             Event.getattr st2 e1 "hook_installation_target_type"
             = Ok (Event.AValue t)) /\
  (exists i, Event.installation_id_of kwargs2 = Ok i /\
             if PyVal.truthy i
             then exists z, Builtins.int i = Ok z /\
                            Event.getattr st2 e1 "installation_id"
                            = Ok (Event.AValue (VInt z))
             else Event.getattr st2 e1 "installation_id" = Ok (Event.AValue i)).
Proof.
  intros H1 H2.
  pose proof (init_returns_hooks _ _ _ _ _ _ _ _ _ H2) as (Hhook & Htarget & Htype).
  pose proof (init_returns_installation _ _ _ _ _ _ _ _ _ H2) as (iv & Hiv & Hinst).
  apply init_returns in H1. apply init_returns in H2.
  destruct H1 as (d1 & ev1 & hid1 & tid1 & tty1 & iid1 & repo1 & sndr1 &
                  _ & _ & _ & Hheap1 & He1).
  destruct H2 as (d2 & ev2 & hid2 & tid2 & tty2 & iid2 & repo2 & sndr2 &
                  Hd2 & Hev2 & Hcls2 & Hheap2 & He2).
  set (i1 := {| Event.gh := gh1; Event.requester := rq1;
                Event.repository := repo1; Event.sender := sndr1;
                Event.check_run := None |}) in *.
  assert (nth_error (Event.heap st1) e1 = Some i1) as Hn1.
  { rewrite Hheap1, He1, nth_error_app2 by lia. rewrite Nat.sub_diag. reflexivity. }
  assert (nth_error (Event.heap st2) e1 = Some i1) as Hn2.
  { rewrite Hheap2, nth_error_app1; [exact Hn1|].
    rewrite Hheap1, He1, length_app; simpl; lia. }
  assert (exists i2, nth_error (Event.heap st2) e2 = Some i2) as [i2 Hn3].
  { eexists. rewrite Hheap2, He2, nth_error_app2 by lia.
    rewrite Nat.sub_diag. reflexivity. }
  assert (forall item, In item metadata ->
                       Event.getattr st2 e1 item = Event.getattr st2 e2 item) as Hshared.
  { intros item Hin. unfold Event.getattr. rewrite Hn2, Hn3.
    simpl in Hin.
    repeat (destruct Hin as [<-|Hin]; [reflexivity|]). destruct Hin. }
  assert (Event.getattr st2 e1 "hook_id"
          = Ok (Event.AValue (Event.hook_id (Event.cls st2)))) as Rhook
      by (unfold Event.getattr; rewrite Hn2; reflexivity).
  assert (Event.getattr st2 e1 "hook_installation_target_id"
          = Ok (Event.AValue (Event.hook_installation_target_id (Event.cls st2))))
    as Rtarget by (unfold Event.getattr; rewrite Hn2; reflexivity).
  assert (Event.getattr st2 e1 "hook_installation_target_type"
          = Ok (Event.AValue (Event.hook_installation_target_type (Event.cls st2))))
    as Rtype by (unfold Event.getattr; rewrite Hn2; reflexivity).
  assert (Event.getattr st2 e1 "installation_id"
          = Ok (Event.AValue (Event.installation_id (Event.cls st2))))
    as Rinst by (unfold Event.getattr; rewrite Hn2; reflexivity).
  split; [exists i1; repeat split; assumption|].
  split; [rewrite He2, Hheap1, length_app, He1; simpl; lia|].
  split; [exact Hshared|].
  split; [rewrite Hcls2; exact Hd2|]. split; [rewrite Hcls2; exact Hev2|].
  split; [unfold Event.getattr; rewrite Hn2; reflexivity|].
  split; [unfold Event.getattr; rewrite Hn2; reflexivity|].
  split; [unfold Event.getattr; rewrite Hn2, Hcls2; reflexivity|].
  split; [unfold Event.getattr; rewrite Hn2, Hcls2; reflexivity|].
  split.
  { destruct Hhook as (h & z & Hh & Hz & Hv). exists h, z.
    rewrite Rhook, Hv. auto. }
  split.
  { destruct Htarget as (h & z & Hh & Hz & Hv). exists h, z.
    rewrite Rtarget, Hv. auto. }
  split.
  { eexists. split; [exact Htype | exact Rtype]. }
  exists iv. split; [exact Hiv|].
  destruct Hinst as [[Ht (z & Hz & Hv)]|[Hf Hv]].
  - rewrite Ht. exists z. rewrite Rinst, Hv. auto.
  - rewrite Hf, Rinst, Hv. reflexivity.
Qed.

Lemma events_share_class_metadata_witness :
  after_first = (fst after_first, Ok 0) /\
  after_second = (fst after_second, Ok 1) /\
  Event.getattr (fst after_second) 0 "_raw_body"
  = Ok (Event.AValue (VDict [("action", VStr "closed");
                             ("installation", VDict [("id", VInt 77)])])) /\
  Event.getattr (fst after_second) 0 "hook_installation_target_type"
  = Ok (Event.AValue (VStr "integration")).
Proof.
  assert (after_first = (fst after_first, Ok 0)) as H1 by reflexivity.
  assert (after_second = (fst after_second, Ok 1)) as H2 by reflexivity.
  split; [exact H1|]. split; [exact H2|].
  destruct (events_share_class_metadata _ _ _ _ _ _ _ _ _ _ _ _ _ _ _ _ _ H1 H2)
    as (_ & _ & _ & _ & _ & _ & _ & _ & Hbody & _ & _ & (t & Ht & Htype) & _).
  split; [exact Hbody|].
  injection Ht as <-. exact Htype.
Defined.

(** ** Lazy objects: reading attributes *)

(** Names that a class keeps for the attributes of the API: none starts
    with an underscore, none is a name of the lazy machinery or of
    PyGithub's own slots. *)
Definition reserved : list string :=
  ["lazy_requester"; "lazy_initialized"; "requester"; "headers"; "rawData";
   "CompletableGithubObject__completed"].

Definition field_ok (f : string) : bool :=
  andb (negb (PyStr.startswith f "_")) (negb (Lazy.in_list f reserved)).

Definition wf_class (c : Lazy.Clazz) : bool := forallb field_ok (Lazy.fields c).

(** [x] with the attribute [k] set to [v]. *)
Definition with_attr (o : Lazy.Obj) (k : string) (v : Lazy.pyobj) : Lazy.Obj :=
  {| Lazy.__class__ := Lazy.__class__ o;
     Lazy.__dict__ := PyDict.set k v (Lazy.__dict__ o) |}.

(** The instance dictionary, then the other attributes of the class. *)
Definition plain_dict (o : Lazy.Obj) (item : string) : result Lazy.pyobj :=
  match PyDict.get item (Lazy.__dict__ o) with
  | Some v => Ok v
  | None =>
      if Lazy.in_list item (Lazy.methods (Lazy.__class__ o)) then Ok (Lazy.PMethod item)
      else Err (AttributeError item)
  end.

(** What the property of a field returns for the attribute in its slot. *)
Definition read_attribute (a : Lazy.Attribute) : result Lazy.pyobj :=
  match Lazy.attribute_value a with
  | Ok v => Ok (Lazy.PValue v)
  | Err e => Err e
  end.

(** What a read yields when nothing is fetched. *)
Definition plain_read (o : Lazy.Obj) (item : string) : result Lazy.pyobj :=
  if Lazy.in_list item (Lazy.fields (Lazy.__class__ o))
  then match plain_dict o (Lazy.slot item) with
       | Ok (Lazy.PAttribute a) => read_attribute a
       | Ok _ => Err (AttributeError "object has no attribute 'value'")
       | Err e => Err e
       end
  else if String.eqb item "lazy_requester" then plain_dict o "_lazy_requester"
  else plain_dict o item.

Lemma in_list_In (x : string) (l : list string) :
  Lazy.in_list x l = true <-> In x l.
Proof.
  unfold Lazy.in_list. rewrite existsb_exists. split.
  - intros (y & Hin & E). apply String.eqb_eq in E. subst. assumption.
  - intros Hin. exists x. split; [assumption | apply String.eqb_refl].
Qed.

Lemma prefix_empty (s : string) : String.prefix "" s = true.
Proof. destruct s; reflexivity. Qed.

Lemma field_is_ok (c : Lazy.Clazz) (f : string) :
  wf_class c = true -> Lazy.in_list f (Lazy.fields c) = true -> field_ok f = true.
Proof.
  unfold wf_class. intros W H. rewrite forallb_forall in W.
  apply W. apply in_list_In. assumption.
Qed.

Lemma underscore_not_field (c : Lazy.Clazz) (s : string) :
  wf_class c = true -> Lazy.in_list (String "_" s) (Lazy.fields c) = false.
Proof.
  intros W. destruct (Lazy.in_list (String "_" s) (Lazy.fields c)) eqn:E; [|reflexivity].
  apply (field_is_ok _ _ W) in E. unfold field_ok, PyStr.startswith in E.
  cbn [String.prefix] in E.
  destruct (Ascii.ascii_dec "_" "_") as [_|N]; [|congruence].
  rewrite prefix_empty in E. discriminate.
Qed.

Lemma reserved_not_field (c : Lazy.Clazz) (s : string) :
  wf_class c = true -> Lazy.in_list s reserved = true ->
  Lazy.in_list s (Lazy.fields c) = false.
Proof.
  intros W R. destruct (Lazy.in_list s (Lazy.fields c)) eqn:E; [|reflexivity].
  apply (field_is_ok _ _ W) in E. unfold field_ok in E. rewrite R in E.
  rewrite andb_false_r in E. discriminate.
Qed.

Lemma field_not_lazy (f : string) :
  field_ok f = true -> PyStr.startswith f "_lazy" = false.
Proof.
  unfold field_ok, PyStr.startswith. intros H. apply andb_true_iff in H.
  destruct H as [H _]. destruct f as [|ch f]; [reflexivity|].
  cbn [String.prefix] in *.
  destruct (Ascii.ascii_dec "_" ch); [|reflexivity].
  rewrite prefix_empty in H. discriminate.
Qed.

Lemma getattribute_S (n : nat) (item : string) :
  Lazy.getattribute (S n) item = Lazy.getattribute_body (Lazy.getattribute n) item.
Proof. reflexivity. Qed.

Section Reading.
Variables (w : Lazy.World) (o : Lazy.Obj).
Hypothesis class_ok : wf_class (Lazy.__class__ o) = true.

(** A name that reaches the instance dictionary. *)
Definition dict_name (item : string) : Prop :=
  Lazy.in_list item (Lazy.fields (Lazy.__class__ o)) = false /\
  String.eqb item "lazy_requester" = false.

Lemma super_getattribute_dict (self_ : string -> M Lazy.St Lazy.pyobj) (item : string) :
  dict_name item ->
  Lazy.super_getattribute self_ item (w, o) = ((w, o), plain_dict o item).
Proof.
  intros [Hf Hl]. unfold Lazy.super_getattribute, bind, get_state, plain_dict; simpl.
  rewrite Hf, Hl.
  destruct (PyDict.get item (Lazy.__dict__ o)); [reflexivity|].
  destruct (Lazy.in_list item (Lazy.methods (Lazy.__class__ o))); reflexivity.
Qed.

Lemma slot_dict_name (s : string) : dict_name (String "_" s).
Proof. split; [apply underscore_not_field; assumption | reflexivity]. Qed.

(** The names of the lazy machinery itself are read without a guard. *)
Lemma read_lazy_slot (n : nat) (s : string) :
  PyStr.startswith (String "_" s) "_lazy" = true ->
  Lazy.getattribute (S n) (String "_" s) (w, o)
  = ((w, o), plain_dict o (String "_" s)).
Proof.
  intros Hpre. rewrite getattribute_S. unfold Lazy.getattribute_body, bind at 1.
  rewrite super_getattribute_dict by apply slot_dict_name.
  destruct (plain_dict o (String "_" s)); [|reflexivity].
  unfold bind. rewrite Hpre. reflexivity.
Qed.

Variables (li lr : Lazy.pyobj).
Hypothesis has_li : PyDict.get "_lazy_initialized" (Lazy.__dict__ o) = Some li.
Hypothesis has_lr : PyDict.get "_lazy_requester" (Lazy.__dict__ o) = Some lr.

Lemma read_lazy_initialized (n : nat) :
  Lazy.getattribute (S n) "_lazy_initialized" (w, o) = ((w, o), Ok li).
Proof.
  rewrite read_lazy_slot by reflexivity. unfold plain_dict. rewrite has_li. reflexivity.
Qed.

Lemma read_lazy_requester_slot (n : nat) :
  Lazy.getattribute (S n) "_lazy_requester" (w, o) = ((w, o), Ok lr).
Proof.
  rewrite read_lazy_slot by reflexivity. unfold plain_dict. rewrite has_lr. reflexivity.
Qed.

(** The guard of [__getattribute__] on a value already read. *)
Lemma guard_value (n : nat) (item : string) (value : Lazy.pyobj)
      (k : bool -> M Lazy.St Lazy.pyobj) :
  bind (if negb (PyStr.startswith item "_lazy")
        then bind (Lazy.getattribute (S n) "_lazy_initialized")
                  (fun li =>
                     if Lazy.truthy li
                     then bind (Lazy.getattribute (S n) "_lazy_requester")
                               (fun lr => ret (andb (Lazy.is_None lr) (Lazy.is_None value)))
                     else ret false)
        else ret false) k (w, o)
  = k (andb (negb (PyStr.startswith item "_lazy"))
            (andb (Lazy.truthy li) (andb (Lazy.is_None lr) (Lazy.is_None value))))
      (w, o).
Proof.
  unfold bind at 1.
  destruct (PyStr.startswith item "_lazy"); cbn [negb andb]; [reflexivity|].
  unfold bind at 1. rewrite read_lazy_initialized. cbv beta iota.
  destruct (Lazy.truthy li); cbn [andb]; [|reflexivity].
  unfold bind at 1. rewrite read_lazy_requester_slot. reflexivity.
Qed.

(** A read that reaches the instance dictionary fetches nothing when a
    requester is cached or when what it finds is not [None]. *)
Lemma read_dict (n : nat) (item : string) :
  dict_name item ->
  Lazy.is_None lr = false \/
  (forall v, plain_dict o item = Ok v -> Lazy.is_None v = false) ->
  Lazy.getattribute (S (S n)) item (w, o) = ((w, o), plain_dict o item).
Proof.
  intros Hname Hnone.
  rewrite getattribute_S. unfold Lazy.getattribute_body. unfold bind at 1.
  rewrite super_getattribute_dict by assumption.
  destruct (plain_dict o item) as [v|e] eqn:Hv; [|reflexivity].
  cbv beta iota. rewrite guard_value.
  assert (andb (Lazy.is_None lr) (Lazy.is_None v) = false) as ->.
  { destruct Hnone as [->|H]; [reflexivity|]. rewrite (H v eq_refl). apply andb_false_r. }
  rewrite !andb_false_r. reflexivity.
Qed.

Lemma super_getattribute_field (n : nat) (f : string) (a : Lazy.Attribute) :
  Lazy.in_list f (Lazy.fields (Lazy.__class__ o)) = true ->
  PyDict.get (Lazy.slot f) (Lazy.__dict__ o) = Some (Lazy.PAttribute a) ->
  Lazy.super_getattribute (Lazy.getattribute (S (S n))) f (w, o)
  = ((w, o), read_attribute a).
Proof.
  intros Hf Hslot.
  assert (plain_dict o (Lazy.slot f) = Ok (Lazy.PAttribute a)) as Hplain.
  { unfold plain_dict. rewrite Hslot. reflexivity. }
  assert (Lazy.getattribute (S (S n)) (Lazy.slot f) (w, o)
          = ((w, o), Ok (Lazy.PAttribute a))) as Hread.
  { rewrite read_dict; [rewrite Hplain; reflexivity | apply slot_dict_name |].
    right. intros v Hv. rewrite Hplain in Hv. injection Hv as <-. reflexivity. }
  unfold Lazy.super_getattribute, bind at 1, get_state. cbv beta iota.
  cbn [snd]. rewrite Hf. unfold Lazy.field_property.
  unfold bind at 1. rewrite Hread. cbv beta iota.
  unfold bind at 1. rewrite Hread. cbv beta iota.
  unfold read_attribute, bind, lift, ret.
  destruct (Lazy.attribute_value a); reflexivity.
Qed.

(** A field is read without a fetch when a requester is cached or when its
    value is not [None]. *)
Lemma read_field_nofetch (n : nat) (f : string) (a : Lazy.Attribute) :
  Lazy.in_list f (Lazy.fields (Lazy.__class__ o)) = true ->
  PyDict.get (Lazy.slot f) (Lazy.__dict__ o) = Some (Lazy.PAttribute a) ->
  Lazy.is_None lr = false \/ Lazy.attribute_value a <> Ok VNone ->
  Lazy.getattribute (S (S (S n))) f (w, o) = ((w, o), read_attribute a).
Proof.
  intros Hf Hslot Hnone.
  rewrite getattribute_S. unfold Lazy.getattribute_body. unfold bind at 1.
  rewrite (super_getattribute_field n f a Hf Hslot). unfold read_attribute.
  destruct (Lazy.attribute_value a) as [v|e]; [|reflexivity]. cbv beta iota.
  rewrite guard_value.
  assert (andb (Lazy.is_None lr) (Lazy.is_None (Lazy.PValue v)) = false) as ->.
  { destruct Hnone as [->|H]; [reflexivity|].
    destruct v; try apply andb_false_r. congruence. }
  rewrite !andb_false_r. reflexivity.
Qed.

Definition private_key_of : result string :=
  match Lazy.PRIVATE_KEY w with
  | Some k =>
      if negb (String.eqb k "") then Ok k
      else match Lazy.private_key_pem w with
           | Some k' => Ok k'
           | None => Err (FileNotFoundError "private-key.pem")
           end
  | None =>
      match Lazy.private_key_pem w with
      | Some k' => Ok k'
      | None => Err (FileNotFoundError "private-key.pem")
      end
  end.

Lemma read_private_key_pure :
  Lazy.read_private_key (w, o) = ((w, o), private_key_of).
Proof.
  unfold Lazy.read_private_key, private_key_of, bind, get_state, ret, raise; simpl.
  destruct (Lazy.PRIVATE_KEY w) as [k|].
  - destruct (negb (String.eqb k "")); [reflexivity|].
    destruct (Lazy.private_key_pem w); reflexivity.
  - destruct (Lazy.private_key_pem w); reflexivity.
Qed.

End Reading.

(** The state the exchange leaves: the exchange is recorded, and with a
    token the requester is stored on the object. *)
Definition exchange_outcome (w : Lazy.World) (o : Lazy.Obj) : Lazy.St * result Lazy.pyobj :=
  match private_key_of w with
  | Err e => ((w, o), Err e)
  | Ok k =>
      let w' := Lazy.log_exchange (Lazy.app_id w, k, Lazy.installation_id w) w in
      match Lazy.get_access_token w (List.length (Lazy.exchanges w))
                                  (Lazy.app_id w) k (Lazy.installation_id w) with
      | Err e => ((w', o), Err e)
      | Ok token =>
          let r := Lazy.PRequester {| Lazy.auth_token := token |} in
          ((w', with_attr o "_lazy_requester" r), Ok r)
      end
  end.

(** The property [lazy_requester]: the requester stored on the object when
    there is one, the outcome of an exchange otherwise. *)
Lemma read_lazy_requester (w : Lazy.World) (o : Lazy.Obj) (li lr : Lazy.pyobj) (n : nat) :
  wf_class (Lazy.__class__ o) = true ->
  PyDict.get "_lazy_initialized" (Lazy.__dict__ o) = Some li ->
  PyDict.get "_lazy_requester" (Lazy.__dict__ o) = Some lr ->
  Lazy.getattribute (S (S n)) "lazy_requester" (w, o)
  = if Lazy.is_None lr then exchange_outcome w o else ((w, o), Ok lr).
Proof.
  intros W Hli Hlr.
  assert (Lazy.in_list "lazy_requester" (Lazy.fields (Lazy.__class__ o)) = false) as Hnf.
  { apply reserved_not_field; [assumption | reflexivity]. }
  rewrite getattribute_S. unfold Lazy.getattribute_body. unfold bind at 1.
  unfold Lazy.super_getattribute at 1. unfold bind at 1, get_state. cbv beta iota.
  cbn [snd]. rewrite Hnf. cbn [String.eqb Ascii.eqb Bool.eqb].
  unfold Lazy.lazy_requester. unfold bind at 1. unfold bind at 1.
  rewrite (read_lazy_requester_slot w o W lr Hlr). cbv beta iota.
  destruct (Lazy.is_None lr) eqn:Hnone.
  - unfold bind at 1. rewrite read_private_key_pure. unfold exchange_outcome.
    destruct (private_key_of w) as [k|e]; [|reflexivity]. cbv beta iota.
    unfold bind at 1. unfold Lazy.exchange. cbn [fst snd].
    destruct (Lazy.get_access_token w (List.length (Lazy.exchanges w))
                (Lazy.app_id w) k (Lazy.installation_id w)) as [token|e]; [|reflexivity].
    cbv beta iota zeta. unfold Lazy.setattr, modify. cbn [fst snd].
    set (w' := Lazy.log_exchange _ w).
    set (r := Lazy.PRequester {| Lazy.auth_token := token |}).
    fold (with_attr o "_lazy_requester" r).
    assert (PyDict.get "_lazy_requester" (Lazy.__dict__ (with_attr o "_lazy_requester" r))
            = Some r) as Hlr' by apply get_set_same.
    assert (PyDict.get "_lazy_initialized" (Lazy.__dict__ (with_attr o "_lazy_requester" r))
            = Some li) as Hli'.
    { unfold with_attr; cbn [Lazy.__dict__]. rewrite get_set_other; [assumption | reflexivity]. }
    rewrite (read_lazy_requester_slot w' (with_attr o "_lazy_requester" r) W r Hlr').
    cbv beta iota.
    rewrite (guard_value w' (with_attr o "_lazy_requester" r) W li r Hli' Hlr').
    cbn [Lazy.is_None r andb]. rewrite !andb_false_r. reflexivity.
  - unfold ret at 1. cbv beta iota.
    rewrite (read_lazy_requester_slot w o W lr Hlr). cbv beta iota.
    rewrite (guard_value w o W li lr Hli Hlr). rewrite Hnone.
    cbn [andb]. rewrite !andb_false_r. reflexivity.
Qed.

(** With a requester cached, no read fetches. *)
Lemma read_cached (w : Lazy.World) (o : Lazy.Obj) (li lr : Lazy.pyobj)
      (n : nat) (item : string) :
  wf_class (Lazy.__class__ o) = true ->
  PyDict.get "_lazy_initialized" (Lazy.__dict__ o) = Some li ->
  PyDict.get "_lazy_requester" (Lazy.__dict__ o) = Some lr ->
  Lazy.is_None lr = false ->
  Lazy.getattribute (S (S (S n))) item (w, o) = ((w, o), plain_read o item).
Proof.
  intros W Hli Hlr Hnone. unfold plain_read.
  destruct (Lazy.in_list item (Lazy.fields (Lazy.__class__ o))) eqn:Hf.
  - assert (Lazy.getattribute (S (S n)) (Lazy.slot item) (w, o)
            = ((w, o), plain_dict o (Lazy.slot item))) as Hread.
    { apply (read_dict w o W li lr Hli Hlr);
        [apply slot_dict_name; assumption | left; assumption]. }
    rewrite getattribute_S. unfold Lazy.getattribute_body. unfold bind at 1.
    unfold Lazy.super_getattribute at 1. unfold bind at 1, get_state. cbv beta iota.
    cbn [snd]. rewrite Hf. unfold Lazy.field_property.
    unfold bind at 1. rewrite Hread.
    destruct (plain_dict o (Lazy.slot item)) as [x|e]; [|reflexivity]. cbv beta iota.
    unfold bind at 1. rewrite Hread. cbv beta iota.
    assert (PyStr.startswith item "_lazy" = false) as Hpre.
    { apply field_not_lazy. apply (field_is_ok _ _ W Hf). }
    destruct x as [v|a|r|m]; try reflexivity.
    unfold read_attribute. unfold bind at 1, lift.
    destruct (Lazy.attribute_value a) as [v|e]; [|reflexivity].
    unfold ret at 1. cbv beta iota.
    rewrite (guard_value w o W li lr Hli Hlr). rewrite Hnone.
    cbn [andb]. rewrite !andb_false_r. reflexivity.
  - destruct (String.eqb item "lazy_requester") eqn:El.
    + apply String.eqb_eq in El. subst item.
      rewrite (read_lazy_requester w o li lr (S n) W Hli Hlr), Hnone.
      unfold plain_dict. rewrite Hlr. reflexivity.
    + apply (read_dict w o W li lr Hli Hlr); [split; assumption | left; assumption].
Qed.

(** *** The dictionary [__init__] builds *)

Lemma existsb_pointwise {A : Type} (p q : A -> bool) (l : list A) :
  (forall x, p x = q x) -> existsb p l = existsb q l.
Proof.
  intros H. induction l as [|x l IH]; simpl; [reflexivity|].
  rewrite H, IH. reflexivity.
Qed.

Lemma slot_eqb (f g : string) : String.eqb (Lazy.slot f) (Lazy.slot g) = String.eqb f g.
Proof. reflexivity. Qed.

Lemma wf_initAttributes (c : Lazy.Clazz) (d : PyDict.t Lazy.pyobj) :
  PyDict.wf d -> PyDict.wf (Lazy._initAttributes c d).
Proof.
  unfold Lazy._initAttributes. revert d.
  induction (Lazy.fields c) as [|f l IH]; intros d W; simpl; [assumption|].
  apply IH. apply wf_set. assumption.
Qed.

Lemma wf_useAttributes (c : Lazy.Clazz) (attributes : PyDict.t value)
      (d : PyDict.t Lazy.pyobj) :
  PyDict.wf d -> PyDict.wf (Lazy._useAttributes c attributes d).
Proof.
  unfold Lazy._useAttributes. revert d.
  induction (Lazy.fields c) as [|f l IH]; intros d W; simpl; [assumption|].
  apply IH. destruct (PyDict.get f attributes); [apply wf_set|]; assumption.
Qed.

Lemma wf_init (c : Lazy.Clazz) (rq : Lazy.pyobj) (headers attributes : PyDict.t value) :
  PyDict.wf (Lazy.__dict__ (Lazy.__init__ c rq headers attributes)).
Proof.
  unfold Lazy.__init__; cbn [Lazy.__dict__].
  repeat apply wf_set. apply wf_useAttributes, wf_initAttributes.
  repeat apply wf_set. constructor.
Qed.

Lemma get_initAttributes (c : Lazy.Clazz) (d : PyDict.t Lazy.pyobj) (k : string) :
  PyDict.get k (Lazy._initAttributes c d) =
  if existsb (fun f => String.eqb k (Lazy.slot f)) (Lazy.fields c)
  then Some (Lazy.PAttribute Lazy.NotSet)
  else PyDict.get k d.
Proof.
  unfold Lazy._initAttributes. revert d.
  induction (Lazy.fields c) as [|g l IH]; intros d; simpl; [reflexivity|].
  rewrite IH, get_set.
  destruct (String.eqb k (Lazy.slot g)); simpl; [|reflexivity].
  destruct (existsb _ l); reflexivity.
Qed.

Lemma get_useAttributes_other (c : Lazy.Clazz) (attributes : PyDict.t value)
      (d : PyDict.t Lazy.pyobj) (k : string) :
  existsb (fun f => String.eqb k (Lazy.slot f)) (Lazy.fields c) = false ->
  PyDict.get k (Lazy._useAttributes c attributes d) = PyDict.get k d.
Proof.
  unfold Lazy._useAttributes. revert d.
  induction (Lazy.fields c) as [|g l IH]; intros d H; simpl in *; [reflexivity|].
  apply orb_false_iff in H. destruct H as [Hg Hl].
  rewrite IH by assumption.
  destruct (PyDict.get g attributes); [|reflexivity].
  apply get_set_other; assumption.
Qed.

Lemma get_useAttributes_field (c : Lazy.Clazz) (attributes : PyDict.t value)
      (d : PyDict.t Lazy.pyobj) (f : string) :
  Lazy.in_list f (Lazy.fields c) = true ->
  PyDict.get (Lazy.slot f) (Lazy._useAttributes c attributes d) =
  match PyDict.get f attributes with
  | Some v => Some (Lazy.PAttribute (Lazy._makeStringAttribute v))
  | None => PyDict.get (Lazy.slot f) d
  end.
Proof.
  unfold Lazy._useAttributes, Lazy.in_list. revert d.
  induction (Lazy.fields c) as [|g l IH]; intros d H; simpl in *; [discriminate|].
  destruct (existsb (String.eqb f) l) eqn:El.
  - rewrite IH by reflexivity.
    destruct (PyDict.get f attributes) as [v|] eqn:Ef; [reflexivity|].
    destruct (PyDict.get g attributes) eqn:Eg; [|reflexivity].
    apply get_set_other. rewrite slot_eqb.
    destruct (String.eqb f g) eqn:E; [|reflexivity].
    apply String.eqb_eq in E. subst g. congruence.
  - rewrite orb_false_r in H. apply String.eqb_eq in H. subst g.
    assert (existsb (fun g => String.eqb (Lazy.slot f) (Lazy.slot g)) l = false) as El'.
    { rewrite <- El. apply existsb_pointwise. intros g. apply slot_eqb. }
    pose proof (get_useAttributes_other
                  {| Lazy.clazz_name := ""; Lazy.__bases__ := [];
                     Lazy.fields := l; Lazy.methods := [] |}
                  attributes) as Hother.
    unfold Lazy._useAttributes in Hother; cbn [Lazy.fields] in Hother.
    rewrite Hother by assumption.
    destruct (PyDict.get f attributes); [apply get_set_same | reflexivity].
Qed.

Lemma field_not_reserved_slot (f : string) :
  field_ok f = true ->
  String.eqb (Lazy.slot f) "_headers" = false /\
  String.eqb (Lazy.slot f) "_rawData" = false /\
  String.eqb (Lazy.slot f) "_CompletableGithubObject__completed" = false /\
  String.eqb (Lazy.slot f) "_lazy_initialized" = false /\
  String.eqb (Lazy.slot f) "_lazy_requester" = false.
Proof.
  unfold field_ok, reserved, Lazy.in_list. cbn [existsb]. intros H.
  apply andb_true_iff in H. destruct H as [_ H]. apply negb_true_iff in H.
  repeat (apply orb_false_iff in H; destruct H as [? H]).
  change (Lazy.slot f) with (String "_" f).
  cbn [String.eqb Ascii.eqb Bool.eqb]. repeat split; assumption.
Qed.

(** The attribute of the field [f] on an instance built from
    [attributes]. *)
Definition fetched_attribute (attributes : PyDict.t value) (f : string) : Lazy.Attribute :=
  match PyDict.get f attributes with
  | Some v => Lazy._makeStringAttribute v
  | None => Lazy.NotSet
  end.

(** The slots of a new instance. *)
Lemma init_slots (c : Lazy.Clazz) (rq : Lazy.pyobj) (headers attributes : PyDict.t value) :
  wf_class c = true ->
  let d := Lazy.__dict__ (Lazy.__init__ c rq headers attributes) in
  PyDict.get "_lazy_initialized" d = Some (Lazy.PValue (VBool true)) /\
  PyDict.get "_lazy_requester" d = Some Lazy.None_ /\
  forall f, Lazy.in_list f (Lazy.fields c) = true ->
            PyDict.get (Lazy.slot f) d
            = Some (Lazy.PAttribute (fetched_attribute attributes f)).
Proof.
  intros W d. subst d. unfold Lazy.__init__; cbn [Lazy.__dict__].
  split; [rewrite get_set_other by reflexivity; apply get_set_same|].
  split; [apply get_set_same|].
  intros f Hf.
  destruct (field_not_reserved_slot f (field_is_ok _ _ W Hf)) as (H1 & H2 & H3 & H4 & H5).
  rewrite !get_set_other by assumption.
  rewrite get_useAttributes_field by assumption.
  unfold fetched_attribute.
  destruct (PyDict.get f attributes); [reflexivity|].
  rewrite get_initAttributes.
  assert (existsb (fun g => String.eqb (Lazy.slot f) (Lazy.slot g)) (Lazy.fields c) = true) as ->.
  { rewrite <- Hf. apply existsb_pointwise. intros g. apply slot_eqb. }
  reflexivity.
Qed.

(** *** The fetch *)

(** [self] after [self.__dict__.update(new_self.__dict__)]. *)
Definition refreshed (o : Lazy.Obj) (rq : Lazy.pyobj) (headers data : PyDict.t value)
  : Lazy.Obj :=
  {| Lazy.__class__ := Lazy.__class__ o;
     Lazy.__dict__ :=
       PyDict.update (Lazy.__dict__ o)
                     (Lazy.__dict__ (Lazy.__init__ (Lazy.__class__ o) rq headers data)) |}.

(** The course of a read that passes the guard: the exchange, the read of
    [url], the request, and the field as the answer gives it. *)
Definition fetch_outcome (w : Lazy.World) (o : Lazy.Obj) (f : string)
  : Lazy.St * result Lazy.pyobj :=
  match exchange_outcome w o with
  | (st, Err e) => (st, Err e)
  | ((w1, o1), Ok rq) =>
      match plain_read o1 "url" with
      | Err e => ((w1, o1), Err e)
      | Ok url =>
          match rq with
          | Lazy.PRequester r =>
              let w2 := Lazy.log_request (r, url) w1 in
              match Lazy.requestJsonAndCheck w1 (List.length (Lazy.requests w1)) r url with
              | Err e => ((w2, o1), Err e)
              | Ok hd =>
                  ((w2, refreshed o1 rq (fst hd) (snd hd)),
                   read_attribute (fetched_attribute (snd hd) f))
              end
          | _ => ((w1, o1),
                  Err (AttributeError "object has no attribute 'requestJsonAndCheck'"))
          end
      end
  end.

Lemma refreshed_slots (o : Lazy.Obj) (rq : Lazy.pyobj) (headers data : PyDict.t value) :
  wf_class (Lazy.__class__ o) = true ->
  let d := Lazy.__dict__ (refreshed o rq headers data) in
  PyDict.get "_lazy_initialized" d = Some (Lazy.PValue (VBool true)) /\
  PyDict.get "_lazy_requester" d = Some Lazy.None_ /\
  forall f, Lazy.in_list f (Lazy.fields (Lazy.__class__ o)) = true ->
            PyDict.get (Lazy.slot f) d
            = Some (Lazy.PAttribute (fetched_attribute data f)).
Proof.
  intros W d. subst d. unfold refreshed; cbn [Lazy.__dict__].
  destruct (init_slots (Lazy.__class__ o) rq headers data W) as (Hli & Hlr & Hslots).
  split; [rewrite get_update by apply wf_init; rewrite Hli; reflexivity|].
  split; [rewrite get_update by apply wf_init; rewrite Hlr; reflexivity|].
  intros f Hf. rewrite get_update by apply wf_init.
  rewrite (Hslots f Hf). reflexivity.
Qed.

(** A field whose value reads as [None], on an initialized object with no
    requester stored: the read is the fetch. *)
Lemma read_field_fetch (w : Lazy.World) (o : Lazy.Obj) (li lr : Lazy.pyobj)
      (n : nat) (f : string) (a : Lazy.Attribute) :
  wf_class (Lazy.__class__ o) = true ->
  PyDict.get "_lazy_initialized" (Lazy.__dict__ o) = Some li ->
  Lazy.truthy li = true ->
  PyDict.get "_lazy_requester" (Lazy.__dict__ o) = Some lr ->
  Lazy.is_None lr = true ->
  Lazy.in_list f (Lazy.fields (Lazy.__class__ o)) = true ->
  PyDict.get (Lazy.slot f) (Lazy.__dict__ o) = Some (Lazy.PAttribute a) ->
  Lazy.attribute_value a = Ok VNone ->
  Lazy.getattribute (S (S (S (S n)))) f (w, o) = fetch_outcome w o f.
Proof.
  intros W Hli Htrue Hlr Hnone Hf Hslot Hval.
  assert (PyStr.startswith f "_lazy" = false) as Hpre.
  { apply field_not_lazy. apply (field_is_ok _ _ W Hf). }
  rewrite getattribute_S. unfold Lazy.getattribute_body. unfold bind at 1.
  rewrite (super_getattribute_field w o W li lr Hli Hlr (S n) f a Hf Hslot).
  unfold read_attribute at 1. rewrite Hval.
  cbv beta iota. rewrite (guard_value w o W li lr Hli Hlr).
  rewrite Hpre, Htrue, Hnone. cbn [negb andb Lazy.is_None].
  unfold bind at 1.
  rewrite (read_lazy_requester w o li lr (S n) W Hli Hlr), Hnone.
  unfold fetch_outcome, exchange_outcome.
  destruct (private_key_of w) as [k|e]; [|reflexivity].
  cbv zeta.
  set (w1 := Lazy.log_exchange _ w).
  destruct (Lazy.get_access_token w (List.length (Lazy.exchanges w))
              (Lazy.app_id w) k (Lazy.installation_id w)) as [token|e]; [|reflexivity].
  set (r := {| Lazy.auth_token := token |}).
  set (o1 := with_attr o "_lazy_requester" (Lazy.PRequester r)).
  assert (PyDict.get "_lazy_requester" (Lazy.__dict__ o1) = Some (Lazy.PRequester r))
    as Hlr1 by apply get_set_same.
  assert (PyDict.get "_lazy_initialized" (Lazy.__dict__ o1) = Some li) as Hli1.
  { unfold o1, with_attr; cbn [Lazy.__dict__].
    rewrite get_set_other; [assumption | reflexivity]. }
  assert (wf_class (Lazy.__class__ o1) = true) as W1 by exact W.
  cbv beta iota. unfold bind at 1.
  rewrite (read_cached w1 o1 li (Lazy.PRequester r) n "url" W1 Hli1 Hlr1 eq_refl).
  destruct (plain_read o1 "url") as [url|e]; [|reflexivity].
  cbv beta iota. unfold bind at 1. unfold Lazy.request. cbn [fst snd].
  set (w2 := Lazy.log_request (r, url) w1).
  destruct (Lazy.requestJsonAndCheck w1 (List.length (Lazy.requests w1)) r url)
    as [hd|e]; [|reflexivity].
  cbv beta iota. unfold bind at 1.
  rewrite (read_lazy_requester w2 o1 li (Lazy.PRequester r) (S n) W1 Hli1 Hlr1).
  cbn [Lazy.is_None]. cbv beta iota.
  unfold bind at 1, get_state. cbv beta iota.
  unfold bind at 1, Lazy.update_dict, modify. cbn [fst snd].
  fold (refreshed o1 (Lazy.PRequester r) (fst hd) (snd hd)).
  destruct (refreshed_slots o1 (Lazy.PRequester r) (fst hd) (snd hd) W1)
    as (Hli2 & Hlr2 & Hslots2).
  rewrite (super_getattribute_field w2 (refreshed o1 (Lazy.PRequester r) (fst hd) (snd hd))
             W1 _ _ Hli2 Hlr2 (S n) f (fetched_attribute (snd hd) f) Hf (Hslots2 f Hf)).
  reflexivity.
Qed.

(** *** The objects and worlds of the examples *)

(** A world with the key in the environment, where the [n]-th exchange
    gives the [n]-th token of [tokens] and every request is answered by
    [answer]. *)
Definition world_with (tokens : nat -> string)
           (answer : nat -> result (PyDict.t value * PyDict.t value)) : Lazy.World :=
  {| Lazy.PRIVATE_KEY := Some "private-key";
     Lazy.private_key_pem := None;
     Lazy.app_id := VInt 123;
     Lazy.installation_id := VInt 55;
     Lazy.get_access_token := fun n _ _ _ => Ok (tokens n);
     Lazy.requestJsonAndCheck := fun n _ _ => answer n;
     Lazy.exchanges := [];
     Lazy.requests := [] |}.

Definition token_number (n : nat) : string :=
  match n with O => "token-0" | S O => "token-1" | _ => "token-n" end.

(** The instance that [get_lazy_instance(clazz, attributes)] returns in
    the process of the examples; where the call raises there is none, and
    the object without attributes stands for that. *)
Definition lazy_instance (clazz : Lazy.Clazz) (attributes : PyDict.t value) : Lazy.Obj :=
  match snd (Lazy.get_lazy_instance class_table clazz attributes) with
  | Ok o => o
  | Err _ => {| Lazy.__class__ := clazz; Lazy.__dict__ := [] |}
  end.

(** [get_lazy_instance(LazyClass, attributes={})], as in the tests. *)
Definition instance : Lazy.Obj := lazy_instance LazyClass [].

(** A second instance of the class, built from another payload. *)
Definition other_instance : Lazy.Obj := lazy_instance LazyClass [("id", VInt 2)].

(** An instance built from a payload that gives [attr1] as [null]. *)
Definition instance_with_null : Lazy.Obj := lazy_instance LazyClass [("attr1", VNone)].

Example instance_returned :
  Lazy.get_lazy_instance class_table LazyClass []
  = ({| Lazy.clazz_name := "LazyClass";
        Lazy.__bases__ := ["LazyCompletableGithubObject"; "CompletableGithubObject"];
        Lazy.fields := ["attr1"];
        Lazy.methods := ["url"] |},
     Ok instance).
Proof. reflexivity. Qed.

Definition world_of (st : Lazy.St * result Lazy.pyobj) : Lazy.World := fst (fst st).
Definition object_of (st : Lazy.St * result Lazy.pyobj) : Lazy.Obj := snd (fst st).

(** ** C2: the requester is cached on the object, not for the process *)

(** The reading of the specification: a second lazy resource under the same
    installation uses the token the first one obtained. *)
Definition token_shared (w : Lazy.World) (o1 o2 : Lazy.Obj) (item : string) : Prop :=
  let first := Lazy.getattribute 4 item (w, o1) in
  let second := Lazy.getattribute 4 item (world_of first, o2) in
  Lazy.exchanges (world_of second) = Lazy.exchanges (world_of first).

(** C2, as stated, fails: two lazy instances under one installation each
    exchange a token of their own when their field is read. *)
Lemma each_resource_exchanges_its_own_token :
  let w := world_with token_number (fun _ => Ok ([], [("attr1", VStr "value1")])) in
  let first := Lazy.getattribute 4 "attr1" (w, instance) in
  let second := Lazy.getattribute 4 "attr1" (world_of first, other_instance) in
  snd first = Ok (Lazy.PValue (VStr "value1")) /\
  snd second = Ok (Lazy.PValue (VStr "value1")) /\
  Lazy.exchanges (world_of first) = [(VInt 123, "private-key", VInt 55)] /\
  Lazy.exchanges (world_of second)
  = [(VInt 123, "private-key", VInt 55); (VInt 123, "private-key", VInt 55)] /\
  Lazy.requests (world_of second)
  = [({| Lazy.auth_token := "token-0" |}, Lazy.PMethod "url");
     ({| Lazy.auth_token := "token-1" |}, Lazy.PMethod "url")] /\
  ~ token_shared w instance other_instance "attr1".
Proof.
  repeat split; try reflexivity.
  unfold token_shared. vm_compute. discriminate.
Qed.

Lemma private_key_of_log_exchange (x : value * string * value) (w : Lazy.World) :
  private_key_of (Lazy.log_exchange x w) = private_key_of w.
Proof. reflexivity. Qed.

(** C2 (amended): the requester built from the token exchange is kept on
    the lazy resource itself, in [_lazy_requester]. Reading [lazy_requester]
    on a resource where none is stored makes one exchange and stores the
    requester there; reading it again while it is stored makes no exchange
    and gives the same requester; another resource under the same
    installation, with none stored, makes an exchange of its own. There is
    no cache for the process. *)
Theorem requester_cached_on_the_object
        (w : Lazy.World) (o1 o2 : Lazy.Obj) (li1 li2 : Lazy.pyobj) (n : nat)
        (k t1 t2 : string) :
  wf_class (Lazy.__class__ o1) = true ->
  wf_class (Lazy.__class__ o2) = true ->
  PyDict.get "_lazy_initialized" (Lazy.__dict__ o1) = Some li1 ->
  PyDict.get "_lazy_initialized" (Lazy.__dict__ o2) = Some li2 ->
  PyDict.get "_lazy_requester" (Lazy.__dict__ o1) = Some Lazy.None_ ->
  PyDict.get "_lazy_requester" (Lazy.__dict__ o2) = Some Lazy.None_ ->
  private_key_of w = Ok k ->
  Lazy.get_access_token w (List.length (Lazy.exchanges w))
                        (Lazy.app_id w) k (Lazy.installation_id w) = Ok t1 ->
  Lazy.get_access_token w (S (List.length (Lazy.exchanges w)))
                        (Lazy.app_id w) k (Lazy.installation_id w) = Ok t2 ->
  let x := (Lazy.app_id w, k, Lazy.installation_id w) in
  let r1 := Lazy.PRequester {| Lazy.auth_token := t1 |} in
  let r2 := Lazy.PRequester {| Lazy.auth_token := t2 |} in
  let w1 := Lazy.log_exchange x w in
  let w2 := Lazy.log_exchange x w1 in
  let o1' := with_attr o1 "_lazy_requester" r1 in
  Lazy.getattribute (S (S n)) "lazy_requester" (w, o1) = ((w1, o1'), Ok r1) /\
  Lazy.getattribute (S (S n)) "lazy_requester" (w1, o1') = ((w1, o1'), Ok r1) /\
  Lazy.getattribute (S (S n)) "lazy_requester" (w1, o2)
  = ((w2, with_attr o2 "_lazy_requester" r2), Ok r2) /\
  Lazy.exchanges w2 = Lazy.exchanges w ++ [x; x].
Proof.
  intros W1 W2 Hli1 Hli2 Hlr1 Hlr2 Hk Ht1 Ht2 x r1 r2 w1 w2 o1'.
  split; [|split; [|split]].
  - rewrite (read_lazy_requester w o1 li1 Lazy.None_ n W1 Hli1 Hlr1).
    cbn [Lazy.is_None Lazy.None_]. unfold exchange_outcome. rewrite Hk, Ht1. reflexivity.
  - assert (PyDict.get "_lazy_requester" (Lazy.__dict__ o1') = Some r1) as Hlr'
        by apply get_set_same.
    assert (PyDict.get "_lazy_initialized" (Lazy.__dict__ o1') = Some li1) as Hli'.
    { unfold o1', with_attr; cbn [Lazy.__dict__].
      rewrite get_set_other; [assumption | reflexivity]. }
    rewrite (read_lazy_requester w1 o1' li1 r1 n W1 Hli' Hlr'). reflexivity.
  - rewrite (read_lazy_requester w1 o2 li2 Lazy.None_ n W2 Hli2 Hlr2).
    cbn [Lazy.is_None Lazy.None_]. unfold exchange_outcome.
    unfold w1 at 1. rewrite private_key_of_log_exchange, Hk.
    assert (List.length (Lazy.exchanges w1) = S (List.length (Lazy.exchanges w))) as Hlen.
    { unfold w1, Lazy.log_exchange; cbn [Lazy.exchanges]. rewrite length_app; simpl; lia. }
    rewrite Hlen.
    change (Lazy.get_access_token w1) with (Lazy.get_access_token w).
    change (Lazy.app_id w1) with (Lazy.app_id w).
    change (Lazy.installation_id w1) with (Lazy.installation_id w).
    rewrite Ht2. reflexivity.
  - unfold w2, w1, Lazy.log_exchange; cbn [Lazy.exchanges].
    rewrite <- app_assoc. reflexivity.
Qed.

Lemma requester_cached_on_the_object_witness :
  let w := world_with token_number (fun _ => Ok ([], [])) in
  Lazy.getattribute 2 "lazy_requester"
    (Lazy.log_exchange (VInt 123, "private-key", VInt 55) w, other_instance)
  = ((Lazy.log_exchange (VInt 123, "private-key", VInt 55)
        (Lazy.log_exchange (VInt 123, "private-key", VInt 55) w),
      with_attr other_instance "_lazy_requester"
                (Lazy.PRequester {| Lazy.auth_token := "token-1" |})),
     Ok (Lazy.PRequester {| Lazy.auth_token := "token-1" |})).
Proof.
  intros w.
  exact (proj1 (proj2 (proj2
           (requester_cached_on_the_object
              w instance other_instance
              (Lazy.PValue (VBool true)) (Lazy.PValue (VBool true))
              0 "private-key" "token-0" "token-1"
              eq_refl eq_refl eq_refl eq_refl eq_refl eq_refl eq_refl eq_refl eq_refl)))).
Defined.

(** ** C3: a second read of a field that stays [None] fetches again *)

(** After a fetch the object is initialized and has no requester stored:
    when the answer leaves the field at [None], the next read of the field is
    a fetch again, for every object and every answer. *)
Lemma read_after_fetch (w : Lazy.World) (o : Lazy.Obj) (rq : Lazy.pyobj)
      (headers data : PyDict.t value) (n : nat) (f : string) :
  wf_class (Lazy.__class__ o) = true ->
  Lazy.in_list f (Lazy.fields (Lazy.__class__ o)) = true ->
  Lazy.attribute_value (fetched_attribute data f) = Ok VNone ->
  Lazy.getattribute (S (S (S (S n)))) f (w, refreshed o rq headers data)
  = fetch_outcome w (refreshed o rq headers data) f.
Proof.
  intros W Hf Hval.
  destruct (refreshed_slots o rq headers data W) as (Hli & Hlr & Hslots).
  apply (read_field_fetch w (refreshed o rq headers data)
                          (Lazy.PValue (VBool true)) Lazy.None_ n f
                          (fetched_attribute data f) W Hli eq_refl Hlr eq_refl Hf
                          (Hslots f Hf) Hval).
Qed.

(** C3 (the code at the failing input): [instance.attr1] is read twice on
    an instance built with [attr1] absent, the request being answered
    without a value for [attr1]. The first read makes one exchange and one
    request; it leaves [_lazy_requester] at [None], the value of the new
    instance whose dictionary was copied over; the second read makes a second
    exchange and a second request. The same happens when the answer gives
    [attr1] as [null]. *)
Lemma second_read_fetches_again :
  let w := world_with token_number (fun _ => Ok ([], [])) in
  let first := Lazy.getattribute 4 "attr1" (w, instance) in
  let second := Lazy.getattribute 4 "attr1" (fst first) in
  let w' := world_with token_number (fun _ => Ok ([], [("attr1", VNone)])) in
  let first' := Lazy.getattribute 4 "attr1" (w', instance) in
  let second' := Lazy.getattribute 4 "attr1" (fst first') in
  List.length (Lazy.requests (world_of first')) = 1 /\
  List.length (Lazy.requests (world_of second')) = 2 /\
  snd first = Ok (Lazy.PValue VNone) /\
  List.length (Lazy.requests (world_of first)) = 1 /\
  PyDict.get "_lazy_requester" (Lazy.__dict__ (object_of first)) = Some Lazy.None_ /\
  PyDict.get "_requester" (Lazy.__dict__ (object_of first))
  = Some (Lazy.PRequester {| Lazy.auth_token := "token-0" |}) /\
  snd second = Ok (Lazy.PValue VNone) /\
  List.length (Lazy.requests (world_of second)) = 2 /\
  List.length (Lazy.exchanges (world_of second)) = 2.
Proof.
  repeat split; reflexivity.
Qed.

(** ** C4: no retry after a failed request *)

(** The reading of the specification: after a read that raised, the next
    read of the field makes a request again. *)
Definition retried_after_failure (w : Lazy.World) (o : Lazy.Obj) (item : string) : Prop :=
  let first := Lazy.getattribute 4 item (w, o) in
  let second := Lazy.getattribute 4 item (fst first) in
  (exists e, snd first = Err e) ->
  List.length (Lazy.requests (world_of second))
  = S (List.length (Lazy.requests (world_of first))).

(** C4 (the code at the failing input): [instance.attr1] is read twice on
    an instance built with [attr1] absent, the token exchange succeeding and
    the request failing with status 404. The first read raises that
    exception to its caller; it leaves the requester of the exchange stored
    in [_lazy_requester], which the guard of [__getattribute__] takes for
    "already fetched"; the second read of the field, still unset, returns
    [None] without an exchange or a request: there is no retry. *)
Lemma no_retry_after_failed_request :
  let w := world_with token_number (fun _ => Err (GithubException 404)) in
  let first := Lazy.getattribute 4 "attr1" (w, instance) in
  let second := Lazy.getattribute 4 "attr1" (fst first) in
  snd first = Err (GithubException 404) /\
  PyDict.get "_lazy_requester" (Lazy.__dict__ (object_of first))
  = Some (Lazy.PRequester {| Lazy.auth_token := "token-0" |}) /\
  snd second = Ok (Lazy.PValue VNone) /\
  Lazy.requests (world_of second) = Lazy.requests (world_of first) /\
  List.length (Lazy.requests (world_of second)) = 1 /\
  ~ retried_after_failure w instance "attr1".
Proof.
  repeat split; try reflexivity.
  unfold retried_after_failure. intros H.
  assert (exists e, snd (Lazy.getattribute
                           4 "attr1"
                           (world_with token_number (fun _ => Err (GithubException 404)),
                            instance)) = Err e) as Hex.
  { exists (GithubException 404). reflexivity. }
  specialize (H Hex). vm_compute in H. discriminate.
Qed.

(** The same for every object and every failure. When it is the token
    exchange that fails (no key, or the exchange itself), the object is left
    as it was and the next read of the field goes through the fetch again,
    from the exchange on. When the exchange succeeds and the request fails,
    the requester stays stored in [_lazy_requester], and the next read of the
    field returns [None] without an exchange or a request. *)
Lemma failed_fetch_outcomes
      (w : Lazy.World) (o : Lazy.Obj) (li : Lazy.pyobj) (n : nat)
      (f : string) (a : Lazy.Attribute) :
  wf_class (Lazy.__class__ o) = true ->
  PyDict.get "_lazy_initialized" (Lazy.__dict__ o) = Some li ->
  Lazy.truthy li = true ->
  PyDict.get "_lazy_requester" (Lazy.__dict__ o) = Some Lazy.None_ ->
  Lazy.in_list f (Lazy.fields (Lazy.__class__ o)) = true ->
  PyDict.get (Lazy.slot f) (Lazy.__dict__ o) = Some (Lazy.PAttribute a) ->
  Lazy.attribute_value a = Ok VNone ->
  (forall st e,
      exchange_outcome w o = (st, Err e) ->
      Lazy.getattribute (S (S (S (S n)))) f (w, o) = (st, Err e) /\
      snd st = o /\
      Lazy.getattribute (S (S (S (S n)))) f st = fetch_outcome (fst st) o f) /\
  (forall k token url e,
      private_key_of w = Ok k ->
      Lazy.get_access_token w (List.length (Lazy.exchanges w))
                            (Lazy.app_id w) k (Lazy.installation_id w) = Ok token ->
      let r := {| Lazy.auth_token := token |} in
      let o1 := with_attr o "_lazy_requester" (Lazy.PRequester r) in
      plain_read o1 "url" = Ok url ->
      Lazy.requestJsonAndCheck w (List.length (Lazy.requests w)) r url = Err e ->
      let w2 := Lazy.log_request
                  (r, url)
                  (Lazy.log_exchange (Lazy.app_id w, k, Lazy.installation_id w) w) in
      Lazy.getattribute (S (S (S (S n)))) f (w, o) = ((w2, o1), Err e) /\
      Lazy.getattribute (S (S (S (S n)))) f (w2, o1)
      = ((w2, o1), Ok (Lazy.PValue VNone))).
Proof.
  intros W Hli Htrue Hlr Hf Hslot Hval.
  pose proof (read_field_fetch w o li Lazy.None_ n f a W Hli Htrue Hlr eq_refl Hf Hslot Hval)
    as Hfetch.
  split.
  - intros st e Hex.
    assert (snd st = o) as Hsame.
    { unfold exchange_outcome in Hex.
      destruct (private_key_of w) as [k|e0]; [|injection Hex as <- _; reflexivity].
      destruct (Lazy.get_access_token w (List.length (Lazy.exchanges w))
                  (Lazy.app_id w) k (Lazy.installation_id w));
        [discriminate | injection Hex as <- _; reflexivity]. }
    destruct st as [w' o']. cbn [snd] in Hsame. subst o'. cbn [fst snd].
    split; [rewrite Hfetch; unfold fetch_outcome; rewrite Hex; reflexivity|].
    split; [reflexivity|].
    apply (read_field_fetch w' o li Lazy.None_ n f a W Hli Htrue Hlr eq_refl Hf Hslot Hval).
  - intros k token url e Hk Htok r o1 Hurl Hreq w2.
    split.
    + rewrite Hfetch. unfold fetch_outcome, exchange_outcome.
      rewrite Hk, Htok. cbv zeta. fold r. fold o1. rewrite Hurl.
      change (Lazy.requestJsonAndCheck
                (Lazy.log_exchange (Lazy.app_id w, k, Lazy.installation_id w) w))
        with (Lazy.requestJsonAndCheck w).
      change (Lazy.requests
                (Lazy.log_exchange (Lazy.app_id w, k, Lazy.installation_id w) w))
        with (Lazy.requests w).
      rewrite Hreq. reflexivity.
    + assert (PyDict.get "_lazy_requester" (Lazy.__dict__ o1) = Some (Lazy.PRequester r))
        as Hlr1 by apply get_set_same.
      assert (PyDict.get "_lazy_initialized" (Lazy.__dict__ o1) = Some li) as Hli1.
      { unfold o1, with_attr; cbn [Lazy.__dict__].
        rewrite get_set_other; [assumption | reflexivity]. }
      assert (PyDict.get (Lazy.slot f) (Lazy.__dict__ o1) = Some (Lazy.PAttribute a))
        as Hslot1.
      { unfold o1, with_attr; cbn [Lazy.__dict__].
        rewrite get_set_other; [assumption|].
        apply (field_not_reserved_slot f (field_is_ok _ _ W Hf)). }
      rewrite (read_field_nofetch w2 o1 W li (Lazy.PRequester r) Hli1 Hlr1 (S n) f a Hf Hslot1
                 (or_introl eq_refl)).
      unfold read_attribute. rewrite Hval. reflexivity.
Qed.

(** ** C5: [None] is what the lazy layer takes for unset *)

(** The reading of the specification: a field that holds [None], and is not
    [NotSet], is read without a request. *)
Definition none_is_not_unset (w : Lazy.World) (o : Lazy.Obj) (f : string) : Prop :=
  PyDict.get (Lazy.slot f) (Lazy.__dict__ o)
  = Some (Lazy.PAttribute (Lazy.Valued VNone)) ->
  Lazy.requests (world_of (Lazy.getattribute 4 f (w, o))) = Lazy.requests w.

(** C5, as stated, fails: on an instance whose [attr1] holds [None] (set
    from the payload, not [NotSet]), reading [attr1] makes a request. *)
Lemma none_valued_field_is_fetched :
  let w := world_with token_number (fun _ => Ok ([], [("attr1", VStr "value1")])) in
  PyDict.get "_attr1" (Lazy.__dict__ instance_with_null)
  = Some (Lazy.PAttribute (Lazy.Valued VNone)) /\
  PyDict.get "_attr1" (Lazy.__dict__ instance) = Some (Lazy.PAttribute Lazy.NotSet) /\
  Lazy.requests (world_of (Lazy.getattribute 4 "attr1" (w, instance_with_null)))
  = [({| Lazy.auth_token := "token-0" |}, Lazy.PMethod "url")] /\
  snd (Lazy.getattribute 4 "attr1" (w, instance_with_null))
  = Ok (Lazy.PValue (VStr "value1")) /\
  ~ none_is_not_unset w instance_with_null "attr1".
Proof.
  repeat split; try reflexivity.
  unfold none_is_not_unset. intros H. specialize (H eq_refl).
  vm_compute in H. discriminate.
Qed.

Lemma fetch_outcome_exchanges (w : Lazy.World) (o : Lazy.Obj) (f k : string) :
  private_key_of w = Ok k ->
  Lazy.exchanges (world_of (fetch_outcome w o f))
  = Lazy.exchanges w ++ [(Lazy.app_id w, k, Lazy.installation_id w)].
Proof.
  intros Hk. unfold fetch_outcome, exchange_outcome, world_of. rewrite Hk. cbv zeta.
  destruct (Lazy.get_access_token w (List.length (Lazy.exchanges w))
              (Lazy.app_id w) k (Lazy.installation_id w)) as [token|e]; [|reflexivity].
  destruct (plain_read _ "url") as [url|e]; [|reflexivity].
  destruct (Lazy.requestJsonAndCheck _ _ _ url) as [hd|e]; reflexivity.
Qed.

(** C5 (amended): the lazy layer tests the value read against [None]. On
    an initialized object with no requester stored, a field whose value reads
    as [None] is fetched, whether its slot is [NotSet] or holds [None]: the
    read is the fetch, which begins with a token exchange; a field whose
    value is not [None] is returned as it is, the world and the object
    untouched. *)
Theorem none_value_triggers_the_fetch
        (w : Lazy.World) (o : Lazy.Obj) (li : Lazy.pyobj) (n : nat)
        (f : string) (a : Lazy.Attribute) :
  wf_class (Lazy.__class__ o) = true ->
  PyDict.get "_lazy_initialized" (Lazy.__dict__ o) = Some li ->
  Lazy.truthy li = true ->
  PyDict.get "_lazy_requester" (Lazy.__dict__ o) = Some Lazy.None_ ->
  Lazy.in_list f (Lazy.fields (Lazy.__class__ o)) = true ->
  PyDict.get (Lazy.slot f) (Lazy.__dict__ o) = Some (Lazy.PAttribute a) ->
  (a = Lazy.NotSet \/ a = Lazy.Valued VNone ->
   Lazy.getattribute (S (S (S (S n)))) f (w, o) = fetch_outcome w o f /\
   forall k, private_key_of w = Ok k ->
             Lazy.exchanges (world_of (Lazy.getattribute (S (S (S (S n)))) f (w, o)))
             = Lazy.exchanges w ++ [(Lazy.app_id w, k, Lazy.installation_id w)]) /\
  (forall v, a = Lazy.Valued v -> v <> VNone ->
             Lazy.getattribute (S (S (S (S n)))) f (w, o) = ((w, o), Ok (Lazy.PValue v))).
Proof.
  intros W Hli Htrue Hlr Hf Hslot. split.
  - intros Ha.
    assert (Lazy.attribute_value a = Ok VNone) as Hval by (destruct Ha; subst a; reflexivity).
    pose proof (read_field_fetch w o li Lazy.None_ n f a W Hli Htrue Hlr eq_refl
                                 Hf Hslot Hval) as Hfetch.
    split; [exact Hfetch|].
    intros k Hk. rewrite Hfetch. apply fetch_outcome_exchanges. assumption.
  - intros v -> Hv.
    apply (read_field_nofetch w o W li Lazy.None_ Hli Hlr (S n) f (Lazy.Valued v) Hf Hslot).
    right. cbn [Lazy.attribute_value]. congruence.
Qed.

Definition instance_with_value : Lazy.Obj := lazy_instance LazyClass [("attr1", VStr "known")].

Lemma none_value_triggers_the_fetch_witness :
  let w := world_with token_number (fun _ => Ok ([], [("attr1", VStr "value1")])) in
  Lazy.getattribute 4 "attr1" (w, instance_with_value)
  = ((w, instance_with_value), Ok (Lazy.PValue (VStr "known"))) /\
  Lazy.exchanges (world_of (Lazy.getattribute 4 "attr1" (w, instance_with_null)))
  = [(VInt 123, "private-key", VInt 55)].
Proof.
  intros w. split.
  - apply (proj2 (none_value_triggers_the_fetch
                    w instance_with_value (Lazy.PValue (VBool true)) 0 "attr1"
                    (Lazy.Valued (VStr "known"))
                    eq_refl eq_refl eq_refl eq_refl eq_refl eq_refl)
                 (VStr "known") eq_refl).
    discriminate.
  - apply (proj2 (proj1 (none_value_triggers_the_fetch
                           w instance_with_null (Lazy.PValue (VBool true)) 0 "attr1"
                           (Lazy.Valued VNone)
                           eq_refl eq_refl eq_refl eq_refl eq_refl eq_refl)
                        (or_intror eq_refl))
                 "private-key" eq_refl).
Defined.

(** * Further properties of the code *)

(** ** Normalized keys *)

Definition is_upper (c : ascii) : bool :=
  andb (Nat.leb 65 (nat_of_ascii c)) (Nat.leb (nat_of_ascii c) 90).

(** What a normalized key is made of: no upper-case letter, no hyphen, no
    space. *)
Definition key_char (c : ascii) : bool :=
  andb (negb (is_upper c)) (negb (orb (Ascii.eqb c "-") (Ascii.eqb c " "))).

Fixpoint all_chars (p : ascii -> bool) (s : string) : bool :=
  match s with
  | EmptyString => true
  | String c s' => andb (p c) (all_chars p s')
  end.

Lemma lower_ascii_not_upper (c : ascii) : is_upper (PyStr.lower_ascii c) = false.
Proof.
  destruct c as [b0 b1 b2 b3 b4 b5 b6 b7].
  destruct b0, b1, b2, b3, b4, b5, b6, b7; reflexivity.
Qed.

Lemma lower_no_upper (s : string) :
  all_chars (fun c => negb (is_upper c)) (PyStr.lower s) = true.
Proof.
  induction s as [|c s IH]; simpl; [reflexivity|].
  rewrite lower_ascii_not_upper, IH. reflexivity.
Qed.

Lemma removal_keeps_chars (p : ascii -> bool) (old s : string) (skip : nat) :
  all_chars p s = true -> all_chars p (PyStr.replace_from skip old "" s) = true.
Proof.
  revert skip. induction s as [|c s IH]; intros skip H; [reflexivity|].
  cbn [all_chars] in H. apply andb_true_iff in H. destruct H as [Hc Hs].
  cbn [PyStr.replace_from].
  destruct skip as [|k]; [|apply IH; assumption].
  destruct (String.prefix old (String c s)).
  - cbn [String.append]. apply IH; assumption.
  - cbn [all_chars]. rewrite Hc. apply IH; assumption.
Qed.

Lemma sub_dash_space_key_chars (s : string) :
  all_chars (fun c => negb (is_upper c)) s = true ->
  all_chars key_char (PyStr.sub_dash_space s) = true.
Proof.
  induction s as [|c s IH]; intros H; simpl in *; [reflexivity|].
  apply andb_true_iff in H. destruct H as [Hc Hs].
  rewrite (IH Hs), andb_true_r.
  destruct (orb (Ascii.eqb c "-") (Ascii.eqb c " ")) eqn:E; [reflexivity|].
  unfold key_char. rewrite Hc, E. reflexivity.
Qed.

Lemma lower_fixes_key (s : string) :
  all_chars key_char s = true -> PyStr.lower s = s.
Proof.
  induction s as [|c s IH]; intros H; simpl in *; [reflexivity|].
  apply andb_true_iff in H. destruct H as [Hc Hs].
  rewrite (IH Hs). unfold key_char in Hc. apply andb_true_iff in Hc.
  destruct Hc as [Hu _]. apply negb_true_iff in Hu.
  unfold PyStr.lower_ascii. unfold is_upper in Hu. rewrite Hu. reflexivity.
Qed.

Lemma key_has_no_prefix (s : string) :
  all_chars key_char s = true -> String.prefix "x-github-" s = false.
Proof.
  intros H. destruct s as [|c [|c2 s]]; try reflexivity.
  - cbn [String.prefix]. destruct (Ascii.ascii_dec "x" c); reflexivity.
  - cbn [String.prefix]. destruct (Ascii.ascii_dec "x" c); [|reflexivity].
    destruct (Ascii.ascii_dec "-" c2) as [<-|]; [|reflexivity].
    simpl in H. rewrite andb_false_r in H. discriminate.
Qed.

Lemma replace_fixes_key (s : string) :
  all_chars key_char s = true -> PyStr.replace_from 0 "x-github-" "" s = s.
Proof.
  induction s as [|c s IH]; intros H; [reflexivity|].
  cbn [PyStr.replace_from]. rewrite (key_has_no_prefix _ H).
  simpl in H. apply andb_true_iff in H. destruct H as [_ Hs].
  rewrite (IH Hs). reflexivity.
Qed.

Lemma sub_fixes_key (s : string) :
  all_chars key_char s = true -> PyStr.sub_dash_space s = s.
Proof.
  induction s as [|c s IH]; intros H; simpl in *; [reflexivity|].
  apply andb_true_iff in H. destruct H as [Hc Hs].
  rewrite (IH Hs). unfold key_char in Hc. apply andb_true_iff in Hc.
  destruct Hc as [_ Hd]. apply negb_true_iff in Hd. rewrite Hd. reflexivity.
Qed.

Lemma normalize_key_chars (s : string) :
  all_chars key_char (Event.normalize_key s) = true.
Proof.
  unfold Event.normalize_key, PyStr.replace.
  apply sub_dash_space_key_chars, removal_keeps_chars, lower_no_upper.
Qed.

Lemma normalize_key_fixes_key (s : string) :
  all_chars key_char s = true -> Event.normalize_key s = s.
Proof.
  intros H. unfold Event.normalize_key, PyStr.replace.
  rewrite (lower_fixes_key _ H), (replace_fixes_key _ H). apply sub_fixes_key, H.
Qed.

(** X1: a key that [normalize_dicts] produces has no upper-case letter, no
    hyphen and no space, and normalizing it again gives the same key. *)
Theorem normalize_key_idempotent (attr : string) :
  all_chars key_char (Event.normalize_key attr) = true /\
  Event.normalize_key (Event.normalize_key attr) = Event.normalize_key attr.
Proof.
  split; [apply normalize_key_chars|].
  apply normalize_key_fixes_key, normalize_key_chars.
Qed.

(** ** The dictionary [normalize_dicts] returns *)

Lemma keys_set_incl {A : Type} (d : PyDict.t A) (k k' : string) (v : A) :
  In k' (PyDict.keys (PyDict.set k v d)) -> k' = k \/ In k' (PyDict.keys d).
Proof.
  rewrite keys_set. destruct (PyDict.mem k d); [tauto|].
  intros H. apply in_app_or in H. destruct H as [H|[H|[]]]; [tauto | left; congruence].
Qed.

Lemma normalize_into_invariant (d u : PyDict.t value) :
  PyDict.wf u ->
  (forall k, In k (PyDict.keys u) -> all_chars key_char k = true) ->
  PyDict.wf (Event.normalize_into u d) /\
  (forall k, In k (PyDict.keys (Event.normalize_into u d)) -> all_chars key_char k = true).
Proof.
  unfold Event.normalize_into. revert u.
  induction d as [|[a v] d IH]; intros u W K; simpl; [split; assumption|].
  apply IH; [apply wf_set; assumption|].
  intros k Hk. apply keys_set_incl in Hk. destruct Hk as [->|Hk]; [|apply K; assumption].
  apply normalize_key_chars.
Qed.

Lemma normalize_dicts_invariant (dicts : list (PyDict.t value)) (u : PyDict.t value) :
  PyDict.wf u ->
  (forall k, In k (PyDict.keys u) -> all_chars key_char k = true) ->
  PyDict.wf (fold_left Event.normalize_into dicts u) /\
  (forall k, In k (PyDict.keys (fold_left Event.normalize_into dicts u)) ->
             all_chars key_char k = true).
Proof.
  revert u. induction dicts as [|d dicts IH]; intros u W K; simpl; [split; assumption|].
  destruct (normalize_into_invariant d u W K) as [W' K']. apply IH; assumption.
Qed.

Lemma normalize_dicts_normal (dicts : list (PyDict.t value)) :
  PyDict.wf (Event.normalize_dicts dicts) /\
  (forall k, In k (PyDict.keys (Event.normalize_dicts dicts)) ->
             Event.normalize_key k = k).
Proof.
  destruct (normalize_dicts_invariant dicts [] (NoDup_nil _)
              (fun k (F : In k []) => match F with end)) as [W K].
  split; [exact W|].
  intros k Hk. apply normalize_key_fixes_key, K, Hk.
Qed.

(** X2: whatever the dictionaries given, the mapping [normalize_dicts]
    returns has no key twice, every key of it is in normalized form, and a
    key is in it exactly when some entry of some dictionary normalizes to
    it. *)
Theorem normalize_dicts_keys (dicts : list (PyDict.t value)) :
  PyDict.wf (Event.normalize_dicts dicts) /\
  (forall k, In k (PyDict.keys (Event.normalize_dicts dicts)) ->
             Event.normalize_key k = k) /\
  (forall k, In k (PyDict.keys (Event.normalize_dicts dicts)) <->
             exists d attr v, In d dicts /\ In (attr, v) d /\
                              Event.normalize_key attr = k).
Proof.
  destruct (normalize_dicts_normal dicts) as [W K].
  split; [exact W|]. split; [exact K|].
  { intros k. unfold Event.normalize_dicts.
    rewrite normalize_dicts_concat.
    pose proof (fold_normalize_get (List.concat dicts) [] k) as Hget.
    split.
    + intros Hin.
      destruct (PyDict.get k (Event.normalize_into [] (List.concat dicts))) as [x|] eqn:E.
      * destruct (find _ _) as [[attr v]|] eqn:F; [|discriminate].
        apply find_some in F. destruct F as [Fin Feq].
        apply in_rev, in_concat in Fin. destruct Fin as (d & Hd & Hav).
        exists d, attr, v. repeat split; try assumption.
        simpl in Feq. apply String.eqb_eq in Feq. congruence.
      * apply get_None_not_key in E. contradiction.
    + intros (d & attr & v & Hd & Hav & Hk).
      destruct (PyDict.get k (Event.normalize_into [] (List.concat dicts))) as [x|] eqn:E.
      * destruct (in_dec string_dec k
                         (PyDict.keys (Event.normalize_into [] (List.concat dicts))))
          as [Hin|Hnot]; [exact Hin|].
        apply get_None_not_key in Hnot. congruence.
      * exfalso.
        destruct (find _ _) as [kv|] eqn:F; [discriminate|].
        assert (In (attr, v) (rev (List.concat dicts))) as Hin.
        { apply in_rev. rewrite rev_involutive. apply in_concat. exists d. tauto. }
        pose proof (find_none _ _ F _ Hin) as Hno. simpl in Hno.
        rewrite Hk, String.eqb_refl in Hno. discriminate. }
Qed.

Lemma set_fresh {A : Type} (d : PyDict.t A) (k : string) (v : A) :
  PyDict.get k d = None -> PyDict.set k v d = d ++ [(k, v)].
Proof.
  induction d as [|[k0 v0] d IH]; intros H; simpl in *; [reflexivity|].
  destruct (String.eqb k k0); [discriminate|]. rewrite IH by assumption. reflexivity.
Qed.

Lemma get_app_fresh {A : Type} (d : PyDict.t A) (k k' : string) (v : A) :
  PyDict.get k d = None -> String.eqb k k' = false ->
  PyDict.get k (d ++ [(k', v)]) = None.
Proof.
  induction d as [|[k0 v0] d IH]; intros H E; simpl in *.
  - rewrite E. reflexivity.
  - destruct (String.eqb k k0); [discriminate | apply IH; assumption].
Qed.

Lemma normalize_into_normal (d u : PyDict.t value) :
  NoDup (PyDict.keys d) ->
  (forall k, In k (PyDict.keys d) -> Event.normalize_key k = k) ->
  (forall k, In k (PyDict.keys d) -> PyDict.get k u = None) ->
  Event.normalize_into u d = u ++ d.
Proof.
  unfold Event.normalize_into. revert u.
  induction d as [|[a v] d IH]; intros u W K F; simpl.
  - rewrite app_nil_r. reflexivity.
  - simpl in W. inversion W as [|? ? Hnotin W']; subst.
    rewrite (K a (or_introl eq_refl)).
    rewrite set_fresh by (apply F; left; reflexivity).
    rewrite IH.
    + rewrite <- app_assoc. reflexivity.
    + assumption.
    + intros k Hk. apply K. right. assumption.
    + intros k Hk. apply get_app_fresh; [apply F; right; assumption|].
      apply String.eqb_neq. intros ->. contradiction.
Qed.

(** X3: normalizing the mapping that [normalize_dicts] returned gives that
    mapping back, entry for entry and in the same order. *)
Theorem normalize_dicts_idempotent (dicts : list (PyDict.t value)) :
  Event.normalize_dicts [Event.normalize_dicts dicts] = Event.normalize_dicts dicts.
Proof.
  destruct (normalize_dicts_normal dicts) as [W K].
  unfold Event.normalize_dicts at 1. simpl.
  rewrite normalize_into_normal; [reflexivity | exact W | exact K | reflexivity].
Qed.

(** ** [match] and [get_event] at the edges *)

(** X4: fields added to the request cannot undo a match: when every key of
    [data] keeps its value in [data'], a class that [match] accepts on
    [data] is accepted on [data']. *)
Theorem match_survives_more_fields
        (cls : Event.EventClass) (data data' : PyDict.t value) :
  (forall k x, PyDict.get k data = Some x -> PyDict.get k data' = Some x) ->
  Event.match_ cls data = Ok true ->
  Event.match_ cls data' = Ok true.
Proof.
  intros Hext. unfold Event.match_.
  destruct (Event.event_identifier cls) as [ident|]; [|discriminate].
  intros H. injection H as H. f_equal.
  rewrite forallb_forall in *. intros kv Hin. specialize (H kv Hin).
  unfold Event.field_matches, PyDict.mem in *.
  destruct (PyDict.get (fst kv) data) as [x|] eqn:E; [|discriminate].
  rewrite (Hext _ _ E). exact H.
Qed.

Lemma match_survives_more_fields_witness :
  Event.match_ (Event.Class "Push" (Some [("event", VStr "push")]) [])
               [("event", VStr "push"); ("ref", VStr "main")] = Ok true.
Proof.
  apply (match_survives_more_fields
           (Event.Class "Push" (Some [("event", VStr "push")]) [])
           [("event", VStr "push")]).
  - intros k x. simpl.
    destruct (String.eqb k "event"); [tauto | discriminate].
  - reflexivity.
Defined.

(** X5: a subclass whose [event_identifier] is [None], as it is on [Event]
    itself, makes [get_event] raise [AttributeError] as soon as the scan
    reaches it, that is when no subclass registered before it matches. *)
Theorem get_event_raises_on_undeclared_subclass
        (name : string) (ident : option (PyDict.t value))
        (before after : list Event.EventClass) (c : Event.EventClass)
        (headers body : PyDict.t value) :
  (forall b, In b before ->
             Event.match_ b (Event.normalize_dicts [headers; body]) = Ok false) ->
  Event.event_identifier c = None ->
  Event.get_event (Event.Class name ident (before ++ c :: after)) headers body
  = Err (AttributeError "'NoneType' object has no attribute 'items'").
Proof.
  intros Hbefore Hnone. cbn [Event.get_event].
  set (root := Event.Class name ident (before ++ c :: after)). clearbody root.
  induction before as [|b before IH]; cbn [app].
  - unfold Event.match_ at 1. rewrite Hnone. reflexivity.
  - rewrite (Hbefore b (or_introl eq_refl)). apply IH.
    intros x Hx. apply Hbefore. right. assumption.
Qed.

Lemma get_event_raises_on_undeclared_subclass_witness :
  Event.get_event
    (Event.Class "Event" None
       [Event.Class "Push" (Some [("event", VStr "push")]) [];
        Event.Class "Unfinished" None []])
    [("X-Github-Event", VStr "issues")] []
  = Err (AttributeError "'NoneType' object has no attribute 'items'").
Proof.
  apply (get_event_raises_on_undeclared_subclass
           "Event" None [Event.Class "Push" (Some [("event", VStr "push")]) []] []
           (Event.Class "Unfinished" None [])).
  - intros b [<-|[]]. reflexivity.
  - reflexivity.
Defined.

(** X6: the class [get_event] returns is the class it was called on or a
    class all of whose required fields match the normalized request: a class
    that does not match is never returned from above it. *)
Theorem get_event_result_matches
        (cls r : Event.EventClass) (headers body : PyDict.t value) :
  Event.get_event cls headers body = Ok r ->
  r = cls \/ required_fields_match (Event.normalize_dicts [headers; body]) r.
Proof.
  revert r. induction cls as [name ident subs IH] using EventClass_rect'.
  intros r. cbn [Event.get_event].
  set (data := Event.normalize_dicts [headers; body]).
  set (root := Event.Class name ident subs). clearbody root.
  induction subs as [|event rest IHrest].
  - intros H. injection H as <-. left. reflexivity.
  - inversion IH as [|? ? Hev Hrest]; subst.
    destruct (Event.match_ event data) as [[|]|e] eqn:Hm.
    + intros H. right.
      destruct (Hev r H) as [->|Hr]; [|exact Hr].
      destruct (Event.event_identifier event) as [eid|] eqn:Heid.
      * destruct (match_spec data event eid Heid) as [[_ Hreq]|[Hm' _]];
          [exact Hreq | congruence].
      * unfold Event.match_ in Hm. rewrite Heid in Hm. discriminate.
    + intros H. apply (IHrest Hrest H).
    + discriminate.
Qed.

Lemma get_event_result_matches_witness :
  required_fields_match
    (Event.normalize_dicts [[("X-Github-Event", VStr "pull_request")];
                            [("action", VStr "opened")]])
    (Event.Class "PullRequestOpened"
       (Some [("event", VStr "pull_request"); ("action", VStr "opened")]) []).
Proof.
  destruct (get_event_result_matches
              scenario_tree
              (Event.Class "PullRequestOpened"
                 (Some [("event", VStr "pull_request"); ("action", VStr "opened")]) [])
              [("X-Github-Event", VStr "pull_request")] [("action", VStr "opened")]
              eq_refl) as [H|H].
  - discriminate H.
  - exact H.
Defined.

(** ** [fix_attributes] *)

Lemma keys_set_present {A : Type} (d : PyDict.t A) (k : string) (v x : A) :
  PyDict.get k d = Some x -> PyDict.keys (PyDict.set k v d) = PyDict.keys d.
Proof.
  intros H. rewrite keys_set. unfold PyDict.mem. rewrite H. reflexivity.
Qed.

(** X7: [fix_attributes] changes nothing but the value of ["url"]: when it
    returns, the dictionary has the same keys in the same order and every
    other key has the value it had. *)
Theorem fix_attributes_touches_only_url (attributes fixed : PyDict.t value) :
  Event.fix_attributes attributes = Ok fixed ->
  PyDict.keys fixed = PyDict.keys attributes /\
  forall k, String.eqb k "url" = false ->
            PyDict.get k fixed = PyDict.get k attributes.
Proof.
  unfold Event.fix_attributes.
  destruct (PyDict.get "url" attributes) as [v|] eqn:E.
  - destruct v as [| | |u| |]; try discriminate.
    destruct (PyStr.startswith u "https://github").
    + intros H. injection H as <-. split.
      * apply (keys_set_present _ _ _ _ E).
      * intros k Hk. apply get_set_other. exact Hk.
    + intros H. injection H as <-. split; reflexivity.
  - cbn. intros H. injection H as <-. split; reflexivity.
Qed.

Lemma fix_attributes_touches_only_url_witness :
  PyDict.get "name" [("name", VStr "repo");
                     ("url", VStr "https://api.github.com/repos/org/repo")]
  = Some (VStr "repo").
Proof.
  rewrite (proj2 (fix_attributes_touches_only_url
                       [("name", VStr "repo"); ("url", VStr "https://github.com/org/repo")]
                       [("name", VStr "repo");
                        ("url", VStr "https://api.github.com/repos/org/repo")]
                       eq_refl) "name" eq_refl).
  reflexivity.
Defined.

(** X8: [fix_attributes] on a payload without ["url"], or whose url does not
    start with [https://github], returns it unchanged; on a payload whose
    ["url"] is not a string ([null], a number) it raises [AttributeError],
    and so does the construction of an event around it. *)
Theorem fix_attributes_edges (attributes : PyDict.t value) :
  (PyDict.get "url" attributes = None ->
   Event.fix_attributes attributes = Ok attributes) /\
  (forall u, PyDict.get "url" attributes = Some (VStr u) ->
             PyStr.startswith u "https://github" = false ->
             Event.fix_attributes attributes = Ok attributes) /\
  (forall v, PyDict.get "url" attributes = Some v ->
             (forall u, v <> VStr u) ->
             Event.fix_attributes attributes
             = Err (AttributeError "object has no attribute 'startswith'") /\
             forall rq clazz,
               Event._parse_object rq clazz (VDict attributes)
               = Err (AttributeError "object has no attribute 'startswith'")).
Proof.
  unfold Event._parse_object, Event.fix_attributes. split; [|split].
  - intros ->. reflexivity.
  - intros u -> ->. reflexivity.
  - intros v -> Hv.
    destruct v as [| | |u| |]; try (split; reflexivity).
    exfalso. apply (Hv u). reflexivity.
Qed.

Lemma fix_attributes_edges_witness :
  Event.fix_attributes [("login", VStr "alice")] = Ok [("login", VStr "alice")] /\
  Event.fix_attributes [("url", VNone)]
  = Err (AttributeError "object has no attribute 'startswith'").
Proof.
  split.
  - apply (proj1 (fix_attributes_edges [("login", VStr "alice")])). reflexivity.
  - apply (proj2 (proj2 (fix_attributes_edges [("url", VNone)])) VNone eq_refl).
    intros u; discriminate.
Defined.

(** ** [Event.__init__] when it raises *)

(** X9: a construction that raises creates no event: the instances are
    those there were. *)
Theorem failed_init_creates_no_event
        (gh_ rq : Event.handle) (headers : PyDict.t value)
        (sender_ repository_ : value) (kwargs : PyDict.t value)
        (st st' : Event.State) (e : exn) :
  Event.__init__ gh_ rq headers sender_ repository_ kwargs st = (st', Err e) ->
  Event.heap st' = Event.heap st.
Proof.
  unfold Event.__init__, bind, lift, Event.on_class, modify, ret, Event.alloc.
  destruct (Builtins.getitem headers "X-Github-Delivery") as [d|];
    [|intros H; injection H as <- _; reflexivity].
  destruct (Builtins.getitem headers "X-Github-Event") as [ev|];
    [|intros H; injection H as <- _; reflexivity].
  destruct (Builtins.getitem headers "X-Github-Hook-Id") as [h|];
    [|intros H; injection H as <- _; reflexivity].
  destruct (Builtins.int h) as [hid|];
    [|intros H; injection H as <- _; reflexivity].
  destruct (Builtins.getitem headers "X-Github-Hook-Installation-Target-Id") as [t|];
    [|intros H; injection H as <- _; reflexivity].
  destruct (Builtins.int t) as [tid|];
    [|intros H; injection H as <- _; reflexivity].
  destruct (Builtins.getitem headers "X-Github-Hook-Installation-Target-Type") as [tty|];
    [|intros H; injection H as <- _; reflexivity].
  destruct (Event.installation_id_of kwargs) as [i|];
    [|intros H; injection H as <- _; reflexivity].
  destruct (PyVal.truthy i).
  - destruct (Builtins.int i) as [z|];
      [|intros H; injection H as <- _; reflexivity].
    destruct (Event._parse_object rq "Repository" repository_) as [repo|];
      [|intros H; injection H as <- _; reflexivity].
    destruct (Event._parse_object rq "NamedUser" sender_) as [sndr|];
      [|intros H; injection H as <- _; reflexivity].
    discriminate.
  - destruct (Event._parse_object rq "Repository" repository_) as [repo|];
      [|intros H; injection H as <- _; reflexivity].
    destruct (Event._parse_object rq "NamedUser" sender_) as [sndr|];
      [|intros H; injection H as <- _; reflexivity].
    discriminate.
Qed.

Definition failing_headers : PyDict.t value :=
  [("X-Github-Delivery", VStr "d3"); ("X-Github-Event", VStr "push");
   ("X-Github-Hook-Id", VStr "not-a-number")].

Lemma failed_init_creates_no_event_witness :
  Event.heap (fst (Event.__init__ "gh" "requester" failing_headers VNone VNone []
                                  (fst after_first)))
  = Event.heap (fst after_first).
Proof.
  apply (failed_init_creates_no_event
           "gh" "requester" failing_headers VNone VNone [] (fst after_first) _
           (ValueError "invalid literal for int() with base 10")).
  reflexivity.
Defined.

(** X10: a construction that raises has already assigned the class
    attributes of the statements before the one that raised. With a hook id
    that is not a number, [Event.delivery] and [Event.github_event] are
    those of the failed request and the other attributes are left; with no
    [X-Github-Delivery] header nothing is assigned. *)
Theorem failed_init_keeps_earlier_assignments
        (gh_ rq : Event.handle) (headers : PyDict.t value)
        (sender_ repository_ : value) (kwargs : PyDict.t value) (st : Event.State) :
  (PyDict.get "X-Github-Delivery" headers = None ->
   Event.__init__ gh_ rq headers sender_ repository_ kwargs st
   = (st, Err (KeyError "X-Github-Delivery"))) /\
  (forall d ev h e,
      PyDict.get "X-Github-Delivery" headers = Some d ->
      PyDict.get "X-Github-Event" headers = Some ev ->
      PyDict.get "X-Github-Hook-Id" headers = Some h ->
      Builtins.int h = Err e ->
      Event.__init__ gh_ rq headers sender_ repository_ kwargs st
      = ({| Event.cls := Event.set_github_event ev (Event.set_delivery d (Event.cls st));
            Event.heap := Event.heap st |}, Err e)).
Proof.
  unfold Event.__init__, bind, lift, Event.on_class, modify, Builtins.getitem.
  split.
  - intros ->. reflexivity.
  - intros d ev h e -> -> -> ->. reflexivity.
Qed.

Lemma failed_init_keeps_earlier_assignments_witness :
  Event.getattr (fst (Event.__init__ "gh" "requester" failing_headers VNone VNone []
                                     (fst after_first)))
                0 "delivery"
  = Ok (Event.AValue (VStr "d3")).
Proof.
  rewrite (proj2 (failed_init_keeps_earlier_assignments
                    "gh" "requester" failing_headers VNone VNone [] (fst after_first))
                 (VStr "d3") (VStr "push") (VStr "not-a-number")
                 (ValueError "invalid literal for int() with base 10")
                 eq_refl eq_refl eq_refl eq_refl).
  reflexivity.
Defined.

(** X11: the installation id that a constructed event leaves on the class
    is [None] when the body has no ["installation"], and the integer value
    of [installation.id] when that is given and true (a number other than
    0, a string of digits); with an ["installation"] that is not a mapping
    (such as [null]) no event is constructed. *)
Theorem init_installation_id
        (gh_ rq : Event.handle) (headers : PyDict.t value)
        (sender_ repository_ : value) (kwargs : PyDict.t value)
        (st st' : Event.State) (e : nat) :
  Event.__init__ gh_ rq headers sender_ repository_ kwargs st = (st', Ok e) ->
  (PyDict.get "installation" kwargs = None ->
   Event.installation_id (Event.cls st') = VNone) /\
  (forall inst i,
      PyDict.get "installation" kwargs = Some (VDict inst) ->
      PyDict.get "id" inst = Some i ->
      PyVal.truthy i = true ->
      exists z, Builtins.int i = Ok z /\
                Event.installation_id (Event.cls st') = VInt z) /\
  exists inst, PyDict.get "installation" kwargs = None \/
               PyDict.get "installation" kwargs = Some (VDict inst).
Proof.
  intros H. apply init_returns_installation in H.
  destruct H as (i & Hi & Hcase). unfold Event.installation_id_of in Hi.
  split; [|split].
  - intros Hnone. rewrite Hnone in Hi. cbn in Hi. injection Hi as <-.
    destruct Hcase as [[Ht _]|[_ Hid]]; [discriminate | exact Hid].
  - intros inst i' Hinst Hid Ht. rewrite Hinst, Hid in Hi. injection Hi as <-.
    destruct Hcase as [[_ Hz]|[Hf _]]; [exact Hz | congruence].
  - destruct (PyDict.get "installation" kwargs) as [v|]; [|exists []; left; reflexivity].
    destruct v as [| | | | |inst]; try discriminate.
    exists inst. right. reflexivity.
Qed.

Lemma init_installation_id_witness :
  Event.installation_id (Event.cls (fst after_first)) = VInt 55.
Proof.
  destruct (proj1 (proj2 (init_installation_id
                            "gh" "requester" (webhook_headers "d1" "pull_request")
                            (VDict [("login", VStr "alice")]) VNone
                            [("action", VStr "opened");
                             ("installation", VDict [("id", VInt 55)])]
                            Event.initial (fst after_first) 0 eq_refl))
                  [("id", VInt 55)] (VInt 55) eq_refl eq_refl eq_refl)
    as (z & Hz & Hid).
  rewrite Hid. injection Hz as <-. reflexivity.
Defined.

(** ** [update_check_run] *)

Lemma set_is_not_empty {A : Type} (d : PyDict.t A) (k : string) (v : A) :
  PyDict.set k v d <> [].
Proof.
  destruct d as [|[k0 v0] d]; simpl; [discriminate|].
  destruct (String.eqb k k0); discriminate.
Qed.

Lemma truthy_set (d : PyDict.t value) (k : string) (v : value) :
  PyVal.truthy (VDict (PyDict.set k v d)) = true.
Proof.
  pose proof (set_is_not_empty d k v) as H. simpl.
  destruct (PyDict.set k v d); [congruence | reflexivity].
Qed.

(** X12: with a conclusion, [update_check_run] calls [edit] with that
    conclusion and the status ["completed"], whatever status it was given. *)
Theorem conclusion_sets_status_completed
        (current : Event.CheckRunOutput) (status conclusion : value)
        (output : PyDict.t value) :
  PyVal.is_none conclusion = false ->
  exists args,
    Event.update_check_run (Some current) status conclusion output = Ok (Some args) /\
    PyDict.get "status" args = Some (VStr "completed") /\
    PyDict.get "conclusion" args = Some conclusion.
Proof.
  intros Hc. unfold Event.update_check_run. rewrite Hc. cbn [negb].
  destruct (PyVal.truthy (VDict output)).
  - eexists. rewrite truthy_set. split; [reflexivity|]. split.
    + rewrite get_set_other by reflexivity. apply get_set_same.
    + rewrite !get_set_other by reflexivity. apply get_set_same.
  - eexists. rewrite truthy_set. split; [reflexivity|]. split.
    + apply get_set_same.
    + rewrite get_set_other by reflexivity. apply get_set_same.
Qed.

Lemma conclusion_sets_status_completed_witness :
  exists args,
    Event.update_check_run
      (Some {| Event.output_title := VStr "t"; Event.output_summary := VStr "s" |})
      (VStr "in_progress") (VStr "success") [] = Ok (Some args) /\
    PyDict.get "status" args = Some (VStr "completed") /\
    PyDict.get "conclusion" args = Some (VStr "success").
Proof.
  apply conclusion_sets_status_completed. reflexivity.
Defined.

(** X13: [update_check_run] with no status, no conclusion and no output
    does not call [edit], with or without a check run; with anything to send
    and no check run it raises [AttributeError]. *)
Theorem update_check_run_without_check_run
        (status conclusion : value) (output : PyDict.t value) :
  let nothing := andb (PyVal.is_none status)
                      (andb (PyVal.is_none conclusion)
                            (negb (PyVal.truthy (VDict output)))) in
  (nothing = true ->
   forall check_run,
     Event.update_check_run check_run status conclusion output = Ok None) /\
  (nothing = false ->
   exists msg,
     Event.update_check_run None status conclusion output = Err (AttributeError msg)).
Proof.
  unfold Event.update_check_run.
  destruct (PyVal.is_none status), (PyVal.is_none conclusion),
    (PyVal.truthy (VDict output)); cbn [andb negb]; split; intros H;
    try discriminate H; try (intros; reflexivity);
    try (eexists; reflexivity);
    rewrite ?truthy_set; eexists; reflexivity.
Qed.

Lemma update_check_run_without_check_run_witness :
  Event.update_check_run None VNone VNone [] = Ok None /\
  exists msg,
    Event.update_check_run None (VStr "queued") VNone [] = Err (AttributeError msg).
Proof.
  split.
  - apply (proj1 (update_check_run_without_check_run VNone VNone [])). reflexivity.
  - apply (proj2 (update_check_run_without_check_run (VStr "queued") VNone [])).
    reflexivity.
Defined.

(** X14: an output passed to [update_check_run] is sent with a title and a
    summary: those given when they are given, those of the check run
    otherwise; its other entries are sent as they are. *)
Theorem update_check_run_completes_output
        (current : Event.CheckRunOutput) (status conclusion : value)
        (output : PyDict.t value) :
  output <> [] ->
  exists args sent,
    Event.update_check_run (Some current) status conclusion output = Ok (Some args) /\
    PyDict.get "output" args = Some (VDict sent) /\
    PyDict.get "title" sent
    = Some (match PyDict.get "title" output with
            | Some t => t
            | None => Event.output_title current
            end) /\
    PyDict.get "summary" sent
    = Some (match PyDict.get "summary" output with
            | Some s => s
            | None => Event.output_summary current
            end) /\
    forall k, String.eqb k "title" = false -> String.eqb k "summary" = false ->
              PyDict.get k sent = PyDict.get k output.
Proof.
  intros Hne. unfold Event.update_check_run.
  assert (PyVal.truthy (VDict output) = true) as ->.
  { destruct output; [congruence | reflexivity]. }
  eexists. eexists. rewrite truthy_set.
  split; [reflexivity|]. split; [apply get_set_same|].
  split; [|split].
  - rewrite get_set_other by reflexivity. apply get_set_same.
  - rewrite get_set_same. f_equal.
    rewrite get_set_other by reflexivity. reflexivity.
  - intros k Ht Hs. rewrite !get_set_other by assumption. reflexivity.
Qed.

Lemma update_check_run_completes_output_witness :
  exists args sent,
    Event.update_check_run
      (Some {| Event.output_title := VStr "t"; Event.output_summary := VStr "s" |})
      VNone VNone [("text", VStr "details")] = Ok (Some args) /\
    PyDict.get "output" args = Some (VDict sent) /\
    PyDict.get "title" sent = Some (VStr "t").
Proof.
  destruct (update_check_run_completes_output
              {| Event.output_title := VStr "t"; Event.output_summary := VStr "s" |}
              VNone VNone [("text", VStr "details")])
    as (args & sent & H1 & H2 & H3 & _); [discriminate|].
  exists args, sent. repeat split; assumption.
Defined.

(** ** Lazy objects: reads that do not fetch *)

(** X15: the attributes of the lazy machinery, those whose name starts with
    [_lazy], are read from the instance dictionary (or the class) without
    exchange or request, whatever the state of the object. *)
Theorem lazy_names_never_fetch
        (w : Lazy.World) (o : Lazy.Obj) (n : nat) (item : string) :
  wf_class (Lazy.__class__ o) = true ->
  PyStr.startswith item "_lazy" = true ->
  Lazy.getattribute (S n) item (w, o) = ((w, o), plain_dict o item).
Proof.
  intros W Hpre. destruct item as [|c s]; [discriminate|].
  assert (c = "_"%char) as ->.
  { unfold PyStr.startswith in Hpre. cbn [String.prefix] in Hpre.
    destruct (Ascii.ascii_dec "_" c); [congruence | discriminate]. }
  apply read_lazy_slot; assumption.
Qed.

Lemma lazy_names_never_fetch_witness :
  let w := world_with token_number (fun _ => Ok ([], [])) in
  Lazy.getattribute 1 "_lazy_requester" (w, instance) = ((w, instance), Ok Lazy.None_).
Proof.
  intros w.
  apply (lazy_names_never_fetch w instance 0 "_lazy_requester"); reflexivity.
Defined.

(** X16: once a requester is stored in [_lazy_requester], no read of any
    attribute makes an exchange or a request or changes the object: a field
    gives what the [value] of its slot gives, [None] included. *)
Theorem stored_requester_stops_fetching
        (w : Lazy.World) (o : Lazy.Obj) (li : Lazy.pyobj) (r : Lazy.Requester)
        (n : nat) (item : string) :
  wf_class (Lazy.__class__ o) = true ->
  PyDict.get "_lazy_initialized" (Lazy.__dict__ o) = Some li ->
  PyDict.get "_lazy_requester" (Lazy.__dict__ o) = Some (Lazy.PRequester r) ->
  Lazy.getattribute (S (S (S n))) item (w, o) = ((w, o), plain_read o item).
Proof.
  intros W Hli Hlr.
  apply (read_cached w o li (Lazy.PRequester r) n item W Hli Hlr). reflexivity.
Qed.

Lemma stored_requester_stops_fetching_witness :
  let w := world_with token_number (fun _ => Ok ([], [])) in
  let o := with_attr instance "_lazy_requester"
                     (Lazy.PRequester {| Lazy.auth_token := "token-0" |}) in
  Lazy.getattribute 3 "attr1" (w, o) = ((w, o), Ok (Lazy.PValue VNone)).
Proof.
  intros w o.
  apply (stored_requester_stops_fetching
           w o (Lazy.PValue (VBool true)) {| Lazy.auth_token := "token-0" |} 0 "attr1");
    reflexivity.
Defined.



(** What [get_lazy_instance] returns when it returns: an instance of the
    class as the call leaves it, which has the fields it had. *)
Lemma get_lazy_instance_returns (mro : string -> list string)
      (clazz clazz' : Lazy.Clazz) (attributes : PyDict.t value) (o : Lazy.Obj) :
  Lazy.get_lazy_instance mro clazz attributes = (clazz', Ok o) ->
  Lazy.fields clazz' = Lazy.fields clazz /\
  o = Lazy.__init__ clazz' Lazy.None_ [] attributes.
Proof.
  unfold Lazy.get_lazy_instance, Lazy.set_bases.
  destruct (negb (Lazy.has_base Lazy.LazyCompletableGithubObject clazz)).
  - destruct (existsb _ _); [discriminate|].
    destruct (match Lazy.__bases__ clazz with
              | [] => false
              | b :: _ => String.eqb b "object"
              end); [discriminate|].
    destruct (Lazy.linearize _ _ _); [|discriminate].
    intros H. injection H as <- <-. split; reflexivity.
  - intros H. injection H as <- <-. split; reflexivity.
Qed.

(** X18: a field that the payload gives as a string is read from the
    instance [get_lazy_instance] returns without any exchange or request:
    the string is returned and the world and the object are as before. A
    field that the payload gives with a value of another type (a number, a
    list, ...; not [None]) raises [BadAttributeException] when it is read,
    without exchange or request either. *)
Theorem known_field_is_read_locally
        (mro : string -> list string) (w : Lazy.World)
        (clazz clazz' : Lazy.Clazz) (attributes : PyDict.t value) (o : Lazy.Obj)
        (f : string) (v : value) (n : nat) :
  wf_class clazz = true ->
  Lazy.in_list f (Lazy.fields clazz) = true ->
  PyDict.get f attributes = Some v ->
  v <> VNone ->
  Lazy.get_lazy_instance mro clazz attributes = (clazz', Ok o) ->
  Lazy.getattribute (S (S (S n))) f (w, o)
  = ((w, o), match v with
             | VStr _ => Ok (Lazy.PValue v)
             | _ => Err (BadAttributeException v)
             end).
Proof.
  intros W Hf Hv Hnone Hget.
  destruct (get_lazy_instance_returns mro clazz clazz' attributes o Hget) as [Hfields ->].
  assert (wf_class clazz' = true) as W'.
  { unfold wf_class. rewrite Hfields. exact W. }
  assert (Lazy.in_list f (Lazy.fields clazz') = true) as Hf'.
  { rewrite Hfields. exact Hf. }
  destruct (init_slots clazz' Lazy.None_ [] attributes W') as (Hli & Hlr & Hslots).
  pose proof (Hslots f Hf') as Hslot. unfold fetched_attribute in Hslot.
  rewrite Hv in Hslot.
  rewrite (read_field_nofetch w (Lazy.__init__ clazz' Lazy.None_ [] attributes)
                              W' _ _ Hli Hlr n f (Lazy._makeStringAttribute v) Hf' Hslot).
  - destruct v; try reflexivity. congruence.
  - right. destruct v; cbn [Lazy._makeStringAttribute Lazy.attribute_value]; congruence.
Qed.

Lemma known_field_is_read_locally_witness :
  let w := world_with token_number (fun _ => Err (GithubException 500)) in
  Lazy.getattribute 3 "attr1" (w, instance_with_value)
  = ((w, instance_with_value), Ok (Lazy.PValue (VStr "known"))) /\
  Lazy.getattribute 3 "attr1" (w, lazy_instance LazyClass [("attr1", VInt 5)])
  = ((w, lazy_instance LazyClass [("attr1", VInt 5)]),
     Err (BadAttributeException (VInt 5))).
Proof.
  intros w. split.
  - apply (known_field_is_read_locally
             class_table w LazyClass
             (fst (Lazy.get_lazy_instance class_table LazyClass [("attr1", VStr "known")]))
             [("attr1", VStr "known")] instance_with_value
             "attr1" (VStr "known") 0);
      try reflexivity.
    discriminate.
  - apply (known_field_is_read_locally
             class_table w LazyClass
             (fst (Lazy.get_lazy_instance class_table LazyClass [("attr1", VInt 5)]))
             [("attr1", VInt 5)] (lazy_instance LazyClass [("attr1", VInt 5)])
             "attr1" (VInt 5) 0);
      try reflexivity.
    discriminate.
Defined.

(** ** Lazy objects: the key of the exchange *)

(** X19: the private key of the exchange is the environment variable
    [PRIVATE_KEY] when it is set and not empty, whether or not the file
    [private-key.pem] exists, and the content of that file otherwise; with
    neither, reading [lazy_requester] raises [FileNotFoundError] before any
    exchange, and the object is left as it was. *)
Theorem private_key_from_environment_then_file
        (w : Lazy.World) (o : Lazy.Obj) (li : Lazy.pyobj) (n : nat) :
  wf_class (Lazy.__class__ o) = true ->
  PyDict.get "_lazy_initialized" (Lazy.__dict__ o) = Some li ->
  PyDict.get "_lazy_requester" (Lazy.__dict__ o) = Some Lazy.None_ ->
  let read := Lazy.getattribute (S (S n)) "lazy_requester" (w, o) in
  (forall k, Lazy.PRIVATE_KEY w = Some k -> k <> "" ->
             Lazy.exchanges (world_of read)
             = Lazy.exchanges w ++ [(Lazy.app_id w, k, Lazy.installation_id w)]) /\
  (forall k, Lazy.PRIVATE_KEY w = None \/ Lazy.PRIVATE_KEY w = Some "" ->
             Lazy.private_key_pem w = Some k ->
             Lazy.exchanges (world_of read)
             = Lazy.exchanges w ++ [(Lazy.app_id w, k, Lazy.installation_id w)]) /\
  (Lazy.PRIVATE_KEY w = None \/ Lazy.PRIVATE_KEY w = Some "" ->
   Lazy.private_key_pem w = None ->
   read = ((w, o), Err (FileNotFoundError "private-key.pem"))).
Proof.
  intros W Hli Hlr read. subst read.
  rewrite (read_lazy_requester w o li Lazy.None_ n W Hli Hlr).
  cbn [Lazy.is_None Lazy.None_]. unfold exchange_outcome, private_key_of, world_of.
  assert (forall k, (Lazy.exchanges
                       (fst (fst
                          (let w' := Lazy.log_exchange
                                       (Lazy.app_id w, k, Lazy.installation_id w) w in
                           match Lazy.get_access_token
                                   w (List.length (Lazy.exchanges w))
                                   (Lazy.app_id w) k (Lazy.installation_id w) with
                           | Ok token =>
                               let r := Lazy.PRequester {| Lazy.auth_token := token |} in
                               ((w', with_attr o "_lazy_requester" r), Ok r)
                           | Err e => ((w', o), Err e)
                           end))))
                    = Lazy.exchanges w ++ [(Lazy.app_id w, k, Lazy.installation_id w)])
    as Hlog.
  { intros k. cbv zeta.
    destruct (Lazy.get_access_token w (List.length (Lazy.exchanges w))
                (Lazy.app_id w) k (Lazy.installation_id w)); reflexivity. }
  split; [|split].
  - intros k -> Hk.
    assert (String.eqb k "" = false) as -> by (apply String.eqb_neq; exact Hk).
    cbn [negb]. apply Hlog.
  - intros k [->| ->] ->; cbn [String.eqb negb]; apply Hlog.
  - intros [->| ->] ->; reflexivity.
Qed.

Lemma private_key_from_environment_then_file_witness :
  let w := world_with token_number (fun _ => Ok ([], [])) in
  Lazy.exchanges (world_of (Lazy.getattribute 2 "lazy_requester" (w, instance)))
  = [(VInt 123, "private-key", VInt 55)].
Proof.
  intros w.
  apply (proj1 (private_key_from_environment_then_file
                  w instance (Lazy.PValue (VBool true)) 0 eq_refl eq_refl eq_refl)
               "private-key" eq_refl).
  discriminate.
Defined.

(** ** Lazy objects: what a fetch leaves *)

Lemma reserved_is_no_slot (c : Lazy.Clazz) (s : string) :
  wf_class c = true -> Lazy.in_list s reserved = true ->
  existsb (fun f => String.eqb (String "_" s) (Lazy.slot f)) (Lazy.fields c) = false.
Proof.
  intros W R.
  rewrite (existsb_pointwise (fun f => String.eqb (String "_" s) (Lazy.slot f))
                             (String.eqb s) (Lazy.fields c) (fun f => eq_refl)).
  apply (reserved_not_field c s W R).
Qed.

(** The bookkeeping of a new instance. *)
Lemma init_bookkeeping (c : Lazy.Clazz) (rq : Lazy.pyobj)
      (headers attributes : PyDict.t value) :
  wf_class c = true ->
  let d := Lazy.__dict__ (Lazy.__init__ c rq headers attributes) in
  PyDict.get "_requester" d = Some rq /\
  PyDict.get "_headers" d = Some (Lazy.PValue (VDict headers)) /\
  PyDict.get "_rawData" d = Some (Lazy.PValue (VDict attributes)).
Proof.
  intros W d. subst d. unfold Lazy.__init__; cbn [Lazy.__dict__].
  split; [|split].
  - rewrite !get_set_other by reflexivity.
    rewrite get_useAttributes_other by (apply reserved_is_no_slot; [exact W | reflexivity]).
    rewrite get_initAttributes.
    rewrite reserved_is_no_slot by (try exact W; reflexivity).
    apply get_set_same.
  - rewrite !get_set_other by reflexivity. apply get_set_same.
  - rewrite !get_set_other by reflexivity. apply get_set_same.
Qed.

Lemma refreshed_bookkeeping (o : Lazy.Obj) (rq : Lazy.pyobj)
      (headers data : PyDict.t value) :
  wf_class (Lazy.__class__ o) = true ->
  let d := Lazy.__dict__ (refreshed o rq headers data) in
  PyDict.get "_requester" d = Some rq /\
  PyDict.get "_headers" d = Some (Lazy.PValue (VDict headers)) /\
  PyDict.get "_rawData" d = Some (Lazy.PValue (VDict data)).
Proof.
  intros W d. subst d. unfold refreshed; cbn [Lazy.__dict__].
  destruct (init_bookkeeping (Lazy.__class__ o) rq headers data W) as (H1 & H2 & H3).
  repeat split; rewrite get_update by apply wf_init;
    [rewrite H1 | rewrite H2 | rewrite H3]; reflexivity.
Qed.

(** X20: a fetch that succeeds replaces what the object knew by the answer:
    the request was made once with the requester of the exchange,
    [_requester] is that requester, [_rawData] the answer, and every field
    is what the answer makes it: valued when the answer gives a string or
    [null] for it, unset again when the answer omits it, even if the object
    had a value for it, and a bad attribute when the answer gives a value of
    another type. The read that fetched returns the string of the answer,
    [None] when the answer has none, and raises [BadAttributeException] on
    a value of another type. *)
Theorem fetch_replaces_the_object
        (w : Lazy.World) (o : Lazy.Obj) (li : Lazy.pyobj) (n : nat)
        (f : string) (a : Lazy.Attribute)
        (k token : string) (url : Lazy.pyobj) (hd : PyDict.t value * PyDict.t value) :
  wf_class (Lazy.__class__ o) = true ->
  PyDict.get "_lazy_initialized" (Lazy.__dict__ o) = Some li ->
  Lazy.truthy li = true ->
  PyDict.get "_lazy_requester" (Lazy.__dict__ o) = Some Lazy.None_ ->
  Lazy.in_list f (Lazy.fields (Lazy.__class__ o)) = true ->
  PyDict.get (Lazy.slot f) (Lazy.__dict__ o) = Some (Lazy.PAttribute a) ->
  Lazy.attribute_value a = Ok VNone ->
  private_key_of w = Ok k ->
  Lazy.get_access_token w (List.length (Lazy.exchanges w))
                        (Lazy.app_id w) k (Lazy.installation_id w) = Ok token ->
  let r := {| Lazy.auth_token := token |} in
  plain_read (with_attr o "_lazy_requester" (Lazy.PRequester r)) "url" = Ok url ->
  Lazy.requestJsonAndCheck w (List.length (Lazy.requests w)) r url = Ok hd ->
  let read := Lazy.getattribute (S (S (S (S n)))) f (w, o) in
  snd read = match PyDict.get f (snd hd) with
             | None | Some VNone => Ok (Lazy.PValue VNone)
             | Some (VStr s) => Ok (Lazy.PValue (VStr s))
             | Some v => Err (BadAttributeException v)
             end /\
  Lazy.requests (world_of read) = Lazy.requests w ++ [(r, url)] /\
  PyDict.get "_requester" (Lazy.__dict__ (object_of read)) = Some (Lazy.PRequester r) /\
  PyDict.get "_rawData" (Lazy.__dict__ (object_of read))
  = Some (Lazy.PValue (VDict (snd hd))) /\
  forall g, Lazy.in_list g (Lazy.fields (Lazy.__class__ o)) = true ->
            PyDict.get (Lazy.slot g) (Lazy.__dict__ (object_of read))
            = Some (Lazy.PAttribute
                      match PyDict.get g (snd hd) with
                      | None => Lazy.NotSet
                      | Some VNone => Lazy.Valued VNone
                      | Some (VStr s) => Lazy.Valued (VStr s)
                      | Some v => Lazy.Bad v
                      end).
Proof.
  intros W Hli Htrue Hlr Hf Hslot Hval Hk Htok r Hurl Hreq read. subst read.
  rewrite (read_field_fetch w o li Lazy.None_ n f a W Hli Htrue Hlr eq_refl Hf Hslot Hval).
  unfold fetch_outcome, exchange_outcome. rewrite Hk, Htok. cbv zeta. fold r.
  rewrite Hurl.
  change (Lazy.requestJsonAndCheck
            (Lazy.log_exchange (Lazy.app_id w, k, Lazy.installation_id w) w))
    with (Lazy.requestJsonAndCheck w).
  change (Lazy.requests (Lazy.log_exchange (Lazy.app_id w, k, Lazy.installation_id w) w))
    with (Lazy.requests w).
  rewrite Hreq. unfold world_of, object_of. cbn [fst snd].
  set (o1 := with_attr o "_lazy_requester" (Lazy.PRequester r)).
  assert (wf_class (Lazy.__class__ o1) = true) as W1 by exact W.
  destruct (refreshed_bookkeeping o1 (Lazy.PRequester r) (fst hd) (snd hd) W1)
    as (Hrq & _ & Hraw).
  destruct (refreshed_slots o1 (Lazy.PRequester r) (fst hd) (snd hd) W1)
    as (_ & _ & Hslots).
  split.
  { unfold read_attribute, fetched_attribute.
    destruct (PyDict.get f (snd hd)) as [[| | | | |]|]; reflexivity. }
  split; [reflexivity|].
  split; [exact Hrq|]. split; [exact Hraw|].
  intros g Hg. rewrite (Hslots g Hg). unfold fetched_attribute.
  destruct (PyDict.get g (snd hd)) as [[| | | | |]|]; reflexivity.
Qed.

(** A class with two fields, and an instance that knows both. *)
Definition TwoFields : Lazy.Clazz :=
  {| Lazy.clazz_name := "TwoFields";
     Lazy.__bases__ := ["CompletableGithubObject"];
     Lazy.fields := ["name"; "homepage"];
     Lazy.methods := ["url"] |}.

Definition two_fields : Lazy.Obj :=
  lazy_instance TwoFields [("name", VStr "repo"); ("homepage", VNone)].

Lemma fetch_replaces_the_object_witness :
  let w := world_with token_number (fun _ => Ok ([], [("homepage", VStr "https://h")])) in
  let read := Lazy.getattribute 4 "homepage" (w, two_fields) in
  PyDict.get "_name" (Lazy.__dict__ two_fields)
  = Some (Lazy.PAttribute (Lazy.Valued (VStr "repo"))) /\
  snd read = Ok (Lazy.PValue (VStr "https://h")) /\
  PyDict.get "_name" (Lazy.__dict__ (object_of read)) = Some (Lazy.PAttribute Lazy.NotSet).
Proof.
  intros w read.
  destruct (fetch_replaces_the_object
              w two_fields (Lazy.PValue (VBool true)) 0 "homepage" (Lazy.Valued VNone)
              "private-key" "token-0" (Lazy.PMethod "url")
              ([], [("homepage", VStr "https://h")])
              eq_refl eq_refl eq_refl eq_refl eq_refl eq_refl eq_refl eq_refl eq_refl
              eq_refl eq_refl) as (Hval & _ & _ & _ & Hslots).
  split; [reflexivity|]. split; [exact Hval|].
  exact (Hslots "name" eq_refl).
Defined.

(** The course of a read that finds [None] in the instance dictionary. *)
Definition fetch_outcome_dict (w : Lazy.World) (o : Lazy.Obj) (item : string)
  : Lazy.St * result Lazy.pyobj :=
  match exchange_outcome w o with
  | (st, Err e) => (st, Err e)
  | ((w1, o1), Ok rq) =>
      match plain_read o1 "url" with
      | Err e => ((w1, o1), Err e)
      | Ok url =>
          match rq with
          | Lazy.PRequester r =>
              let w2 := Lazy.log_request (r, url) w1 in
              match Lazy.requestJsonAndCheck w1 (List.length (Lazy.requests w1)) r url with
              | Err e => ((w2, o1), Err e)
              | Ok hd =>
                  ((w2, refreshed o1 rq (fst hd) (snd hd)),
                   plain_dict (refreshed o1 rq (fst hd) (snd hd)) item)
              end
          | _ => ((w1, o1),
                  Err (AttributeError "object has no attribute 'requestJsonAndCheck'"))
          end
      end
  end.

Lemma read_dict_fetch (w : Lazy.World) (o : Lazy.Obj) (li lr : Lazy.pyobj)
      (n : nat) (item : string) (v : Lazy.pyobj) :
  wf_class (Lazy.__class__ o) = true ->
  PyDict.get "_lazy_initialized" (Lazy.__dict__ o) = Some li ->
  Lazy.truthy li = true ->
  PyDict.get "_lazy_requester" (Lazy.__dict__ o) = Some lr ->
  Lazy.is_None lr = true ->
  dict_name o item ->
  PyStr.startswith item "_lazy" = false ->
  plain_dict o item = Ok v ->
  Lazy.is_None v = true ->
  Lazy.getattribute (S (S (S (S n)))) item (w, o) = fetch_outcome_dict w o item.
Proof.
  intros W Hli Htrue Hlr Hnone Hname Hpre Hv Hvn.
  rewrite getattribute_S. unfold Lazy.getattribute_body. unfold bind at 1.
  rewrite (super_getattribute_dict w o _ item Hname), Hv.
  cbv beta iota. rewrite (guard_value w o W li lr Hli Hlr).
  rewrite Hpre, Htrue, Hnone, Hvn. cbn [negb andb].
  unfold bind at 1.
  rewrite (read_lazy_requester w o li lr (S n) W Hli Hlr), Hnone.
  unfold fetch_outcome_dict, exchange_outcome.
  destruct (private_key_of w) as [k|e]; [|reflexivity].
  cbv zeta.
  set (w1 := Lazy.log_exchange _ w).
  destruct (Lazy.get_access_token w (List.length (Lazy.exchanges w))
              (Lazy.app_id w) k (Lazy.installation_id w)) as [token|e]; [|reflexivity].
  set (r := {| Lazy.auth_token := token |}).
  set (o1 := with_attr o "_lazy_requester" (Lazy.PRequester r)).
  assert (PyDict.get "_lazy_requester" (Lazy.__dict__ o1) = Some (Lazy.PRequester r))
    as Hlr1 by apply get_set_same.
  assert (PyDict.get "_lazy_initialized" (Lazy.__dict__ o1) = Some li) as Hli1.
  { unfold o1, with_attr; cbn [Lazy.__dict__].
    rewrite get_set_other; [assumption | reflexivity]. }
  assert (wf_class (Lazy.__class__ o1) = true) as W1 by exact W.
  cbv beta iota. unfold bind at 1.
  rewrite (read_cached w1 o1 li (Lazy.PRequester r) n "url" W1 Hli1 Hlr1 eq_refl).
  destruct (plain_read o1 "url") as [url|e]; [|reflexivity].
  cbv beta iota. unfold bind at 1. unfold Lazy.request. cbn [fst snd].
  set (w2 := Lazy.log_request (r, url) w1).
  destruct (Lazy.requestJsonAndCheck w1 (List.length (Lazy.requests w1)) r url)
    as [hd|e]; [|reflexivity].
  cbv beta iota. unfold bind at 1.
  rewrite (read_lazy_requester w2 o1 li (Lazy.PRequester r) (S n) W1 Hli1 Hlr1).
  cbn [Lazy.is_None]. cbv beta iota.
  unfold bind at 1, get_state. cbv beta iota.
  unfold bind at 1, Lazy.update_dict, modify. cbn [fst snd].
  fold (refreshed o1 (Lazy.PRequester r) (fst hd) (snd hd)).
  apply super_getattribute_dict. exact Hname.
Qed.

(** X21: reading [_requester], which [get_lazy_instance] leaves at [None],
    is itself a lazy read: it makes the exchange and the request, and what
    it returns is the requester built from the token of the exchange, now
    stored in [_requester]. *)
Theorem reading_requester_fetches
        (w : Lazy.World) (o : Lazy.Obj) (li : Lazy.pyobj) (n : nat)
        (k token : string) (url : Lazy.pyobj) (hd : PyDict.t value * PyDict.t value) :
  wf_class (Lazy.__class__ o) = true ->
  PyDict.get "_lazy_initialized" (Lazy.__dict__ o) = Some li ->
  Lazy.truthy li = true ->
  PyDict.get "_lazy_requester" (Lazy.__dict__ o) = Some Lazy.None_ ->
  PyDict.get "_requester" (Lazy.__dict__ o) = Some Lazy.None_ ->
  private_key_of w = Ok k ->
  Lazy.get_access_token w (List.length (Lazy.exchanges w))
                        (Lazy.app_id w) k (Lazy.installation_id w) = Ok token ->
  let r := {| Lazy.auth_token := token |} in
  plain_read (with_attr o "_lazy_requester" (Lazy.PRequester r)) "url" = Ok url ->
  Lazy.requestJsonAndCheck w (List.length (Lazy.requests w)) r url = Ok hd ->
  let read := Lazy.getattribute (S (S (S (S n)))) "_requester" (w, o) in
  snd read = Ok (Lazy.PRequester r) /\
  Lazy.exchanges (world_of read)
  = Lazy.exchanges w ++ [(Lazy.app_id w, k, Lazy.installation_id w)] /\
  Lazy.requests (world_of read) = Lazy.requests w ++ [(r, url)] /\
  PyDict.get "_requester" (Lazy.__dict__ (object_of read)) = Some (Lazy.PRequester r).
Proof.
  intros W Hli Htrue Hlr Hrq Hk Htok r Hurl Hreq read. subst read.
  assert (plain_dict o "_requester" = Ok Lazy.None_) as Hplain.
  { unfold plain_dict. rewrite Hrq. reflexivity. }
  rewrite (read_dict_fetch w o li Lazy.None_ n "_requester" Lazy.None_
             W Hli Htrue Hlr eq_refl (slot_dict_name o W "requester") eq_refl
             Hplain eq_refl).
  unfold fetch_outcome_dict, exchange_outcome. rewrite Hk, Htok. cbv zeta. fold r.
  rewrite Hurl.
  change (Lazy.requestJsonAndCheck
            (Lazy.log_exchange (Lazy.app_id w, k, Lazy.installation_id w) w))
    with (Lazy.requestJsonAndCheck w).
  change (Lazy.requests (Lazy.log_exchange (Lazy.app_id w, k, Lazy.installation_id w) w))
    with (Lazy.requests w).
  rewrite Hreq. unfold world_of, object_of. cbn [fst snd].
  set (o1 := with_attr o "_lazy_requester" (Lazy.PRequester r)).
  assert (wf_class (Lazy.__class__ o1) = true) as W1 by exact W.
  destruct (refreshed_bookkeeping o1 (Lazy.PRequester r) (fst hd) (snd hd) W1)
    as (Hrq' & _ & _).
  unfold plain_dict. rewrite Hrq'.
  repeat split; reflexivity.
Qed.

Lemma reading_requester_fetches_witness :
  let w := world_with token_number (fun _ => Ok ([], [("attr1", VStr "value1")])) in
  snd (Lazy.getattribute 4 "_requester" (w, instance))
  = Ok (Lazy.PRequester {| Lazy.auth_token := "token-0" |}).
Proof.
  intros w.
  apply (reading_requester_fetches
           w instance (Lazy.PValue (VBool true)) 0 "private-key" "token-0"
           (Lazy.PMethod "url") ([], [("attr1", VStr "value1")])
           eq_refl eq_refl eq_refl eq_refl eq_refl eq_refl eq_refl eq_refl eq_refl).
Defined.

(** ** Configuration: [get] with a default *)

Section ConfigFacts.
Variable builtin_attr : Config.pytype -> string -> bool.

Lemma getattr_default_returns (o : Config.obj) (name : string) (default : Config.obj) :
  exists x, Config.getattr_default builtin_attr o name default = Ok x.
Proof.
  unfold Config.getattr_default, Config.getattr, Config.__getattr__.
  destruct o as [v|attrs|self m].
  - destruct (builtin_attr (Config.type_of v) name); eexists; reflexivity.
  - destruct (PyDict.get name attrs); [eexists; reflexivity|].
    destruct (orb _ _); eexists; reflexivity.
  - destruct (builtin_attr Config.TMethod name); eexists; reflexivity.
Qed.

Lemma getattr_default_found (o x : Config.obj) (name : string) (default : Config.obj) :
  Config.getattr builtin_attr o name = Ok x ->
  Config.getattr_default builtin_attr o name default = Ok x.
Proof. unfold Config.getattr_default. intros ->. reflexivity. Qed.

Lemma get_loop_default_returns (names : list string) (o default : Config.obj) :
  Config.is_no_default default = false ->
  exists x, Config.get_loop builtin_attr o names default = Ok x.
Proof.
  intros Hd. revert o. induction names as [|name rest IH]; intros o; simpl.
  - eexists; reflexivity.
  - rewrite Hd. destruct (getattr_default_returns o name default) as [x ->]. apply IH.
Qed.

Lemma get_loop_default_ignored (names : list string) (o v default : Config.obj) :
  Config.get_loop builtin_attr o names Config.NO_DEFAULT = Ok v ->
  Config.get_loop builtin_attr o names default = Ok v.
Proof.
  revert o. induction names as [|name rest IH]; intros o; cbn [Config.get_loop]; [tauto|].
  change (Config.is_no_default Config.NO_DEFAULT) with true. cbv iota.
  intros H.
  destruct (Config.getattr builtin_attr o name) as [x|e] eqn:E; [|discriminate].
  destruct (Config.is_no_default default).
  - apply IH, H.
  - rewrite (getattr_default_found o x name default E). apply IH, H.
Qed.

End ConfigFacts.

(** X22: [get] with a default raises in one case only, whatever the
    configuration and the name: when a value was stored on the configuration
    under the name [get], calling [get] raises [TypeError]. Otherwise it
    returns: where the path breaks off, on a [ConfigValue] or on a plain
    value, the default takes over. *)
Theorem get_with_default_raises_only_when_hidden
        (builtin_attr : Config.pytype -> string -> bool)
        (self default : Config.obj) (config_name : string) :
  Config.is_no_default default = false ->
  if Config.hidden "get" self
  then Config.get builtin_attr self config_name default
       = Err (TypeError "object is not callable")
  else exists x, Config.get builtin_attr self config_name default = Ok x.
Proof.
  intros Hd. destruct (Config.hidden "get" self) eqn:Hh.
  - apply get_hidden. exact Hh.
  - rewrite get_not_hidden by exact Hh. apply get_loop_default_returns. exact Hd.
Qed.

Lemma get_with_default_raises_only_when_hidden_witness :
  (exists x, Config.get (fun _ _ => false) sample_config "a.c.d" (Config.OValue (VInt 7))
             = Ok x) /\
  Config.get (fun _ _ => false)
             (Config.OConfig [("_value", Config.OValue VNone);
                              ("get", Config.OValue (VInt 5))])
             "timeout" (Config.OValue (VInt 7))
  = Err (TypeError "object is not callable").
Proof.
  split.
  - exact (get_with_default_raises_only_when_hidden
             (fun _ _ => false) sample_config (Config.OValue (VInt 7)) "a.c.d" eq_refl).
  - exact (get_with_default_raises_only_when_hidden
             (fun _ _ => false)
             (Config.OConfig [("_value", Config.OValue VNone);
                              ("get", Config.OValue (VInt 5))])
             (Config.OValue (VInt 7)) "timeout" eq_refl).
Defined.

(** X23: a default does not replace a value that is there: when [get]
    without a default returns a value, [get] with any default returns the
    same value. *)
Theorem get_default_does_not_shadow
        (builtin_attr : Config.pytype -> string -> bool)
        (self v default : Config.obj) (config_name : string) :
  Config.get builtin_attr self config_name Config.NO_DEFAULT = Ok v ->
  Config.get builtin_attr self config_name default = Ok v.
Proof.
  unfold Config.get. destruct (Config.hidden "get" self); [discriminate|].
  apply get_loop_default_ignored.
Qed.

Lemma get_default_does_not_shadow_witness :
  Config.get (fun _ _ => false) sample_config "a.b" (Config.OValue (VInt 7))
  = Ok (Config.OValue (VInt 3)).
Proof.
  apply get_default_does_not_shadow. reflexivity.
Defined.

(** ** Configuration: [set_values] *)

Definition is_dict (v : value) : bool :=
  match v with VDict _ => true | _ => false end.

(** The entries of a mapping as attributes. *)
Definition as_attrs (items : PyDict.t value) : list (string * Config.obj) :=
  map (fun kv => (fst kv, Config.OValue (snd kv))) items.

Lemma keys_as_attrs (items : PyDict.t value) :
  PyDict.keys (as_attrs items) = PyDict.keys items.
Proof.
  unfold as_attrs, PyDict.keys. rewrite map_map. reflexivity.
Qed.

Lemma get_as_attrs (items : PyDict.t value) (k : string) :
  PyDict.get k (as_attrs items) = option_map Config.OValue (PyDict.get k items).
Proof.
  induction items as [|[k0 v0] items IH]; simpl; [reflexivity|].
  destruct (String.eqb k k0); [reflexivity | exact IH].
Qed.

(** Without nested mappings [set_values] is [dict.update] on the instance
    dictionary. *)
Lemma set_values_flat (builtin_attr : Config.pytype -> string -> bool)
      (items : PyDict.t value) (attrs : list (string * Config.obj)) :
  forallb (fun kv => negb (is_dict (snd kv))) items = true ->
  Config.set_values builtin_attr (VDict items) attrs
  = (PyDict.update attrs (as_attrs items), Ok tt).
Proof.
  cbn [Config.set_values]. unfold PyDict.update. revert attrs.
  induction items as [|[k v] items IH]; intros attrs H; [reflexivity|].
  simpl in H. apply andb_true_iff in H. destruct H as [Hv Hrest].
  destruct v; try discriminate; cbn [as_attrs map fold_left fst snd];
    apply IH; assumption.
Qed.



Lemma set_values_cons (builtin_attr : Config.pytype -> string -> bool)
      (attr : string) (v : value) (rest : PyDict.t value)
      (attrs : list (string * Config.obj)) :
  Config.set_values builtin_attr (VDict ((attr, v) :: rest)) attrs
  = match (match v with
           | VDict _ =>
               Config.set_nested builtin_attr
                                 (Config.set_values builtin_attr v) attr attrs
           | _ => (PyDict.set attr (Config.OValue v) attrs, Ok tt)
           end) with
    | (attrs', Ok _) => Config.set_values builtin_attr (VDict rest) attrs'
    | (attrs', Err e) => (attrs', Err e)
    end.
Proof. destruct v; reflexivity. Qed.

(** X25: a nested mapping given to [set_values] is merged into the section
    of that name when there is one: the names of the mapping take its
    values, and the other attributes of the section stay. *)
Theorem set_values_merges_sections
        (builtin_attr : Config.pytype -> string -> bool)
        (attrs child : list (string * Config.obj)) (section : string)
        (items : PyDict.t value) :
  PyDict.get section attrs = Some (Config.OConfig child) ->
  PyDict.get "set_values" child = None ->
  forallb (fun kv => negb (is_dict (snd kv))) items = true ->
  PyDict.wf items ->
  exists child',
    Config.set_values builtin_attr (VDict [(section, VDict items)]) attrs
    = (PyDict.set section (Config.OConfig child') attrs, Ok tt) /\
    (forall k v, PyDict.get k items = Some v ->
                 PyDict.get k child' = Some (Config.OValue v)) /\
    (forall k, PyDict.get k items = None -> PyDict.get k child' = PyDict.get k child).
Proof.
  intros Hsec Hmethod Hflat W.
  exists (PyDict.update child (as_attrs items)).
  assert (PyDict.wf (as_attrs items)) as W'.
  { unfold PyDict.wf. rewrite keys_as_attrs. exact W. }
  split; [|split].
  - rewrite set_values_cons. unfold Config.set_nested.
    cbn [Config.getattr]. rewrite Hsec. cbn [Config.set_values_of]. rewrite Hmethod.
    rewrite (set_values_flat builtin_attr items child Hflat). reflexivity.
  - intros k v Hk. rewrite get_update by exact W'. rewrite get_as_attrs, Hk. reflexivity.
  - intros k Hk. rewrite get_update by exact W'. rewrite get_as_attrs, Hk. reflexivity.
Qed.

Lemma set_values_merges_sections_witness :
  exists child',
    Config.set_values (fun _ _ => false) (VDict [("a", VDict [("c", VInt 4)])])
                      [("_value", Config.OValue VNone);
                       ("a", Config.OConfig [("_value", Config.OValue VNone);
                                             ("b", Config.OValue (VInt 3))])]
    = (PyDict.set "a" (Config.OConfig child')
                  [("_value", Config.OValue VNone);
                   ("a", Config.OConfig [("_value", Config.OValue VNone);
                                         ("b", Config.OValue (VInt 3))])], Ok tt) /\
    PyDict.get "b" child' = Some (Config.OValue (VInt 3)) /\
    PyDict.get "c" child' = Some (Config.OValue (VInt 4)).
Proof.
  destruct (set_values_merges_sections
              (fun _ _ => false)
              [("_value", Config.OValue VNone);
               ("a", Config.OConfig [("_value", Config.OValue VNone);
                                     ("b", Config.OValue (VInt 3))])]
              [("_value", Config.OValue VNone); ("b", Config.OValue (VInt 3))]
              "a" [("c", VInt 4)] eq_refl eq_refl eq_refl)
    as (child' & Hset & Hnew & Hold).
  - repeat constructor; simpl; tauto.
  - exists child'. split; [exact Hset|]. split.
    + rewrite (Hold "b" eq_refl). reflexivity.
    + apply (Hnew "c" (VInt 4) eq_refl).
Defined.

(** X26: a nested mapping cannot replace a plain value, and cannot be given
    under a name that the class [ConfigValue] defines ([get],
    [set_values], ...): [set_values] raises [AttributeError] at that entry
    and stores nothing of it or of the entries after it. Plain values and
    bound methods have no [set_values], which is the hypothesis on the
    built-in attributes. *)
Theorem set_values_cannot_nest_over_a_value
        (builtin_attr : Config.pytype -> string -> bool)
        (attrs : list (string * Config.obj)) (name : string)
        (items rest : PyDict.t value) :
  (forall v, PyDict.get name attrs = Some (Config.OValue v) ->
             builtin_attr (Config.type_of v) "set_values" = false ->
             Config.set_values builtin_attr (VDict ((name, VDict items) :: rest)) attrs
             = (attrs, Err (AttributeError "set_values"))) /\
  (PyDict.get name attrs = None ->
   existsb (String.eqb name) Config.ConfigValue_attrs = true ->
   builtin_attr Config.TMethod "set_values" = false ->
   Config.set_values builtin_attr (VDict ((name, VDict items) :: rest)) attrs
   = (attrs, Err (AttributeError "set_values"))).
Proof.
  split.
  - intros v Hv Hb. rewrite set_values_cons. unfold Config.set_nested.
    cbn [Config.getattr]. rewrite Hv. cbn [Config.set_values_of Config.getattr].
    rewrite Hb. reflexivity.
  - intros Hnone Hclass Hb. rewrite set_values_cons. unfold Config.set_nested.
    cbn [Config.getattr]. rewrite Hnone, Hclass. cbn [orb].
    cbn [Config.set_values_of Config.getattr]. rewrite Hb. reflexivity.
Qed.

Lemma set_values_cannot_nest_over_a_value_witness :
  Config.set_values (fun _ _ => false) (VDict [("timeout", VDict [("seconds", VInt 5)])])
                    [("_value", Config.OValue VNone); ("timeout", Config.OValue (VInt 30))]
  = ([("_value", Config.OValue VNone); ("timeout", Config.OValue (VInt 30))],
     Err (AttributeError "set_values")) /\
  Config.set_values (fun _ _ => false) (VDict [("get", VDict [("seconds", VInt 5)])])
                    [("_value", Config.OValue VNone)]
  = ([("_value", Config.OValue VNone)], Err (AttributeError "set_values")).
Proof.
  split.
  - apply (proj1 (set_values_cannot_nest_over_a_value
                    (fun _ _ => false)
                    [("_value", Config.OValue VNone); ("timeout", Config.OValue (VInt 30))]
                    "timeout" [("seconds", VInt 5)] []) (VInt 30));
      reflexivity.
  - apply (proj2 (set_values_cannot_nest_over_a_value
                    (fun _ _ => false) [("_value", Config.OValue VNone)]
                    "get" [("seconds", VInt 5)] []));
      reflexivity.
Defined.

(** ** Configuration: [create_config], [load_config_from_file], [call_if] *)

(** X27: [create_config] with a default other than [None] and with sub
    values raises [ConfigError] and changes nothing. Without sub values, a
    default that is false ([0], [False], the empty string) is not stored:
    the name becomes an empty [ConfigValue]; a true default that is not a
    mapping is stored and read back. *)
Theorem create_config_defaults
        (builtin_attr : Config.pytype -> string -> bool)
        (attrs : list (string * Config.obj)) (name : string) (default : value)
        (values : PyDict.t value) :
  (PyVal.is_none default = false -> values <> [] ->
   Config.create_config builtin_attr name default values attrs
   = (attrs,
      Err (ConfigError
             "You cannot set the default value AND default values for sub values"))) /\
  (PyDict.get "set_values" attrs = None ->
   PyVal.truthy default = false ->
   Config.create_config builtin_attr name default [] attrs
   = (PyDict.set name (Config.ConfigValue VNone) attrs, Ok tt)) /\
  (PyDict.get "set_values" attrs = None ->
   PyVal.truthy default = true -> is_dict default = false ->
   exists attrs',
     Config.create_config builtin_attr name default [] attrs = (attrs', Ok tt) /\
     Config.getattr builtin_attr (Config.OConfig attrs') name
     = Ok (Config.OValue default)).
Proof.
  unfold Config.create_config. split; [|split].
  - intros -> Hne.
    assert (PyVal.truthy (VDict values) = true) as ->
        by (destruct values; [congruence | reflexivity]).
    reflexivity.
  - intros Hm Hf. cbn [PyVal.truthy andb]. rewrite andb_false_r, Hf.
    cbn [Config.set_values_of]. rewrite Hm. reflexivity.
  - intros Hm Ht Hd. cbn [PyVal.truthy andb]. rewrite andb_false_r, Ht.
    cbn [Config.set_values_of]. rewrite Hm.
    exists (PyDict.set name (Config.OValue default) attrs). split.
    + destruct default; try discriminate; reflexivity.
    + cbn [Config.getattr]. rewrite get_set_same. reflexivity.
Qed.

Lemma create_config_defaults_witness :
  Config.create_config (fun _ _ => false) "retries" (VInt 0) []
                       [("_value", Config.OValue VNone)]
  = ([("_value", Config.OValue VNone); ("retries", Config.ConfigValue VNone)], Ok tt) /\
  Config.create_config (fun _ _ => false) "retries" (VInt 3) [("max", VInt 5)]
                       [("_value", Config.OValue VNone)]
  = ([("_value", Config.OValue VNone)],
     Err (ConfigError
            "You cannot set the default value AND default values for sub values")).
Proof.
  split.
  - apply (proj1 (proj2 (create_config_defaults
                           (fun _ _ => false) [("_value", Config.OValue VNone)]
                           "retries" (VInt 0) []))); reflexivity.
  - apply (proj1 (create_config_defaults
                    (fun _ _ => false) [("_value", Config.OValue VNone)]
                    "retries" (VInt 3) [("max", VInt 5)])); [reflexivity | discriminate].
Defined.

(** X28: [load_config_from_file] leaves the configuration as it is, without
    an error, when the repository has no such file and when the file is
    empty; a document that is not a mapping (a list, a string) raises
    [AttributeError]; the names of a mapping without nested mappings read
    afterwards as the file gives them. *)
Theorem load_config_from_file_cases
        (builtin_attr : Config.pytype -> string -> bool)
        (attrs : list (string * Config.obj)) :
  Config.load_config_from_file builtin_attr Config.UnknownObject attrs = (attrs, Ok tt) /\
  (PyDict.get "set_values" attrs = None ->
   (forall document,
       PyVal.truthy document = false ->
       Config.load_config_from_file builtin_attr (Config.Loaded document) attrs
       = (attrs, Ok tt)) /\
   (forall document,
       PyVal.truthy document = true -> is_dict document = false ->
       Config.load_config_from_file builtin_attr (Config.Loaded document) attrs
       = (attrs, Err (AttributeError "object has no attribute 'items'"))) /\
   (forall items,
       items <> [] ->
       forallb (fun kv => negb (is_dict (snd kv))) items = true ->
       PyDict.wf items ->
       exists attrs',
         Config.load_config_from_file builtin_attr (Config.Loaded (VDict items)) attrs
         = (attrs', Ok tt) /\
         forall k v, PyDict.get k items = Some v ->
                     Config.getattr builtin_attr (Config.OConfig attrs') k
                     = Ok (Config.OValue v))).
Proof.
  split; [reflexivity|]. intros Hm.
  unfold Config.load_config_from_file. cbn [Config.set_values_of]. rewrite Hm.
  split; [|split].
  - intros document ->. reflexivity.
  - intros document -> Hd. destruct document; try discriminate; reflexivity.
  - intros items Hne Hflat W.
    assert (PyVal.truthy (VDict items) = true) as ->
        by (destruct items; [congruence | reflexivity]).
    exists (PyDict.update attrs (as_attrs items)).
    split; [apply set_values_flat; assumption|].
    intros k v Hk. cbn [Config.getattr].
    rewrite get_update by (unfold PyDict.wf; rewrite keys_as_attrs; exact W).
    rewrite get_as_attrs, Hk. reflexivity.
Qed.

Lemma load_config_from_file_cases_witness :
  Config.load_config_from_file (fun _ _ => false) (Config.Loaded VNone)
                               [("_value", Config.OValue VNone)]
  = ([("_value", Config.OValue VNone)], Ok tt) /\
  Config.load_config_from_file (fun _ _ => false) (Config.Loaded (VList [VInt 1]))
                               [("_value", Config.OValue VNone)]
  = ([("_value", Config.OValue VNone)],
     Err (AttributeError "object has no attribute 'items'")).
Proof.
  destruct (proj2 (load_config_from_file_cases
                     (fun _ _ => false) [("_value", Config.OValue VNone)]) eq_refl)
    as (Hempty & Hbad & _).
  split.
  - apply Hempty. reflexivity.
  - apply Hbad; reflexivity.
Defined.



(** ** Lazy objects: every read, and how deep reads nest *)














(** ** [start_check_run] on an example *)

Example start_check_run_defaults :
  Event.start_check_run true (VStr "lint") (VStr "abc123") (VStr "") VNone VNone
                        (VStr "in_progress")
  = Ok (VStr "lint", VStr "abc123", VStr "in_progress",
        [("title", VStr "lint"); ("summary", VStr "")]).
Proof. reflexivity. Qed.
